(** * arc-mcp: the sidebar document engine of [src/arc.ts]

    A shallow embedding of the document model and of the operations that
    read and rewrite Arc's [StorableSidebar.json]: [listSpaces],
    [createSpace], [deleteSpace], [listTabs] (both the flat listing of
    [src/arc.ts] and the nested listing of its later revision), [addTab]
    and [deleteTab].

    The file system, the clock and the UUID generator are an explicit
    [World]; an operation is a function from a world to an outcome (a
    returned value or a thrown exception) and the next world. *)

From stdpp Require Import base option list strings gmap.
From Stdlib Require Import ZArith Ascii String.

Local Open Scope string_scope.
Local Open Scope list_scope.
Local Set Warnings "-register-all".

(** ** JavaScript values as the code uses them *)

(** [!s] is true for the empty string; [undefined] and [null] are falsy. *)
Definition truthy (s : string) : bool :=
  match s with EmptyString => false | String _ _ => true end.

Definition truthy_opt (o : option string) : bool :=
  match o with Some s => truthy s | None => false end.

(** [a || b] on strings. *)
Definition or_str (a b : string) : string := if truthy a then a else b.

(** [a || b] where [a] may be [undefined]. *)
Definition opt_or_str (a : option string) (b : string) : string :=
  match a with Some s => or_str s b | None => b end.

(** [a || b] where both may be [undefined]. *)
Definition opt_or_opt (a b : option string) : option string :=
  if truthy_opt a then a else b.

(** [a === b] on strings. *)
Definition str_eq (a b : string) : bool := bool_decide (a = b).

(** [String.prototype.toUpperCase] on the ASCII range, which is where the
    characters of a UUID live. *)
Definition upper_ascii (c : ascii) : ascii :=
  let n := nat_of_ascii c in
  if (97 <=? n)%nat && (n <=? 122)%nat then ascii_of_nat (n - 32) else c.

Fixpoint toUpperCase (s : string) : string :=
  match s with
  | EmptyString => EmptyString
  | String c r => String (upper_ascii c) (toUpperCase r)
  end.

(** [s.includes(".")]. *)
Fixpoint includes_dot (s : string) : bool :=
  match s with
  | EmptyString => false
  | String c r => if Ascii.eqb c "."%char then true else includes_dot r
  end.

(** ** The document model ([SidebarData] and its parts) *)

(** An array slot of type [string | T]: a bare identifier token or a record. *)
Inductive Entry (A : Type) : Type :=
  | Token (s : string)
  | Obj (a : A).
Arguments Token {A} s.
Arguments Obj {A} a.

(** The cosmetic [windowTheme] object, never inspected by the code. *)
Definition Theme := string.

Record IconType := mkIconType {
  emoji : option string;
  icon : option string }.

Record CustomInfo := mkCustomInfo {
  iconType : option IconType;
  windowTheme : option Theme }.

(** Elements of [newContainerIDs]: [{pinned: {}}],
    [{unpinned: {_0: {shared: {}}}}] or an identifier. *)
Inductive NewContainerID :=
  | NCPinned
  | NCUnpinnedShared
  | NCId (s : string).

Record SpaceObject := mkSpace {
  space_id : string;
  space_title : string;
  profile : option bool;
  containerIDs : option (list string);
  newContainerIDs : option (list NewContainerID);
  customInfo : option CustomInfo }.

(** Timestamps are [Date.now() / 1000]; the model keeps the millisecond
    numerator of that quotient. *)
Definition seconds := Z.

Record TabData := mkTabData {
  savedURL : option string;
  savedTitle : option string;
  savedMuteStatus : option string;
  timeLastActiveAt : option seconds }.

(** [itemContainer.containerType.spaceItems._0]: the owning space. *)
Record ItemContainer := mkItemContainer {
  spaceItems : option string }.

Record ItemData := mkItemData {
  tab : option TabData;
  itemContainer : option ItemContainer }.

Record ItemObject := mkItem {
  item_id : string;
  item_title : option string;
  parentID : option string;
  childrenIds : option (list string);
  createdAt : option seconds;
  originatingDevice : option string;
  isUnread : option bool;
  data : option ItemData }.

Definition set_childrenIds (cs : option (list string)) (it : ItemObject) : ItemObject :=
  {| item_id := item_id it; item_title := item_title it; parentID := parentID it;
     childrenIds := cs; createdAt := createdAt it;
     originatingDevice := originatingDevice it; isUnread := isUnread it;
     data := data it |}.

(** One element of [sidebar.containers]. *)
Record Container := mkContainer {
  spaces : option (list (Entry SpaceObject));
  items : option (list (Entry ItemObject)) }.

(** Records of [sidebarSyncState.spaceModels]. *)
Record LocalSpaceModel := mkLocalSpaceModel {
  encodedCKRecordFields : option string;
  local_value : option SpaceObject }.

(** [sidebarSyncState]; [local_orderedSpaceIDs] is
    [container.value.orderedSpaceIDs], absent when any link of that chain is. *)
Record SidebarSyncState := mkSidebarSyncState {
  local_orderedSpaceIDs : option (list string);
  local_spaceModels : option (list (Entry LocalSpaceModel)) }.

(** A record of the remote ledger, stamped with change date and device. *)
Record Stamped (A : Type) := mkStamped {
  stamp_id : string;
  lastChangeDate : seconds;
  lastChangedDevice : string;
  stamp_value : A }.
Arguments mkStamped {A} _ _ _ _.
Arguments stamp_id {A} _.
Arguments lastChangeDate {A} _.
Arguments lastChangedDevice {A} _.
Arguments stamp_value {A} _.

Record OrderedSpaceIDs := mkOrderedSpaceIDs {
  ordered_value : option (list string);
  ordered_lastChangeDate : option seconds;
  ordered_lastChangedDevice : option string }.

(** [firebaseSyncState.syncData]. *)
Record SyncData := mkSyncData {
  orderedSpaceIDs : option OrderedSpaceIDs;
  spaceModels : option (list (Entry (Stamped SpaceObject)));
  sync_items : option (list (Entry (Stamped ItemObject))) }.

(** The parsed file. [containers] is [data.sidebar.containers] and
    [syncData] is [data.firebaseSyncState.syncData]; either is [None] when a
    link of its chain is absent, which is all the code can observe through
    its [?.] probes. *)
Record SidebarData := mkSidebarData {
  containers : option (list Container);
  sidebarSyncState : option SidebarSyncState;
  syncData : option SyncData }.

(** ** Exceptions, outcomes and the world *)

Inductive Exn :=
  | ENOENT       (* readFileSync / copyFileSync on a missing file *)
  | SyntaxError  (* JSON.parse on text that is not JSON *)
  | EACCES       (* a write that the file system refuses *)
  | TypeError    (* property access on undefined *)
  | RangeError.  (* maximum call stack size exceeded *)

(** [error.message] of a caught exception. *)
Definition message (e : Exn) : string :=
  match e with
  | ENOENT => "ENOENT: no such file or directory"
  | SyntaxError => "Unexpected token in JSON"
  | EACCES => "EACCES: permission denied"
  | TypeError => "Cannot read properties of undefined"
  | RangeError => "Maximum call stack size exceeded"
  end.

Inductive outcome (A : Type) : Type :=
  | Returned (a : A)
  | Thrown (e : Exn).
Arguments Returned {A} a.
Arguments Thrown {A} e.

(** What [SIDEBAR_FILE] holds: text that [JSON.parse] rejects, or a document. *)
Inductive FileContent :=
  | NotJson (raw : string)
  | Json (d : SidebarData).

Record World := mkWorld {
  sidebar_file : option FileContent;        (* None: the file is missing *)
  backups : list (Z * FileContent);         (* StorableSidebar.backup.<ms>.json *)
  dir_writable : bool;                      (* may a sibling file be created *)
  file_writable : bool;                     (* may SIDEBAR_FILE be overwritten *)
  writes : nat;                             (* completed writeFileSync calls *)
  clock : nat -> Z;                         (* successive Date.now() readings *)
  clock_reads : nat;
  uuid_source : nat -> string;              (* successive randomUUID() draws *)
  uuid_draws : nat }.

Definition IO (A : Type) : Type := World -> outcome A * World.

Definition ret {A} (a : A) : IO A := fun w => (Returned a, w).
Definition throw {A} (e : Exn) : IO A := fun w => (Thrown e, w).

Definition bind {A B} (c : IO A) (k : A -> IO B) : IO B :=
  fun w => match c w with
           | (Returned a, w') => k a w'
           | (Thrown e, w') => (Thrown e, w')
           end.

(** [try { body } catch (error) { handler }]. *)
Definition try_catch {A} (body : IO A) (handler : Exn -> IO A) : IO A :=
  fun w => match body w with
           | (Returned a, w') => (Returned a, w')
           | (Thrown e, w') => handler e w'
           end.

(** A pure computation that may throw, run inside [IO]. *)
Definition lift {A} (o : outcome A) : IO A := fun w => (o, w).

Notation "'let*' x ':=' c 'in' k" := (bind c (fun x => k))
  (at level 10, x name, c at level 100, k at level 200).

(** ** DocumentStore: the file, its backups, the clock and the UUID source *)

Definition with_file (c : FileContent) (w : World) : World :=
  {| sidebar_file := Some c; backups := backups w; dir_writable := dir_writable w;
     file_writable := file_writable w; writes := S (writes w); clock := clock w;
     clock_reads := clock_reads w; uuid_source := uuid_source w;
     uuid_draws := uuid_draws w |}.

Definition with_backup (b : Z * FileContent) (w : World) : World :=
  {| sidebar_file := sidebar_file w; backups := b :: backups w;
     dir_writable := dir_writable w; file_writable := file_writable w;
     writes := writes w; clock := clock w; clock_reads := clock_reads w;
     uuid_source := uuid_source w; uuid_draws := uuid_draws w |}.

Definition tick_clock (w : World) : World :=
  {| sidebar_file := sidebar_file w; backups := backups w;
     dir_writable := dir_writable w; file_writable := file_writable w;
     writes := writes w; clock := clock w; clock_reads := S (clock_reads w);
     uuid_source := uuid_source w; uuid_draws := uuid_draws w |}.

Definition tick_uuid (w : World) : World :=
  {| sidebar_file := sidebar_file w; backups := backups w;
     dir_writable := dir_writable w; file_writable := file_writable w;
     writes := writes w; clock := clock w; clock_reads := clock_reads w;
     uuid_source := uuid_source w; uuid_draws := S (uuid_draws w) |}.

Definition readFileSync : IO FileContent :=
  fun w => match sidebar_file w with
           | Some c => (Returned c, w)
           | None => (Thrown ENOENT, w)
           end.

Definition JSON_parse (c : FileContent) : outcome SidebarData :=
  match c with
  | Json d => Returned d
  | NotJson _ => Thrown SyntaxError
  end.

(** The write is atomic in the model: it replaces the whole content or
    throws and leaves it as it was. *)
Definition writeFileSync (c : FileContent) : IO unit :=
  fun w => if file_writable w then (Returned tt, with_file c w)
           else (Thrown EACCES, w).

Definition copyFileSync (stamp : Z) : IO unit :=
  fun w => match sidebar_file w with
           | None => (Thrown ENOENT, w)
           | Some c => if dir_writable w then (Returned tt, with_backup (stamp, c) w)
                       else (Thrown EACCES, w)
           end.

Definition Date_now : IO Z :=
  fun w => (Returned (clock w (clock_reads w)), tick_clock w).

Definition randomUUID : IO string :=
  fun w => (Returned (uuid_source w (uuid_draws w)), tick_uuid w).

Definition loadSidebar : IO SidebarData :=
  let* content := readFileSync in
  lift (JSON_parse content).

Definition saveSidebar (d : SidebarData) : IO unit :=
  writeFileSync (Json d).

Definition createBackup : IO Z :=
  let* timestamp := Date_now in
  let* _ := copyFileSync timestamp in
  ret timestamp.

(** [randomUUID().toUpperCase()]. *)
Definition newId : IO string :=
  let* u := randomUUID in
  ret (toUpperCase u).

(** ** Reading and assigning [data.sidebar.containers[1]] *)

Definition container1 (d : SidebarData) : option Container :=
  match containers d with
  | Some cs => cs !! 1%nat
  | None => None
  end.

(** [data.sidebar?.containers?.[1]?.spaces || []]. *)
Definition primary_spaces (d : SidebarData) : list (Entry SpaceObject) :=
  match container1 d with
  | Some c => default [] (spaces c)
  | None => []
  end.

(** [data.sidebar?.containers?.[1]?.items || []]. *)
Definition primary_items (d : SidebarData) : list (Entry ItemObject) :=
  match container1 d with
  | Some c => default [] (items c)
  | None => []
  end.

(** [data.sidebar.containers[1].spaces = f(data.sidebar.containers[1].spaces)];
    the unguarded property chain throws when a link is missing. *)
Definition assign_spaces
    (f : option (list (Entry SpaceObject)) -> list (Entry SpaceObject))
    (d : SidebarData) : outcome SidebarData :=
  match containers d with
  | Some cs =>
      match cs !! 1%nat with
      | Some c =>
          Returned {| containers :=
                        Some (<[1%nat := {| spaces := Some (f (spaces c));
                                            items := items c |}]> cs);
                      sidebarSyncState := sidebarSyncState d;
                      syncData := syncData d |}
      | None => Thrown TypeError
      end
  | None => Thrown TypeError
  end.

Definition assign_items
    (f : option (list (Entry ItemObject)) -> list (Entry ItemObject))
    (d : SidebarData) : outcome SidebarData :=
  match containers d with
  | Some cs =>
      match cs !! 1%nat with
      | Some c =>
          Returned {| containers :=
                        Some (<[1%nat := {| spaces := spaces c;
                                            items := Some (f (items c)) |}]> cs);
                      sidebarSyncState := sidebarSyncState d;
                      syncData := syncData d |}
      | None => Thrown TypeError
      end
  | None => Thrown TypeError
  end.

(** ** Guarded updates of the two ledgers *)

(** [if (data.sidebarSyncState?.container?.value?.orderedSpaceIDs) ...]. *)
Definition on_local_ordered (f : list string -> list string) (d : SidebarData)
    : SidebarData :=
  match sidebarSyncState d with
  | Some s =>
      match local_orderedSpaceIDs s with
      | Some l =>
          {| containers := containers d;
             sidebarSyncState :=
               Some {| local_orderedSpaceIDs := Some (f l);
                       local_spaceModels := local_spaceModels s |};
             syncData := syncData d |}
      | None => d
      end
  | None => d
  end.

(** [if (data.sidebarSyncState?.spaceModels) ...]. *)
Definition on_local_spaceModels
    (f : list (Entry LocalSpaceModel) -> list (Entry LocalSpaceModel))
    (d : SidebarData) : SidebarData :=
  match sidebarSyncState d with
  | Some s =>
      match local_spaceModels s with
      | Some l =>
          {| containers := containers d;
             sidebarSyncState :=
               Some {| local_orderedSpaceIDs := local_orderedSpaceIDs s;
                       local_spaceModels := Some (f l) |};
             syncData := syncData d |}
      | None => d
      end
  | None => d
  end.

(** [if (syncData?.orderedSpaceIDs) ...]: the guard of [createSpace]. *)
Definition on_sync_ordered (f : OrderedSpaceIDs -> OrderedSpaceIDs)
    (d : SidebarData) : SidebarData :=
  match syncData d with
  | Some sd =>
      match orderedSpaceIDs sd with
      | Some o =>
          {| containers := containers d;
             sidebarSyncState := sidebarSyncState d;
             syncData := Some {| orderedSpaceIDs := Some (f o);
                                 spaceModels := spaceModels sd;
                                 sync_items := sync_items sd |} |}
      | None => d
      end
  | None => d
  end.

(** [if (syncData?.spaceModels) ...]. *)
Definition on_sync_spaceModels
    (f : list (Entry (Stamped SpaceObject)) -> list (Entry (Stamped SpaceObject)))
    (d : SidebarData) : SidebarData :=
  match syncData d with
  | Some sd =>
      match spaceModels sd with
      | Some l =>
          {| containers := containers d;
             sidebarSyncState := sidebarSyncState d;
             syncData := Some {| orderedSpaceIDs := orderedSpaceIDs sd;
                                 spaceModels := Some (f l);
                                 sync_items := sync_items sd |} |}
      | None => d
      end
  | None => d
  end.

(** [if (syncData?.items) ...]. *)
Definition on_sync_items
    (f : list (Entry (Stamped ItemObject)) -> list (Entry (Stamped ItemObject)))
    (d : SidebarData) : SidebarData :=
  match syncData d with
  | Some sd =>
      match sync_items sd with
      | Some l =>
          {| containers := containers d;
             sidebarSyncState := sidebarSyncState d;
             syncData := Some {| orderedSpaceIDs := orderedSpaceIDs sd;
                                 spaceModels := spaceModels sd;
                                 sync_items := Some (f l) |} |}
      | None => d
      end
  | None => d
  end.

(** ** IdentifierAllocator: [getDeviceId] *)

Fixpoint first_originatingDevice (l : list (Entry ItemObject)) : string :=
  match l with
  | [] => ""
  | Obj it :: r =>
      if truthy_opt (originatingDevice it) then default "" (originatingDevice it)
      else first_originatingDevice r
  | Token _ :: r => first_originatingDevice r
  end.

Definition getDeviceId (d : SidebarData) : string :=
  let deviceId :=
    match syncData d with
    | Some sd =>
        match orderedSpaceIDs sd with
        | Some o => opt_or_str (ordered_lastChangedDevice o) ""
        | None => ""
        end
    | None => ""
    end in
  if truthy deviceId then deviceId else first_originatingDevice (primary_items d).

(** ** Results handed to the command layer *)

(** [{ success, spaceId? | tabId?, error? }]. *)
Record Result := mkResult {
  success : bool;
  ident : option string;
  error : option string }.

Definition ok : Result := {| success := true; ident := None; error := None |}.
Definition ok_id (i : string) : Result :=
  {| success := true; ident := Some i; error := None |}.
Definition failure (msg : string) : Result :=
  {| success := false; ident := None; error := Some msg |}.

(** The conditions of the error taxonomy, as the results that report them. *)
Definition StorageUnavailable (e : Exn) : Result := failure (message e).
Definition SpaceNotFound (nameOrId : string) : Result :=
  failure ("Space not found: " ++ nameOrId).
Definition TabNotFound (tabId : string) : Result :=
  failure ("Tab not found: " ++ tabId).
Definition ThemeTemplateMissing : Result :=
  failure "Could not find theme template from existing spaces".
Definition ContainerMissing (spaceId : string) : Result :=
  failure ("Container not found for space: " ++ spaceId).

(** The [catch (error)] clause shared by the mutating operations. *)
Definition report (e : Exn) : IO Result := ret (failure (message e)).

(** ** SpaceRegistry *)

Record Space := mkSpaceView {
  view_id : string;
  view_title : string;
  view_icon : option string }.

Definition space_icon (s : SpaceObject) : option string :=
  match customInfo s with
  | Some ci =>
      match iconType ci with
      | Some it => opt_or_opt (emoji it) (icon it)
      | None => None
      end
  | None => None
  end.

Fixpoint collect_spaces (l : list (Entry SpaceObject)) : list Space :=
  match l with
  | [] => []
  | Obj s :: r =>
      if truthy (space_id s) && truthy (space_title s)
      then {| view_id := space_id s; view_title := space_title s;
              view_icon := space_icon s |} :: collect_spaces r
      else collect_spaces r
  | Token _ :: r => collect_spaces r
  end.

(** [listSpaces] has no [try]: an exception of [loadSidebar] leaves it. *)
Definition listSpaces : IO (list Space) :=
  let* d := loadSidebar in
  ret (collect_spaces (primary_spaces d)).

(** [item.id === spaceNameOrId || item.title === spaceNameOrId]. *)
Definition space_matches (nameOrId : string) (s : SpaceObject) : bool :=
  str_eq (space_id s) nameOrId || str_eq (space_title s) nameOrId.

(** The scan that [deleteSpace], [addTab] and [listTabs] each spell out:
    the first record, in storage order from index [i], that matches. *)
Fixpoint findSpaceFrom (i : nat) (nameOrId : string) (l : list (Entry SpaceObject))
    : option (nat * SpaceObject) :=
  match l with
  | [] => None
  | Obj s :: r =>
      if space_matches nameOrId s then Some (i, s)
      else findSpaceFrom (S i) nameOrId r
  | Token _ :: r => findSpaceFrom (S i) nameOrId r
  end.

Definition findSpace (nameOrId : string) (l : list (Entry SpaceObject))
    : option (nat * SpaceObject) :=
  findSpaceFrom 0 nameOrId l.

(** [containerIDs.filter((id) => id !== "pinned" && id !== "unpinned")]. *)
Definition not_marker (id : string) : bool :=
  negb (str_eq id "pinned") && negb (str_eq id "unpinned").

Definition structural_ids (s : SpaceObject) : list string :=
  List.filter not_marker (default [] (containerIDs s)).

(** ** MirrorSynchronizer: [createSpace] *)

(** The first space record that carries a [windowTheme]. *)
Fixpoint find_theme (l : list (Entry SpaceObject)) : option Theme :=
  match l with
  | [] => None
  | Obj s :: r =>
      match customInfo s with
      | Some ci =>
          match windowTheme ci with
          | Some t => Some t
          | None => find_theme r
          end
      | None => find_theme r
      end
  | Token _ :: r => find_theme r
  end.

Definition iconObj (ic : string) : IconType :=
  if includes_dot ic then {| emoji := None; icon := Some ic |}
  else {| emoji := Some ic; icon := None |}.

Definition new_space (spaceId name ic pinnedId unpinnedId : string) (theme : Theme)
    : SpaceObject :=
  {| space_id := spaceId;
     space_title := name;
     profile := Some true;
     containerIDs := Some ["pinned"; pinnedId; "unpinned"; unpinnedId];
     newContainerIDs := Some [NCPinned; NCId pinnedId; NCUnpinnedShared; NCId unpinnedId];
     customInfo := Some {| iconType := Some (iconObj ic); windowTheme := Some theme |} |}.

(** [{ ...contBase, id }]. *)
Definition new_container (id spaceId deviceId : string) (ts : seconds) : ItemObject :=
  {| item_id := id;
     item_title := None;
     parentID := None;
     childrenIds := Some [];
     createdAt := Some ts;
     originatingDevice := Some deviceId;
     isUnread := Some false;
     data := Some {| tab := None;
                     itemContainer := Some {| spaceItems := Some spaceId |} |} |}.

Definition stamped {A} (id : string) (ts : seconds) (deviceId : string) (v : A)
    : Stamped A :=
  {| stamp_id := id; lastChangeDate := ts; lastChangedDevice := deviceId;
     stamp_value := v |}.

Definition createSpace (name : string) (icon_arg : option string) : IO Result :=
  try_catch
    (let* d := loadSidebar in
     let* _ := createBackup in
     let* spaceId := newId in
     let* pinnedId := newId in
     let* unpinnedId := newId in
     let* ts := Date_now in
     let ic := default "star" icon_arg in
     let deviceId := getDeviceId d in
     match find_theme (primary_spaces d) with
     | None => ret ThemeTemplateMissing
     | Some theme =>
         let spaceObj := new_space spaceId name ic pinnedId unpinnedId theme in
         let pinnedCont := new_container pinnedId spaceId deviceId ts in
         let unpinnedCont := new_container unpinnedId spaceId deviceId ts in
         (* 1. sidebar.containers[1].spaces *)
         let* d1 := lift (assign_spaces
                            (fun old => default [] old ++ [Token spaceId; Obj spaceObj]) d) in
         (* 2. sidebar.containers[1].items *)
         let* d2 := lift (assign_items
                            (fun old => default [] old ++
                               [Token pinnedId; Obj pinnedCont;
                                Token unpinnedId; Obj unpinnedCont]) d1) in
         (* 3. sidebarSyncState.container.value.orderedSpaceIDs *)
         let d3 := on_local_ordered (fun l => l ++ [spaceId]) d2 in
         (* 4. sidebarSyncState.spaceModels *)
         let d4 := on_local_spaceModels
                     (fun l => l ++ [Token spaceId;
                                     Obj {| encodedCKRecordFields := None;
                                            local_value := Some spaceObj |}]) d3 in
         (* 5. firebaseSyncState.syncData.orderedSpaceIDs *)
         let d5 := on_sync_ordered
                     (fun o => {| ordered_value :=
                                    Some (default [] (ordered_value o) ++ [spaceId]);
                                  ordered_lastChangeDate := Some ts;
                                  ordered_lastChangedDevice := Some deviceId |}) d4 in
         (* 6. firebaseSyncState.syncData.spaceModels *)
         let d6 := on_sync_spaceModels
                     (fun l => l ++ [Token spaceId;
                                     Obj (stamped spaceId ts deviceId spaceObj)]) d5 in
         (* 7. firebaseSyncState.syncData.items *)
         let d7 := on_sync_items
                     (fun l => l ++ [Token pinnedId;
                                     Obj (stamped pinnedId ts deviceId pinnedCont);
                                     Token unpinnedId;
                                     Obj (stamped unpinnedId ts deviceId unpinnedCont)]) d6 in
         let* _ := saveSidebar d7 in
         ret (ok_id spaceId)
     end)
    report.

(** ** MirrorSynchronizer: [deleteSpace] *)

(** The loop that grows [itemsToRemove] from [new Set(containerIds)]. *)
Definition itemsToRemove (containerIds : list string) (its : list (Entry ItemObject))
    : gset string :=
  foldl (fun acc e =>
           match e with
           | Obj it =>
               match parentID it with
               | Some p =>
                   if truthy p && bool_decide (p ∈ containerIds)
                   then acc ∪ {[ item_id it ]}
                   else acc
               | None => acc
               end
           | Token _ => acc
           end)
        (list_to_set containerIds) its.

Definition keep_item (rm : gset string) (e : Entry ItemObject) : bool :=
  match e with
  | Token s => negb (bool_decide (s ∈ rm))
  | Obj it => negb (bool_decide (item_id it ∈ rm))
  end.

Definition keep_space (spaceId : string) (e : Entry SpaceObject) : bool :=
  match e with
  | Token s => negb (str_eq s spaceId)
  | Obj o => negb (str_eq (space_id o) spaceId)
  end.

Definition keep_local_model (spaceId : string) (e : Entry LocalSpaceModel) : bool :=
  match e with
  | Token s => negb (str_eq s spaceId)
  | Obj m =>
      match local_value m with
      | Some o => negb (str_eq (space_id o) spaceId)
      | None => true
      end
  end.

Definition keep_sync_model (spaceId : string) (e : Entry (Stamped SpaceObject)) : bool :=
  match e with
  | Token s => negb (str_eq s spaceId)
  | Obj m => negb (str_eq (stamp_id m) spaceId)
  end.

Definition keep_sync_item (rm : gset string) (e : Entry (Stamped ItemObject)) : bool :=
  match e with
  | Token s => negb (bool_decide (s ∈ rm))
  | Obj m => negb (bool_decide (stamp_id m ∈ rm))
  end.

(** [if (syncData?.orderedSpaceIDs?.value) ...]: the guard of [deleteSpace]. *)
Definition on_sync_ordered_value (f : list string -> list string)
    (d : SidebarData) : SidebarData :=
  on_sync_ordered
    (fun o => match ordered_value o with
              | Some l => {| ordered_value := Some (f l);
                             ordered_lastChangeDate := ordered_lastChangeDate o;
                             ordered_lastChangedDevice := ordered_lastChangedDevice o |}
              | None => o
              end) d.

Definition deleteSpace (spaceNameOrId : string) : IO Result :=
  try_catch
    (let* d := loadSidebar in
     let* _ := createBackup in
     let spaces := primary_spaces d in
     match findSpace spaceNameOrId spaces with
     | None => ret (SpaceNotFound spaceNameOrId)
     | Some (spaceIndex, spaceObj) =>
         let spaceId := space_id spaceObj in
         if negb (truthy spaceId) then ret (SpaceNotFound spaceNameOrId)
         else
           let containerIds := structural_ids spaceObj in
           let newSpaces := List.filter (keep_space spaceId) spaces in
           let* d1 := lift (assign_spaces (fun _ => newSpaces) d) in
           let its := primary_items d1 in
           let rm := itemsToRemove containerIds its in
           let newItems := List.filter (keep_item rm) its in
           let* d2 := lift (assign_items (fun _ => newItems) d1) in
           let d3 := on_local_ordered (List.filter (fun id => negb (str_eq id spaceId))) d2 in
           let d4 := on_local_spaceModels (List.filter (keep_local_model spaceId)) d3 in
           let d5 := on_sync_ordered_value
                       (List.filter (fun id => negb (str_eq id spaceId))) d4 in
           let d6 := on_sync_spaceModels (List.filter (keep_sync_model spaceId)) d5 in
           let d7 := on_sync_items (List.filter (keep_sync_item rm)) d6 in
           let* _ := saveSidebar d7 in
           ret ok
     end)
    report.

(** ** MirrorSynchronizer: [addTab] *)

Definition new_tab (tabId containerId url : string) (title : option string)
    (deviceId : string) (ts : seconds) : ItemObject :=
  {| item_id := tabId;
     item_title := None;
     parentID := Some containerId;
     childrenIds := Some [];
     createdAt := Some ts;
     originatingDevice := Some deviceId;
     isUnread := Some false;
     data := Some {| tab := Some {| savedURL := Some url;
                                    savedTitle := Some (opt_or_str title url);
                                    savedMuteStatus := Some "allowAudio";
                                    timeLastActiveAt := Some ts |};
                     itemContainer := None |} |}.

(** The loop that appends [tabId] to the child list of the first record
    whose id is [containerId], then breaks. *)
Fixpoint push_child (containerId tabId : string) (l : list (Entry ItemObject))
    : list (Entry ItemObject) :=
  match l with
  | [] => []
  | Obj it :: r =>
      if str_eq (item_id it) containerId
      then Obj (set_childrenIds (Some (default [] (childrenIds it) ++ [tabId])) it) :: r
      else Obj it :: push_child containerId tabId r
  | Token s :: r => Token s :: push_child containerId tabId r
  end.

(** [pinned ? containerIds[0] : containerIds[1]]. *)
Definition select_container (pinned : bool) (containerIds : list string) : option string :=
  if pinned then containerIds !! 0%nat else containerIds !! 1%nat.

Definition addTab (spaceNameOrId url : string) (title : option string) (pinned : bool)
    : IO Result :=
  try_catch
    (let* d := loadSidebar in
     let* _ := createBackup in
     let spaces := primary_spaces d in
     match findSpace spaceNameOrId spaces with
     | None => ret (SpaceNotFound spaceNameOrId)
     | Some (_, item) =>
         let spaceId := space_id item in
         let containerIds := structural_ids item in
         if negb (truthy spaceId) then ret (SpaceNotFound spaceNameOrId)
         else
           let containerId := select_container pinned containerIds in
           if negb (truthy_opt containerId) then ret (ContainerMissing spaceId)
           else
             let cid := default "" containerId in
             let* tabId := newId in
             let* ts := Date_now in
             let deviceId := getDeviceId d in
             let tabObj := new_tab tabId cid url title deviceId ts in
             let* d1 := lift (assign_items
                                (fun old => push_child cid tabId
                                              (default [] old ++ [Token tabId; Obj tabObj])) d) in
             let d2 := on_sync_items
                         (fun l => l ++ [Token tabId;
                                         Obj (stamped tabId ts deviceId tabObj)]) d1 in
             let* _ := saveSidebar d2 in
             ret (ok_id tabId)
     end)
    report.

(** ** MirrorSynchronizer: [deleteTab] *)

(** The first record with the given id. *)
Fixpoint find_item (id : string) (l : list (Entry ItemObject)) : option ItemObject :=
  match l with
  | [] => None
  | Obj it :: r => if str_eq (item_id it) id then Some it else find_item id r
  | Token _ :: r => find_item id r
  end.

Definition keep_not_id (tabId : string) (e : Entry ItemObject) : bool :=
  match e with
  | Token s => negb (str_eq s tabId)
  | Obj it => negb (str_eq (item_id it) tabId)
  end.

(** The loop that filters [tabId] out of the child list of the first record
    whose id is [parentId] and which has a child list, then breaks. *)
Fixpoint detach_child (parentId tabId : string) (l : list (Entry ItemObject))
    : list (Entry ItemObject) :=
  match l with
  | [] => []
  | Obj it :: r =>
      if str_eq (item_id it) parentId then
        match childrenIds it with
        | Some cs =>
            Obj (set_childrenIds
                   (Some (List.filter (fun id => negb (str_eq id tabId)) cs)) it) :: r
        | None => Obj it :: detach_child parentId tabId r
        end
      else Obj it :: detach_child parentId tabId r
  | Token s :: r => Token s :: detach_child parentId tabId r
  end.

Definition keep_sync_not_id (tabId : string) (e : Entry (Stamped ItemObject)) : bool :=
  match e with
  | Token s => negb (str_eq s tabId)
  | Obj m => negb (str_eq (stamp_id m) tabId)
  end.

(** The item list that [deleteTab] leaves, given the record it found. *)
Definition items_after_deleteTab (tabId : string) (found : ItemObject)
    (its : list (Entry ItemObject)) : list (Entry ItemObject) :=
  let newItems := List.filter (keep_not_id tabId) its in
  match parentID found with
  | Some parentId =>
      if truthy parentId then detach_child parentId tabId newItems else newItems
  | None => newItems
  end.

Definition deleteTab (tabId : string) : IO Result :=
  try_catch
    (let* d := loadSidebar in
     let* _ := createBackup in
     let its := primary_items d in
     match find_item tabId its with
     | None => ret (TabNotFound tabId)
     | Some found =>
         let* d1 := lift (assign_items (fun _ => items_after_deleteTab tabId found its) d) in
         let d2 := on_sync_items (List.filter (keep_sync_not_id tabId)) d1 in
         let* _ := saveSidebar d2 in
         ret ok
     end)
    report.

(** ** TreeBuilder: the flat listing ([listTabs] of [src/arc.ts]) *)

Inductive Location := pinned_loc | unpinned_loc.

Record Tab := mkTab {
  tab_id : string;
  tab_title : string;
  tab_url : string;
  location : Location;
  tab_spaceId : string }.

(** [containerToSpace]: container id to owning space and bucket; a later
    [set] of the same key replaces the earlier one. *)
Definition containerToSpace (l : list (Entry SpaceObject)) : gmap string (string * bool) :=
  foldl (fun m e =>
           match e with
           | Obj s =>
               if truthy (space_id s) then
                 match containerIDs s with
                 | Some ids =>
                     let cs := List.filter not_marker ids in
                     let m1 := if truthy_opt (cs !! 0%nat)
                               then <[default "" (cs !! 0%nat) := (space_id s, true)]> m
                               else m in
                     if truthy_opt (cs !! 1%nat)
                     then <[default "" (cs !! 1%nat) := (space_id s, false)]> m1
                     else m1
                 | None => m
                 end
               else m
           | Token _ => m
           end) ∅ l.

Definition tab_display_title (t : TabData) : string :=
  opt_or_str (savedTitle t) (opt_or_str (savedURL t) "Untitled").

Definition tab_display_url (t : TabData) : string :=
  opt_or_str (savedURL t) "".

Definition item_tab (it : ItemObject) : option TabData :=
  match data it with
  | Some d => tab d
  | None => None
  end.

(** The loop over the items: a record with a tab payload whose parent is a
    known container, inside the target space when one is given. *)
Fixpoint collect_tabs (c2s : gmap string (string * bool)) (target : option string)
    (l : list (Entry ItemObject)) : list Tab :=
  match l with
  | [] => []
  | Obj it :: r =>
      match item_tab it, parentID it with
      | Some t, Some p =>
          if truthy p then
            match (c2s !! p : option (string * bool)) with
            | Some (spaceId, isPinned) =>
                if (match target with
                    | Some tid => truthy tid && negb (str_eq spaceId tid)
                    | None => false
                    end)
                then collect_tabs c2s target r
                else {| tab_id := item_id it;
                        tab_title := tab_display_title t;
                        tab_url := tab_display_url t;
                        location := if isPinned then pinned_loc else unpinned_loc;
                        tab_spaceId := spaceId |} :: collect_tabs c2s target r
            | None => collect_tabs c2s target r
            end
          else collect_tabs c2s target r
      | _, _ => collect_tabs c2s target r
      end
  | Token _ :: r => collect_tabs c2s target r
  end.

Definition listTabsFlat (spaceNameOrId : option string) : IO (list Tab) :=
  let* d := loadSidebar in
  let spaces := primary_spaces d in
  let c2s := containerToSpace spaces in
  let its := primary_items d in
  if truthy_opt spaceNameOrId then
    match findSpace (default "" spaceNameOrId) spaces with
    | Some (_, s) =>
        if truthy (space_id s) then ret (collect_tabs c2s (Some (space_id s)) its)
        else ret []
    | None => ret []
    end
  else ret (collect_tabs c2s None its).

(** ** TreeBuilder: the nested listing ([listTabs] of the later revision) *)

Inductive Node :=
  | TabNode (id title url : string)
  | FolderNode (id title : string) (children : list Node).

Record SpaceTabs := mkSpaceTabs {
  spaceId : string;
  spaceTitle : string;
  pinned : list Node;
  unpinned : list Node }.

(** [itemMap]: every record under its id, a later record replacing an
    earlier one with the same id. *)
Definition buildItemMap (l : list (Entry ItemObject)) : gmap string ItemObject :=
  foldl (fun m e =>
           match e with
           | Obj it => <[item_id it := it]> m
           | Token _ => m
           end) ∅ l.

(** The target scan: [!spaceNameOrId || item.id === ... || item.title === ...]. *)
Fixpoint findTarget (spaceNameOrId : option string) (l : list (Entry SpaceObject))
    : option SpaceObject :=
  match l with
  | [] => None
  | Obj s :: r =>
      if negb (truthy_opt spaceNameOrId)
         || space_matches (default "" spaceNameOrId) s
      then Some s
      else findTarget spaceNameOrId r
  | Token _ :: r => findTarget spaceNameOrId r
  end.

Inductive ItemType := tab_type | folder_type | container_type.

Definition has_tab (it : ItemObject) : bool :=
  match data it with
  | Some d => match tab d with Some _ => true | None => false end
  | None => false
  end.

Definition has_itemContainer (it : ItemObject) : bool :=
  match data it with
  | Some d => match itemContainer d with Some _ => true | None => false end
  | None => false
  end.

Definition getItemType (it : ItemObject) : ItemType :=
  if has_tab it then tab_type
  else if has_itemContainer it then container_type
  else if (match childrenIds it with
           | Some cs => (0 <? List.length cs)%nat
           | None => false
           end)
       then folder_type
       else folder_type.

(** [for (const childId of ids) { const child = build(childId);
    if (child) children.push(child); }] *)
Fixpoint buildChildren (build : string -> outcome (option Node)) (ids : list string)
    : outcome (list Node) :=
  match ids with
  | [] => Returned []
  | childId :: r =>
      match build childId with
      | Thrown e => Thrown e
      | Returned child =>
          match buildChildren build r with
          | Thrown e => Thrown e
          | Returned rest =>
              Returned (match child with
                        | Some n => n :: rest
                        | None => rest
                        end)
          end
      end
  end.

(** [buildTree]; [depth] is the number of nested [buildTree] frames the call
    stack still admits, and the call that exceeds it throws [RangeError]. *)
Fixpoint buildTree (depth : nat) (itemMap : gmap string ItemObject) (itemId : string)
    : outcome (option Node) :=
  match depth with
  | O => Thrown RangeError
  | S depth' =>
      match itemMap !! itemId with
      | None => Returned None
      | Some item =>
          match getItemType item with
          | tab_type =>
              Returned (Some (TabNode (item_id item)
                                (match item_tab item with
                                 | Some t => tab_display_title t
                                 | None => "Untitled"
                                 end)
                                (match item_tab item with
                                 | Some t => tab_display_url t
                                 | None => ""
                                 end)))
          | folder_type =>
              match buildChildren (buildTree depth' itemMap)
                      (default [] (childrenIds item)) with
              | Thrown e => Thrown e
              | Returned children =>
                  Returned (Some (FolderNode (item_id item)
                                    (opt_or_str (item_title item) "Untitled")
                                    children))
              end
          | container_type => Returned None
          end
      end
  end.

(** One bucket: the direct children of a container record, each expanded. *)
Definition buildBucket (depth : nat) (itemMap : gmap string ItemObject)
    (containerId : option string) : outcome (list Node) :=
  match containerId with
  | Some cid =>
      match itemMap !! cid with
      | Some container =>
          buildChildren (buildTree depth itemMap) (default [] (childrenIds container))
      | None => Returned []
      end
  | None => Returned []
  end.

(** [listTabs] has no [try]: an exception of [loadSidebar] or of the
    recursion leaves it. [depth] is the number of nested [buildTree] frames
    the call stack admits when the listing starts. *)
Definition listTabs (depth : nat) (spaceNameOrId : option string)
    : IO (option SpaceTabs) :=
  let* d := loadSidebar in
  let spaces := primary_spaces d in
  let its := primary_items d in
  let itemMap := buildItemMap its in
  match findTarget spaceNameOrId spaces with
  | None => ret None
  | Some targetSpace =>
      let containerIDs := structural_ids targetSpace in
      let* pinned := lift (buildBucket depth itemMap (containerIDs !! 0%nat)) in
      let* unpinned := lift (buildBucket depth itemMap (containerIDs !! 1%nat)) in
      ret (Some {| spaceId := space_id targetSpace;
                   spaceTitle := space_title targetSpace;
                   pinned := pinned;
                   unpinned := unpinned |})
  end.

(** ** WorkspaceBuilder: [createWorkspace] *)

(** One element of the [urls] argument: [{ url, title? }]. *)
Record UrlSpec := mkUrlSpec {
  spec_url : string;
  spec_title : option string }.

(** [{ success, spaceId?, tabIds?, error? }]. *)
Record WorkspaceResult := mkWorkspaceResult {
  ws_success : bool;
  ws_spaceId : option string;
  ws_tabIds : option (list string);
  ws_error : option string }.

(** The default of the [icon] parameter of [createWorkspace]. *)
Definition wrench : string := "🔧".

(** The loop over [urls]: each element is added as an unpinned tab of the
    space, and the id of each tab that was added is pushed on [tabIds]. *)
Fixpoint addTabs (spaceId : string) (urls : list UrlSpec) (tabIds : list string)
    : IO (list string) :=
  match urls with
  | [] => ret tabIds
  | u :: rest =>
      let* tabResult := addTab spaceId (spec_url u) (spec_title u) false in
      addTabs spaceId rest
        (if success tabResult && truthy_opt (ident tabResult)
         then tabIds ++ [default "" (ident tabResult)]
         else tabIds)
  end.

Definition createWorkspace (name : string) (urls : list UrlSpec) (icon_arg : option string)
    : IO WorkspaceResult :=
  let ic := default wrench icon_arg in
  let* spaceResult := createSpace name (Some ic) in
  if negb (success spaceResult) || negb (truthy_opt (ident spaceResult))
  then ret {| ws_success := false; ws_spaceId := None; ws_tabIds := None;
              ws_error := Some (opt_or_str (error spaceResult) "Failed to create space") |}
  else
    let spaceId := default "" (ident spaceResult) in
    let* tabIds := addTabs spaceId urls [] in
    ret {| ws_success := true; ws_spaceId := Some spaceId; ws_tabIds := Some tabIds;
           ws_error := None |}.

(** ** Notions the statements use *)

(** No record of the entry matches the argument. *)
Definition no_match (n : string) (e : Entry SpaceObject) : Prop :=
  match e with
  | Obj s => space_matches n s = false
  | Token _ => True
  end.

(** The value a returned call yields; [None] stands for [null]. *)
Definition returned_node (o : outcome (option Node)) : option Node :=
  match o with
  | Returned n => n
  | Thrown _ => None
  end.

(** The theme object a space record carries, if any. *)
Definition space_theme (s : SpaceObject) : option Theme :=
  match customInfo s with
  | Some ci => windowTheme ci
  | None => None
  end.

(** The identifier an entry of the item list stands for. *)
Definition entry_id (e : Entry ItemObject) : string :=
  match e with
  | Token s => s
  | Obj it => item_id it
  end.

(** The ids of the records of an item list, in storage order. *)
Definition item_ids (l : list (Entry ItemObject)) : list string :=
  omap (fun e => match e with Obj it => Some (item_id it) | Token _ => None end) l.


(** The remote item mirror, when the document has one. *)
Definition remote_items (d : SidebarData) : option (list (Entry (Stamped ItemObject))) :=
  match syncData d with
  | Some sd => sync_items sd
  | None => None
  end.

(** Every id a listed tree shows, at any depth. *)
Fixpoint node_ids (n : Node) : list string :=
  match n with
  | TabNode id _ _ => [id]
  | FolderNode id _ children => id :: flat_map node_ids children
  end.

(** The ids a nested listing shows. *)
Definition listed_ids (v : SpaceTabs) : list string :=
  flat_map node_ids (pinned v ++ unpinned v).

(** The container record once [tabId] is appended to its child list. *)
Definition with_child (tabId : string) (it : ItemObject) : ItemObject :=
  set_childrenIds (Some (default [] (childrenIds it) ++ [tabId])) it.

(** The leaf [buildTree] makes of a tab record. *)
Definition tab_leaf (it : ItemObject) : Node :=
  TabNode (item_id it)
    (match item_tab it with
     | Some t => tab_display_title t
     | None => "Untitled"
     end)
    (match item_tab it with
     | Some t => tab_display_url t
     | None => ""
     end).

(** The title the listing shows for a tab made by [addTab]: the given title
    when it is non-empty, else the url when that is non-empty, else
    "Untitled". *)
Definition shown_title (title : option string) (url : string) : string :=
  match title with
  | Some t => if truthy t then t else if truthy url then url else "Untitled"
  | None => if truthy url then url else "Untitled"
  end.

(** The world once [createBackup] has copied the content [c]. *)
Definition after_backup (w : World) (c : FileContent) : World :=
  with_backup (clock w (clock_reads w), c) (tick_clock w).

(** The file and the count of writes are as they were. *)
Definition quiet (w w' : World) : Prop :=
  sidebar_file w' = sidebar_file w /\ writes w' = writes w.

(** A computation that never writes the sidebar file. *)
Definition reads_only {A} (c : IO A) : Prop :=
  forall w, quiet w (snd (c w)).

(** A computation whose only write, if any, is the one that precedes a
    successful result: on a failure result or an exception the file is as it
    was, and on success it was written exactly once. *)
Definition writes_once_on_success (c : IO Result) : Prop :=
  forall w,
    match c w with
    | (Returned r, w') =>
        if success r then writes w' = S (writes w) else quiet w w'
    | (Thrown _, w') => quiet w w'
    end.




(** [it'] is [it] with, at most, some child ids dropped. *)
Definition narrows (it it' : ItemObject) : Prop :=
  item_id it' = item_id it /\ getItemType it' = getItemType it /\
  forall c, c ∈ default [] (childrenIds it') -> c ∈ default [] (childrenIds it).

(** Every record the lookup [m'] holds narrows the one [m] holds under the
    same id. *)
Definition lookup_narrows (m m' : gmap string ItemObject) : Prop :=
  forall k it', m' !! k = Some it' -> exists it, m !! k = Some it /\ narrows it it'.

(** Entries that agree up to dropped child ids. *)
Definition entry_narrows (e e' : Entry ItemObject) : Prop :=
  match e, e' with
  | Token s, Token s' => s = s'
  | Obj it, Obj it' => narrows it it'
  | _, _ => False
  end.

(** ** Sample documents

    One well-formed space "Work" (containers P1 and U1, a folder F1 inside
    U1 holding the tab T2, and the tab T1 directly in U1) and one space
    "Solo" that names a single structural container and has no theme. *)

Definition demo_container (id spaceId : string) (children : list string) : ItemObject :=
  {| item_id := id; item_title := None; parentID := None;
     childrenIds := Some children; createdAt := Some 1699999999000%Z;
     originatingDevice := Some "DEV-1"; isUnread := Some false;
     data := Some {| tab := None;
                     itemContainer := Some {| spaceItems := Some spaceId |} |} |}.

Definition demo_folder (id title parent : string) (children : list string) : ItemObject :=
  {| item_id := id; item_title := Some title; parentID := Some parent;
     childrenIds := Some children; createdAt := Some 1699999999000%Z;
     originatingDevice := Some "DEV-1"; isUnread := Some false;
     data := None |}.

Definition demo_tab (id parent url title : string) : ItemObject :=
  {| item_id := id; item_title := None; parentID := Some parent;
     childrenIds := Some []; createdAt := Some 1699999999000%Z;
     originatingDevice := Some "DEV-1"; isUnread := Some false;
     data := Some {| tab := Some {| savedURL := Some url; savedTitle := Some title;
                                    savedMuteStatus := Some "allowAudio";
                                    timeLastActiveAt := Some 1699999999000%Z |};
                     itemContainer := None |} |}.

Definition demo_work : SpaceObject :=
  {| space_id := "S1"; space_title := "Work"; profile := Some true;
     containerIDs := Some ["pinned"; "P1"; "unpinned"; "U1"];
     newContainerIDs := Some [NCPinned; NCId "P1"; NCUnpinnedShared; NCId "U1"];
     customInfo := Some {| iconType := Some {| emoji := None; icon := Some "star" |};
                           windowTheme := Some "theme-blue" |} |}.

Definition demo_solo : SpaceObject :=
  {| space_id := "S2"; space_title := "Solo"; profile := Some true;
     containerIDs := Some ["pinned"; "P2"];
     newContainerIDs := None;
     customInfo := None |}.

Definition demo_items : list (Entry ItemObject) :=
  [ Token "P1"; Obj (demo_container "P1" "S1" []);
    Token "U1"; Obj (demo_container "U1" "S1" ["F1"; "T1"]);
    Token "F1"; Obj (demo_folder "F1" "Docs" "U1" ["T2"]);
    Token "T1"; Obj (demo_tab "T1" "U1" "https://example.com" "Example");
    Token "T2"; Obj (demo_tab "T2" "F1" "https://rocq-prover.org" "Rocq");
    Token "P2"; Obj (demo_container "P2" "S2" []) ].

Definition demo_stamp {A} (id : string) (v : A) : Entry (Stamped A) :=
  Obj (stamped id 1699999999000%Z "DEV-1" v).

Definition demo_doc : SidebarData :=
  {| containers :=
       Some [ {| spaces := None; items := None |};
              {| spaces := Some [Token "S1"; Obj demo_work; Token "S2"; Obj demo_solo];
                 items := Some demo_items |} ];
     sidebarSyncState :=
       Some {| local_orderedSpaceIDs := Some ["S1"; "S2"];
               local_spaceModels :=
                 Some [Token "S1";
                       Obj {| encodedCKRecordFields := None;
                              local_value := Some demo_work |}] |};
     syncData :=
       Some {| orderedSpaceIDs :=
                 Some {| ordered_value := Some ["S1"; "S2"];
                         ordered_lastChangeDate := Some 1699999999000%Z;
                         ordered_lastChangedDevice := Some "DEV-1" |};
               spaceModels := Some [Token "S1"; demo_stamp "S1" demo_work];
               sync_items :=
                 Some [Token "U1"; demo_stamp "U1" (demo_container "U1" "S1" ["F1"; "T1"]);
                       Token "F1"; demo_stamp "F1" (demo_folder "F1" "Docs" "U1" ["T2"]);
                       Token "T1";
                       demo_stamp "T1" (demo_tab "T1" "U1" "https://example.com" "Example")] |} |}.

Definition demo_uuid (n : nat) : string :=
  match n with
  | 0%nat => "aa11-0001"
  | 1%nat => "bb22-0002"
  | _ => "cc33-0003"
  end.

Definition world_of (d : SidebarData) : World :=
  {| sidebar_file := Some (Json d); backups := []; dir_writable := true;
     file_writable := true; writes := 0;
     clock := fun n => (1700000000000 + Z.of_nat n)%Z; clock_reads := 0;
     uuid_source := demo_uuid; uuid_draws := 0 |}.

Definition demo_world : World := world_of demo_doc.


(** A document whose only space carries no theme. *)
Definition themeless_doc : SidebarData :=
  {| containers :=
       Some [ {| spaces := None; items := None |};
              {| spaces := Some [Token "S2"; Obj demo_solo];
                 items := Some [Token "P2"; Obj (demo_container "P2" "S2" [])] |} ];
     sidebarSyncState := None;
     syncData := None |}.

(** A document whose space names two structural containers while the item
    list holds a record for the first only. *)
Definition dangling_doc : SidebarData :=
  {| containers :=
       Some [ {| spaces := None; items := None |};
              {| spaces := Some [Token "S1"; Obj demo_work];
                 items := Some [Token "P1"; Obj (demo_container "P1" "S1" [])] |} ];
     sidebarSyncState := None;
     syncData := None |}.

(** The device recorded against the remote ordered-space list, if any. *)
Definition remote_device (d : SidebarData) : option string :=
  match syncData d with
  | Some sd =>
      match orderedSpaceIDs sd with
      | Some o => ordered_lastChangedDevice o
      | None => None
      end
  | None => None
  end.

(** The entry carries no device tag. *)
Definition no_device (e : Entry ItemObject) : Prop :=
  match e with
  | Obj it => truthy_opt (originatingDevice it) = false
  | Token _ => True
  end.

(** The record is a folder that lists [c] among its children. *)
Definition folder_with_child (m : gmap string ItemObject) (id c : string) : Prop :=
  exists it, m !! id = Some it /\ getItemType it = folder_type /\
             c ∈ default [] (childrenIds it).

(** The first record of a space list. *)
Fixpoint first_space (l : list (Entry SpaceObject)) : option SpaceObject :=
  match l with
  | [] => None
  | Obj s :: _ => Some s
  | Token _ :: r => first_space r
  end.

(** A document in which the folder F1 of the unpinned container lists
    itself as a child. *)
Definition cyclic_doc : SidebarData :=
  {| containers :=
       Some [ {| spaces := None; items := None |};
              {| spaces := Some [Token "S1"; Obj demo_work];
                 items := Some [ Token "P1"; Obj (demo_container "P1" "S1" []);
                                 Token "U1"; Obj (demo_container "U1" "S1" ["F1"]);
                                 Token "F1"; Obj (demo_folder "F1" "Loop" "U1" ["F1"]) ] |} ];
     sidebarSyncState := None;
     syncData := None |}.

(** The four space mirrors, when the document has them. *)
Definition local_ordered (d : SidebarData) : option (list string) :=
  match sidebarSyncState d with
  | Some s => local_orderedSpaceIDs s
  | None => None
  end.

Definition local_models (d : SidebarData) : option (list (Entry LocalSpaceModel)) :=
  match sidebarSyncState d with
  | Some s => local_spaceModels s
  | None => None
  end.

Definition remote_ordered (d : SidebarData) : option OrderedSpaceIDs :=
  match syncData d with
  | Some sd => orderedSpaceIDs sd
  | None => None
  end.

Definition remote_models (d : SidebarData) : option (list (Entry (Stamped SpaceObject))) :=
  match syncData d with
  | Some sd => spaceModels sd
  | None => None
  end.

(** The [i]-th identifier an operation started in [w] allocates. *)
Definition drawn_id (w : World) (i : nat) : string :=
  toUpperCase (uuid_source w (i + uuid_draws w)%nat).

(** What a successful [createSpace name ic], started in the world [w] on the
    document [d] with the template [theme], has made of the document: the
    token and record of the new space at the end of the primary space list,
    the tokens and records of its two empty containers at the end of the
    primary item list, and the matching entries at the end of every mirror
    the document has. *)
Definition createSpace_effect (w : World) (d : SidebarData) (name : string)
    (ic : option string) (theme : Theme) (d' : SidebarData) : Prop :=
  let spaceId := drawn_id w 0 in
  let pinnedId := drawn_id w 1 in
  let unpinnedId := drawn_id w 2 in
  let ts := clock w (S (clock_reads w)) in
  let deviceId := getDeviceId d in
  let spaceObj := new_space spaceId name (default "star" ic) pinnedId unpinnedId theme in
  let pinnedCont := new_container pinnedId spaceId deviceId ts in
  let unpinnedCont := new_container unpinnedId spaceId deviceId ts in
  primary_spaces d' = primary_spaces d ++ [Token spaceId; Obj spaceObj] /\
  primary_items d' =
    primary_items d ++ [Token pinnedId; Obj pinnedCont; Token unpinnedId; Obj unpinnedCont] /\
  local_ordered d' = (fun l => l ++ [spaceId]) <$> local_ordered d /\
  local_models d' =
    (fun l => l ++ [Token spaceId;
                    Obj {| encodedCKRecordFields := None; local_value := Some spaceObj |}])
      <$> local_models d /\
  remote_ordered d' =
    (fun o => {| ordered_value := Some (default [] (ordered_value o) ++ [spaceId]);
                 ordered_lastChangeDate := Some ts;
                 ordered_lastChangedDevice := Some deviceId |}) <$> remote_ordered d /\
  remote_models d' =
    (fun l => l ++ [Token spaceId; Obj (stamped spaceId ts deviceId spaceObj)])
      <$> remote_models d /\
  remote_items d' =
    (fun l => l ++ [Token pinnedId; Obj (stamped pinnedId ts deviceId pinnedCont);
                    Token unpinnedId; Obj (stamped unpinnedId ts deviceId unpinnedCont)])
      <$> remote_items d.

(** The icon [listSpaces] shows for a space made with the icon argument
    [ic]: the argument itself (default "star"), or none when it is empty. *)
Definition listed_icon (ic : option string) : option string :=
  if truthy (default "star" ic) then Some (default "star" ic) else None.

(** What a successful [deleteSpace] of the record [s] has made of the
    document [d]: every representation filtered on the space id (the remote
    ordered list keeping its change stamp), the primary items and the remote
    item mirror filtered on the removal set. *)
Definition deleteSpace_effect (d : SidebarData) (s : SpaceObject) (d' : SidebarData)
    : Prop :=
  let sid := space_id s in
  let rm := itemsToRemove (structural_ids s) (primary_items d) in
  let other := fun id => negb (str_eq id sid) in
  primary_spaces d' = List.filter (keep_space sid) (primary_spaces d) /\
  primary_items d' = List.filter (keep_item rm) (primary_items d) /\
  local_ordered d' = List.filter other <$> local_ordered d /\
  local_models d' = List.filter (keep_local_model sid) <$> local_models d /\
  remote_ordered d' =
    (fun o => {| ordered_value := List.filter other <$> ordered_value o;
                 ordered_lastChangeDate := ordered_lastChangeDate o;
                 ordered_lastChangedDevice := ordered_lastChangedDevice o |})
      <$> remote_ordered d /\
  remote_models d' = List.filter (keep_sync_model sid) <$> remote_models d /\
  remote_items d' = List.filter (keep_sync_item rm) <$> remote_items d.

(** A document in which a record with an empty id shares its title with a
    later, well-formed space. *)
Definition shadowed_doc : SidebarData :=
  {| containers :=
       Some [ {| spaces := None; items := None |};
              {| spaces := Some [ Obj {| space_id := ""; space_title := "Work";
                                         profile := None; containerIDs := None;
                                         newContainerIDs := None; customInfo := None |};
                                  Token "S1"; Obj demo_work ];
                 items := Some demo_items |} ];
     sidebarSyncState := None;
     syncData := None |}.

(** The identifier occurs nowhere among the spaces of the document: not as
    a token, an id or a title in the primary list, nor in any mirror. *)
Definition space_id_unused (d : SidebarData) (sid : string) : Prop :=
  Forall (fun e => match e with
                   | Token t => t <> sid
                   | Obj s => space_id s <> sid /\ space_title s <> sid
                   end) (primary_spaces d) /\
  (forall l, local_ordered d = Some l -> sid ∉ l) /\
  (forall l, local_models d = Some l ->
     Forall (fun e => keep_local_model sid e = true) l) /\
  (forall o l, remote_ordered d = Some o -> ordered_value o = Some l -> sid ∉ l) /\
  (forall l, remote_models d = Some l ->
     Forall (fun e => keep_sync_model sid e = true) l).

(** The identifier occurs nowhere among the items of the document: not as
    a token, an id or a parent in the primary list, nor in the remote
    mirror. *)
Definition item_id_unused (d : SidebarData) (id : string) : Prop :=
  Forall (fun e => entry_id e <> id /\
                   match e with
                   | Obj it => parentID it <> Some id
                   | Token _ => True
                   end) (primary_items d) /\
  (forall l, remote_items d = Some l ->
     Forall (fun e => match e with
                      | Token t => t <> id
                      | Obj m => stamp_id m <> id
                      end) l).

(** The list an [orderedSpaceIDs] record holds, [[]] when it holds none. *)
Definition ordered_ids (o : OrderedSpaceIDs) : list string :=
  default [] (ordered_value o).



(** The identifiers of the [n] draws that follow the first [from] draws. *)
Definition drawn_ids (w : World) (from n : nat) : list string :=
  map (drawn_id w) (seq from n).

(** The leaves a listing shows for tabs made from [urls] under the ids [ids]. *)
Definition url_leaves (ids : list string) (urls : list UrlSpec) : list Node :=
  zip_with (fun id u => TabNode id (shown_title (spec_title u) (spec_url u)) (spec_url u))
    ids urls.

(** A UUID source whose draws are pairwise distinct. *)
Fixpoint serial_uuid (n : nat) : string :=
  match n with
  | O => "u"
  | S k => String "0" (serial_uuid k)
  end.

(** The sample document in a world that draws from [serial_uuid]. *)
Definition serial_world : World :=
  {| sidebar_file := Some (Json demo_doc); backups := []; dir_writable := true;
     file_writable := true; writes := 0;
     clock := fun n => (1700000000000 + Z.of_nat n)%Z; clock_reads := 0;
     uuid_source := serial_uuid; uuid_draws := 0 |}.

Definition demo_urls : list UrlSpec :=
  [ {| spec_url := "https://example.org"; spec_title := None |};
    {| spec_url := "https://example.com"; spec_title := Some "Example" |} ].

(** The layout of a ledger: each record follows the token that names it. *)
Inductive paired {A} (id_of : A -> string) : list (Entry A) -> Prop :=
  | paired_nil : paired id_of []
  | paired_cons i a l :
      id_of a = i -> paired id_of l -> paired id_of (Token i :: Obj a :: l).

(** The primary space list, the primary item list and the remote item
    mirror of the document are laid out in token and record pairs. *)
Definition well_paired (d : SidebarData) : Prop :=
  paired space_id (primary_spaces d) /\
  paired item_id (primary_items d) /\
  (forall l, remote_items d = Some l -> paired stamp_id l).

(** A computation that leaves a well-paired document well-paired, whatever
    it reports. *)
Definition keeps_pairing (c : IO Result) : Prop :=
  forall w d, sidebar_file w = Some (Json d) -> well_paired d ->
    exists d', sidebar_file (snd (c w)) = Some (Json d') /\ well_paired d'.

(** * Properties *)

(** ** JavaScript helpers *)

Lemma str_eq_true a b : str_eq a b = true <-> a = b.
Proof. unfold str_eq. apply bool_decide_eq_true. Qed.

Lemma str_eq_false a b : str_eq a b = false <-> a <> b.
Proof. unfold str_eq. apply bool_decide_eq_false. Qed.

Lemma str_eq_refl a : str_eq a a = true.
Proof. by apply str_eq_true. Qed.

Lemma truthy_false s : truthy s = false <-> s = "".
Proof. destruct s; simpl; split; congruence. Qed.

Lemma truthy_true s : truthy s = true <-> s <> "".
Proof. destruct s; simpl; split; congruence. Qed.

Lemma truthy_opt_Some o :
  truthy_opt o = true -> exists s, o = Some s /\ truthy s = true.
Proof. destruct o as [s|]; simpl; [eauto | discriminate]. Qed.

Lemma or_str_truthy a b : truthy a = true -> or_str a b = a.
Proof. unfold or_str. by intros ->. Qed.

Lemma space_matches_spec n s :
  space_matches n s = true <-> space_id s = n \/ space_title s = n.
Proof.
  unfold space_matches. rewrite orb_true_iff, !str_eq_true. tauto.
Qed.

(** ** SpaceRegistry: the scan *)

Lemma findSpaceFrom_spec n l : forall i k s,
  findSpaceFrom i n l = Some (k, s) <->
  exists before after, l = before ++ Obj s :: after /\ k = (i + List.length before)%nat /\
    space_matches n s = true /\ Forall (no_match n) before.
Proof.
  induction l as [|e r IH]; intros i k s; simpl.
  - split; [discriminate|]. intros (b & a & H & _). by destruct b.
  - assert (Hskip : no_match n e ->
              (findSpaceFrom (S i) n r = Some (k, s) <->
               exists before after, e :: r = before ++ Obj s :: after /\
                 k = (i + List.length before)%nat /\
                 space_matches n s = true /\ Forall (no_match n) before)).
    { intros He. rewrite IH. split.
      - intros (b & a & -> & -> & Hm & Hb). exists (e :: b), a. simpl.
        split; [done|]. split; [lia|]. split; [done|]. by constructor.
      - intros (b & a & Heq & -> & Hm & Hb).
        destruct b as [|e' b]; simpl in Heq.
        + simplify_eq. simpl in He. congruence.
        + simplify_eq. exists b, a. simpl.
          split; [done|]. split; [lia|]. split; [done|]. by inversion Hb. }
    destruct e as [t|o].
    + by apply Hskip.
    + destruct (space_matches n o) eqn:Ho.
      * split.
        -- intros [= <- <-]. exists [], r. simpl.
           split; [done|]. split; [lia|]. split; [done|]. constructor.
        -- intros (b & a & Heq & -> & Hm & Hb).
           destruct b as [|e' b]; simpl in Heq.
           ++ simplify_eq. simpl. do 2 f_equal. lia.
           ++ simplify_eq. inversion Hb as [|? ? Hx]; simplify_eq. simpl in Hx. congruence.
      * by apply Hskip.
Qed.

Lemma findSpace_spec n l k s :
  findSpace n l = Some (k, s) <->
  exists before after, l = before ++ Obj s :: after /\ k = List.length before /\
    space_matches n s = true /\ Forall (no_match n) before.
Proof. unfold findSpace. by rewrite findSpaceFrom_spec. Qed.

Lemma findSpaceFrom_None n l : forall i,
  findSpaceFrom i n l = None <-> Forall (no_match n) l.
Proof.
  induction l as [|e r IH]; intros i; simpl.
  - split; [constructor | done].
  - destruct e as [t|o].
    + rewrite IH. split; [by constructor | by inversion 1].
    + destruct (space_matches n o) eqn:Ho.
      * split; [discriminate|]. inversion 1 as [|? ? Hx]; simplify_eq.
        simpl in Hx. congruence.
      * rewrite IH. split; [by constructor | by inversion 1].
Qed.

Lemma findSpaceFrom_reaches n before s rest : forall i,
  space_matches n s = true ->
  exists k s', findSpaceFrom i n (before ++ Obj s :: rest) = Some (k, s') /\
    (k <= i + List.length before)%nat /\
    (Forall (no_match n) before -> k = (i + List.length before)%nat /\ s' = s).
Proof.
  induction before as [|e b IH]; intros i Hs; simpl.
  - rewrite Hs. exists i, s. split; [done|]. split; [lia|]. intros _. split; [lia | done].
  - assert (Hskip : exists k s',
              findSpaceFrom (S i) n (b ++ Obj s :: rest) = Some (k, s') /\
              (k <= i + S (List.length b))%nat /\
              (Forall (no_match n) (e :: b) ->
               k = (i + S (List.length b))%nat /\ s' = s)).
    { destruct (IH (S i) Hs) as (k & s' & Hf & Hle & Hall).
      exists k, s'. split; [done|]. split; [lia|].
      intros Hb. inversion Hb; simplify_eq.
      destruct Hall as [-> ->]; [done|]. split; [lia | done]. }
    destruct e as [t|o]; [exact Hskip|].
    destruct (space_matches n o) eqn:Ho; [|exact Hskip].
    exists i, o. split; [done|]. split; [lia|].
    intros Hb. inversion Hb as [|? ? Hx]; simplify_eq. simpl in Hx. congruence.
Qed.

Lemma findTarget_findSpaceFrom n l : forall i,
  truthy n = true ->
  findTarget (Some n) l = snd <$> findSpaceFrom i n l.
Proof.
  intros i Hn. revert i. induction l as [|e r IH]; intros i; simpl; [done|].
  destruct e as [t|o]; [apply IH|].
  rewrite Hn. simpl. destruct (space_matches n o); [done | apply IH].
Qed.

(** C8. Resolution by name or id is one scan in storage order: a record
    matches when its id or its title equals the argument, the first matching
    record is returned, and of two spaces that share a title the later one is
    never the one returned for that title. The nested listing resolves a
    non-empty argument by the same scan. *)
Theorem find_first_match_in_storage_order (nameOrId : string)
    (l : list (Entry SpaceObject)) :
  (forall s, space_matches nameOrId s = true <->
             space_id s = nameOrId \/ space_title s = nameOrId) /\
  (forall k s, findSpace nameOrId l = Some (k, s) <->
     exists before after, l = before ++ Obj s :: after /\ k = List.length before /\
       space_matches nameOrId s = true /\ Forall (no_match nameOrId) before) /\
  (findSpace nameOrId l = None <-> Forall (no_match nameOrId) l) /\
  (forall before s1 between s2 after,
     l = before ++ Obj s1 :: between ++ Obj s2 :: after ->
     space_title s1 = nameOrId -> space_title s2 = nameOrId ->
     exists k s, findSpace nameOrId l = Some (k, s) /\
       (k <= List.length before)%nat /\
       (Forall (no_match nameOrId) before -> k = List.length before /\ s = s1)) /\
  (truthy nameOrId = true ->
     findTarget (Some nameOrId) l = snd <$> findSpace nameOrId l).
Proof.
  split; [intros s; apply space_matches_spec|].
  split; [intros k s; apply findSpace_spec|].
  split; [apply findSpaceFrom_None|].
  split.
  - intros before s1 between s2 after -> H1 _.
    destruct (findSpaceFrom_reaches nameOrId before s1 (between ++ Obj s2 :: after) 0)
      as (k & s & Hf & Hle & Hall).
    { apply space_matches_spec. by right. }
    exists k, s. split; [exact Hf|]. split; [lia|]. exact Hall.
  - apply findTarget_findSpaceFrom.
Qed.

(** Two spaces titled "Work": the title reaches the first, the second is
    reachable by its id only; an earlier space whose id equals the argument
    wins over a later one whose title does. *)
Example findSpace_shared_title :
  let first := {| space_id := "A"; space_title := "Work"; profile := None;
                  containerIDs := None; newContainerIDs := None; customInfo := None |} in
  let second := {| space_id := "B"; space_title := "Work"; profile := None;
                   containerIDs := None; newContainerIDs := None; customInfo := None |} in
  let named_b := {| space_id := "C"; space_title := "B"; profile := None;
                    containerIDs := None; newContainerIDs := None; customInfo := None |} in
  findSpace "Work" [Token "A"; Obj first; Token "B"; Obj second] = Some (1%nat, first) /\
  findSpace "B" [Token "A"; Obj first; Token "B"; Obj second] = Some (3%nat, second) /\
  findSpace "B" [Obj named_b; Obj second] = Some (0%nat, named_b) /\
  findSpace "Play" [Token "A"; Obj first; Token "B"; Obj second] = None.
Proof. repeat split. Qed.

(** ** TreeBuilder: classification and [buildTree] *)

Lemma getItemType_priority it :
  getItemType it =
    if has_tab it then tab_type
    else if has_itemContainer it then container_type
    else folder_type.
Proof.
  unfold getItemType. destruct (has_tab it); [done|].
  destruct (has_itemContainer it); [done|]. by destruct (childrenIds it) as [[|? ?]|].
Qed.


Lemma buildChildren_returned build ids :
  Forall (fun c => exists o, build c = Returned o) ids ->
  buildChildren build ids = Returned (omap (fun c => returned_node (build c)) ids).
Proof.
  induction 1 as [|c r [o Ho] _ IH]; simpl; [done|].
  rewrite Ho, IH. simpl. by destruct o.
Qed.

Lemma buildChildren_app build a b :
  buildChildren build (a ++ b) =
    match buildChildren build a with
    | Thrown e => Thrown e
    | Returned xs =>
        match buildChildren build b with
        | Thrown e => Thrown e
        | Returned ys => Returned (xs ++ ys)
        end
    end.
Proof.
  induction a as [|c a IH]; simpl.
  - by destruct (buildChildren build b).
  - destruct (build c) as [o|e]; [|done]. rewrite IH.
    destruct (buildChildren build a) as [xs|e]; [|done].
    destruct (buildChildren build b) as [ys|e]; [|done].
    by destruct o.
Qed.



(** ** DocumentStore: which steps write *)

Lemma quiet_refl w : quiet w w.
Proof. by split. Qed.

Lemma quiet_trans w1 w2 w3 : quiet w1 w2 -> quiet w2 w3 -> quiet w1 w3.
Proof. intros [? ?] [? ?]. split; congruence. Qed.

Lemma reads_only_ret {A} (a : A) : reads_only (ret a).
Proof. intros w. apply quiet_refl. Qed.

Lemma reads_only_lift {A} (o : outcome A) : reads_only (lift o).
Proof. intros w. apply quiet_refl. Qed.

Lemma reads_only_bind {A B} (c : IO A) (k : A -> IO B) :
  reads_only c -> (forall a, reads_only (k a)) -> reads_only (bind c k).
Proof.
  intros Hc Hk w. unfold bind. specialize (Hc w).
  destruct (c w) as [[a|e] w1]; simpl in *; [|done].
  eapply quiet_trans; [exact Hc | apply Hk].
Qed.

Lemma reads_only_readFileSync : reads_only readFileSync.
Proof. intros w. unfold readFileSync. destruct (sidebar_file w); apply quiet_refl. Qed.

Lemma reads_only_Date_now : reads_only Date_now.
Proof. intros w. by split. Qed.

Lemma reads_only_randomUUID : reads_only randomUUID.
Proof. intros w. by split. Qed.

Lemma reads_only_copyFileSync stamp : reads_only (copyFileSync stamp).
Proof.
  intros w. unfold copyFileSync.
  destruct (sidebar_file w); [destruct (dir_writable w)|]; by split.
Qed.

Lemma reads_only_loadSidebar : reads_only loadSidebar.
Proof.
  apply reads_only_bind; [apply reads_only_readFileSync | intros; apply reads_only_lift].
Qed.

Lemma reads_only_createBackup : reads_only createBackup.
Proof.
  apply reads_only_bind; [apply reads_only_Date_now|]. intros t.
  apply reads_only_bind; [apply reads_only_copyFileSync | intros; apply reads_only_ret].
Qed.

Lemma reads_only_newId : reads_only newId.
Proof.
  apply reads_only_bind; [apply reads_only_randomUUID | intros; apply reads_only_ret].
Qed.

Create HintDb io_reads.
#[local] Hint Resolve reads_only_ret reads_only_lift reads_only_loadSidebar
  reads_only_createBackup reads_only_newId reads_only_Date_now : io_reads.

Lemma writes_once_bind {A} (c : IO A) (k : A -> IO Result) :
  reads_only c -> (forall a, writes_once_on_success (k a)) ->
  writes_once_on_success (bind c k).
Proof.
  intros Hc Hk w. unfold bind. specialize (Hc w).
  destruct (c w) as [[a|e] w1]; simpl in *; [|done].
  specialize (Hk a w1). destruct (k a w1) as [[r|e] w2].
  - destruct (success r).
    + destruct Hc as [_ <-]. exact Hk.
    + by eapply quiet_trans.
  - by eapply quiet_trans.
Qed.

Lemma writes_once_failure msg : writes_once_on_success (ret (failure msg)).
Proof. intros w. simpl. apply quiet_refl. Qed.

Lemma writes_once_save d r :
  success r = true ->
  writes_once_on_success (bind (saveSidebar d) (fun _ => ret r)).
Proof.
  intros Hr w. unfold bind, saveSidebar, writeFileSync, ret.
  destruct (file_writable w); simpl; [by rewrite Hr | apply quiet_refl].
Qed.

Lemma writes_once_try_catch body :
  writes_once_on_success body -> writes_once_on_success (try_catch body report).
Proof.
  intros Hb w. unfold try_catch. specialize (Hb w).
  destruct (body w) as [[r|e] w1]; [exact Hb | exact Hb].
Qed.

Ltac writes_once_step :=
  lazymatch goal with
  | |- writes_once_on_success (bind (saveSidebar _) _) =>
      apply writes_once_save; reflexivity
  | |- writes_once_on_success (bind _ _) =>
      apply writes_once_bind; [solve [auto with io_reads] | intros ?]
  | |- writes_once_on_success (ret (failure _)) => apply writes_once_failure
  | |- writes_once_on_success (ret _) => apply writes_once_failure
  | |- writes_once_on_success (match ?x with _ => _ end) => destruct x
  | |- writes_once_on_success _ => progress cbv zeta
  end.

(** C6. A mutating operation that reports a failure has not written the
    sidebar file: the file is overwritten by the final save only, once, on
    the path that reports success. *)
Theorem failure_leaves_file_unwritten :
  (forall name ic, writes_once_on_success (createSpace name ic)) /\
  (forall nameOrId, writes_once_on_success (deleteSpace nameOrId)) /\
  (forall nameOrId url title pin, writes_once_on_success (addTab nameOrId url title pin)) /\
  (forall tabId, writes_once_on_success (deleteTab tabId)).
Proof.
  repeat split; intros; apply writes_once_try_catch; repeat writes_once_step.
Qed.

(** ** The operation boundary *)








Lemma listSpaces_run w :
  listSpaces w =
    match sidebar_file w with
    | None => (Thrown ENOENT, w)
    | Some (NotJson _) => (Thrown SyntaxError, w)
    | Some (Json d) => (Returned (collect_spaces (primary_spaces d)), w)
    end.
Proof.
  unfold listSpaces, loadSidebar, bind, readFileSync, lift, ret.
  by destruct (sidebar_file w) as [[raw|d]|].
Qed.

Lemma listTabs_unloadable depth q w :
  (sidebar_file w = None -> listTabs depth q w = (Thrown ENOENT, w)) /\
  (forall raw, sidebar_file w = Some (NotJson raw) ->
     listTabs depth q w = (Thrown SyntaxError, w)).
Proof.
  unfold listTabs, loadSidebar, bind, readFileSync, lift.
  split; [intros -> | intros raw ->]; done.
Qed.

Lemma listTabsFlat_unloadable q w :
  (sidebar_file w = None -> listTabsFlat q w = (Thrown ENOENT, w)) /\
  (forall raw, sidebar_file w = Some (NotJson raw) ->
     listTabsFlat q w = (Thrown SyntaxError, w)).
Proof.
  unfold listTabsFlat, loadSidebar, bind, readFileSync, lift.
  split; [intros -> | intros raw ->]; done.
Qed.



(** ** Assigning into [containers[1]] *)

Lemma assign_items_ok f d c :
  container1 d = Some c ->
  exists d1, assign_items f d = Returned d1 /\
    primary_items d1 = f (items c) /\
    primary_spaces d1 = primary_spaces d /\
    sidebarSyncState d1 = sidebarSyncState d /\
    syncData d1 = syncData d.
Proof.
  unfold container1, assign_items, primary_items, primary_spaces, container1.
  destruct (containers d) as [cs|] eqn:Hcs; [|discriminate].
  intros Hc. rewrite Hc. eexists. split; [reflexivity|]. simpl.
  rewrite list_lookup_insert_eq by (by eapply lookup_lt_Some). simpl.
  by rewrite ?Hc.
Qed.

Lemma assign_spaces_ok f d c :
  container1 d = Some c ->
  exists d1, assign_spaces f d = Returned d1 /\
    primary_spaces d1 = f (spaces c) /\
    primary_items d1 = primary_items d /\
    container1 d1 = Some {| spaces := Some (f (spaces c)); items := items c |} /\
    sidebarSyncState d1 = sidebarSyncState d /\
    syncData d1 = syncData d.
Proof.
  unfold container1, assign_spaces, primary_items, primary_spaces, container1.
  destruct (containers d) as [cs|] eqn:Hcs; [|discriminate].
  intros Hc. rewrite Hc. eexists. split; [reflexivity|]. simpl.
  rewrite list_lookup_insert_eq by (by eapply lookup_lt_Some). simpl.
  by rewrite ?Hc.
Qed.

Lemma primary_spaces_container d e :
  e ∈ primary_spaces d ->
  exists c, container1 d = Some c /\ spaces c = Some (primary_spaces d).
Proof.
  unfold primary_spaces. destruct (container1 d) as [c|]; [|by intros ?%elem_of_nil].
  destruct (spaces c) as [l|] eqn:Hs; simpl; [intros _; by exists c | by intros ?%elem_of_nil].
Qed.

Lemma primary_items_container d e :
  e ∈ primary_items d ->
  exists c, container1 d = Some c /\ items c = Some (primary_items d).
Proof.
  unfold primary_items. destruct (container1 d) as [c|]; [|by intros ?%elem_of_nil].
  destruct (items c) as [l|] eqn:Hs; simpl; [intros _; by exists c | by intros ?%elem_of_nil].
Qed.

Lemma primary_items_default d c :
  container1 d = Some c -> default [] (items c) = primary_items d.
Proof. unfold primary_items. by intros ->. Qed.

Lemma primary_spaces_default d c :
  container1 d = Some c -> default [] (spaces c) = primary_spaces d.
Proof. unfold primary_spaces. by intros ->. Qed.

Lemma findSpace_container n d k s :
  findSpace n (primary_spaces d) = Some (k, s) ->
  exists c, container1 d = Some c /\ spaces c = Some (primary_spaces d).
Proof.
  intros H. apply (primary_spaces_container d (Obj s)).
  apply findSpace_spec in H as (b & a & -> & _). apply elem_of_app. right. left.
Qed.

Lemma find_item_elem_of id l it :
  find_item id l = Some it -> Obj it ∈ l /\ item_id it = id.
Proof.
  induction l as [|e r IH]; simpl; [discriminate|].
  destruct e as [t|o].
  - intros H. destruct (IH H). split; [by right | done].
  - destruct (str_eq (item_id o) id) eqn:Ho.
    + intros [= ->]. apply str_eq_true in Ho. split; [left | done].
    + intros H. destruct (IH H). split; [by right | done].
Qed.

Lemma find_item_None id l :
  find_item id l = None <-> forall it, Obj it ∈ l -> item_id it <> id.
Proof.
  induction l as [|e r IH]; simpl.
  - split; [intros _ it ?%elem_of_nil; done | done].
  - destruct e as [t|o].
    + rewrite IH. split.
      * intros H it Hin. apply elem_of_cons in Hin as [?|?]; [discriminate | by apply H].
      * intros H it Hin. apply H. by right.
    + destruct (str_eq (item_id o) id) eqn:Ho.
      * apply str_eq_true in Ho. split; [discriminate|].
        intros H. exfalso. apply (H o); [left | done].
      * apply str_eq_false in Ho. rewrite IH. split.
        -- intros H it Hin. apply elem_of_cons in Hin as [?|?]; [by simplify_eq | by apply H].
        -- intros H it Hin. apply H. by right.
Qed.

Lemma on_sync_items_containers f d :
  containers (on_sync_items f d) = containers d.
Proof.
  unfold on_sync_items. destruct (syncData d) as [sd|]; [|done].
  by destruct (sync_items sd).
Qed.

Lemma primary_items_on_sync_items f d :
  primary_items (on_sync_items f d) = primary_items d.
Proof. unfold primary_items, container1. by rewrite on_sync_items_containers. Qed.

Lemma primary_spaces_on_sync_items f d :
  primary_spaces (on_sync_items f d) = primary_spaces d.
Proof. unfold primary_spaces, container1. by rewrite on_sync_items_containers. Qed.

(** ** What each mutating operation does on a loaded document *)

Lemma deleteTab_run w d tabId :
  sidebar_file w = Some (Json d) -> dir_writable w = true ->
  deleteTab tabId w =
    match find_item tabId (primary_items d) with
    | None => (Returned (TabNotFound tabId), after_backup w (Json d))
    | Some found =>
        match assign_items (fun _ => items_after_deleteTab tabId found (primary_items d)) d with
        | Thrown e => (Returned (failure (message e)), after_backup w (Json d))
        | Returned d1 =>
            if file_writable w
            then (Returned ok,
                  with_file (Json (on_sync_items (List.filter (keep_sync_not_id tabId)) d1))
                    (after_backup w (Json d)))
            else (Returned (failure (message EACCES)), after_backup w (Json d))
        end
    end.
Proof.
  intros Hf Hd.
  unfold deleteTab, try_catch, bind, loadSidebar, createBackup, bind, readFileSync,
    lift, Date_now, copyFileSync, ret, report, saveSidebar, writeFileSync.
  rewrite Hf. cbn. rewrite Hf, Hd.
  destruct (find_item tabId (primary_items d)) as [found|]; [|done].
  destruct (assign_items _ d) as [d1|e]; [|done].
  cbn. by destruct (file_writable w).
Qed.

Lemma addTab_run w d n url title pin :
  sidebar_file w = Some (Json d) -> dir_writable w = true ->
  addTab n url title pin w =
    let w1 := after_backup w (Json d) in
    match findSpace n (primary_spaces d) with
    | None => (Returned (SpaceNotFound n), w1)
    | Some (_, item) =>
        if negb (truthy (space_id item)) then (Returned (SpaceNotFound n), w1)
        else
          let containerId := select_container pin (structural_ids item) in
          if negb (truthy_opt containerId)
          then (Returned (ContainerMissing (space_id item)), w1)
          else
            let cid := default "" containerId in
            let tabId := toUpperCase (uuid_source w (uuid_draws w)) in
            let ts := clock w (S (clock_reads w)) in
            let w2 := tick_clock (tick_uuid w1) in
            let tabObj := new_tab tabId cid url title (getDeviceId d) ts in
            match assign_items
                    (fun old => push_child cid tabId
                                  (default [] old ++ [Token tabId; Obj tabObj])) d with
            | Thrown e => (Returned (failure (message e)), w2)
            | Returned d1 =>
                if file_writable w
                then (Returned (ok_id tabId),
                      with_file
                        (Json (on_sync_items
                                 (fun l => l ++ [Token tabId;
                                                 Obj (stamped tabId ts (getDeviceId d) tabObj)])
                                 d1)) w2)
                else (Returned (failure (message EACCES)), w2)
            end
    end.
Proof.
  intros Hf Hd.
  unfold addTab, try_catch, bind, loadSidebar, createBackup, bind, readFileSync,
    lift, Date_now, copyFileSync, ret, report, saveSidebar, writeFileSync, newId,
    randomUUID, bind, ret.
  rewrite Hf. cbn. rewrite Hf, Hd.
  destruct (findSpace n (primary_spaces d)) as [[k item]|]; [|done].
  destruct (truthy (space_id item)); [|done]. cbn.
  destruct (truthy_opt (select_container pin (structural_ids item))); [|done]. cbn.
  destruct (assign_items _ d) as [d1|e]; [|done].
  cbn. by destruct (file_writable w).
Qed.

Lemma deleteSpace_run w d n :
  sidebar_file w = Some (Json d) -> dir_writable w = true ->
  deleteSpace n w =
    let w1 := after_backup w (Json d) in
    let spaces := primary_spaces d in
    match findSpace n spaces with
    | None => (Returned (SpaceNotFound n), w1)
    | Some (_, spaceObj) =>
        let spaceId := space_id spaceObj in
        if negb (truthy spaceId) then (Returned (SpaceNotFound n), w1)
        else
          match assign_spaces (fun _ => List.filter (keep_space spaceId) spaces) d with
          | Thrown e => (Returned (failure (message e)), w1)
          | Returned d1 =>
              let its := primary_items d1 in
              let rm := itemsToRemove (structural_ids spaceObj) its in
              match assign_items (fun _ => List.filter (keep_item rm) its) d1 with
              | Thrown e => (Returned (failure (message e)), w1)
              | Returned d2 =>
                  let keep_id := fun id => negb (str_eq id spaceId) in
                  let d7 :=
                    on_sync_items (List.filter (keep_sync_item rm))
                      (on_sync_spaceModels (List.filter (keep_sync_model spaceId))
                         (on_sync_ordered_value (List.filter keep_id)
                            (on_local_spaceModels (List.filter (keep_local_model spaceId))
                               (on_local_ordered (List.filter keep_id) d2)))) in
                  if file_writable w
                  then (Returned ok, with_file (Json d7) w1)
                  else (Returned (failure (message EACCES)), w1)
              end
          end
    end.
Proof.
  intros Hf Hd.
  unfold deleteSpace, try_catch, bind, loadSidebar, createBackup, bind, readFileSync,
    lift, Date_now, copyFileSync, ret, report, saveSidebar, writeFileSync.
  rewrite Hf. cbn. rewrite Hf, Hd.
  destruct (findSpace n (primary_spaces d)) as [[k spaceObj]|]; [|done].
  destruct (truthy (space_id spaceObj)); [|done]. cbn.
  destruct (assign_spaces _ d) as [d1|e]; [|done].
  destruct (assign_items _ d1) as [d2|e]; [|done].
  cbn. by destruct (file_writable w).
Qed.

Lemma createSpace_run w d name ic :
  sidebar_file w = Some (Json d) -> dir_writable w = true ->
  find_theme (primary_spaces d) = None ->
  createSpace name ic w =
    (Returned ThemeTemplateMissing,
     tick_clock (tick_uuid (tick_uuid (tick_uuid (after_backup w (Json d)))))).
Proof.
  intros Hf Hd Ht.
  unfold createSpace, try_catch, bind, loadSidebar, createBackup, bind, readFileSync,
    lift, Date_now, copyFileSync, ret, report, saveSidebar, writeFileSync, newId,
    randomUUID, bind, ret.
  rewrite Hf. cbn. rewrite Hf, Hd, Ht. done.
Qed.

Lemma createSpace_with_theme w d name ic theme :
  sidebar_file w = Some (Json d) -> dir_writable w = true ->
  find_theme (primary_spaces d) = Some theme ->
  exists w', createSpace name ic w =
               (Returned (ok_id (toUpperCase (uuid_source w (uuid_draws w)))), w')
             \/ exists e, createSpace name ic w = (Returned (failure (message e)), w').
Proof.
  intros Hf Hd Ht.
  unfold createSpace, try_catch, bind, loadSidebar, createBackup, bind, readFileSync,
    lift, Date_now, copyFileSync, ret, report, saveSidebar, writeFileSync, newId,
    randomUUID, bind, ret.
  rewrite Hf. cbn. rewrite Hf, Hd, Ht.
  destruct (assign_spaces _ d) as [d1|e]; [|eauto].
  destruct (assign_items _ d1) as [d2|e]; [|eauto].
  cbn. destruct (file_writable w); eauto.
Qed.

(** ** [createSpace]: the theme template *)

Lemma find_theme_None l :
  find_theme l = None <-> forall s, Obj s ∈ l -> space_theme s = None.
Proof.
  induction l as [|e r IH]; simpl.
  - split; [intros _ s ?%elem_of_nil; done | done].
  - destruct e as [t|o].
    + rewrite IH. split.
      * intros H s Hin. apply elem_of_cons in Hin as [?|?]; [discriminate | by apply H].
      * intros H s Hin. apply H. by right.
    + assert (Hnone : space_theme o = None ->
                (find_theme r = None <->
                 forall s, Obj s ∈ Obj o :: r -> space_theme s = None)).
      { intros Ho. rewrite IH. split.
        - intros H s Hin. apply elem_of_cons in Hin as [?|?]; [by simplify_eq | by apply H].
        - intros H s Hin. apply H. by right. }
      destruct (space_theme o) as [t|] eqn:Ho.
      * unfold space_theme in Ho.
        destruct (customInfo o) as [ci|] eqn:Hci; [|discriminate].
        rewrite Ho. split; [discriminate|]. intros H. specialize (H o ltac:(left)).
        unfold space_theme in H. rewrite Hci in H. congruence.
      * specialize (Hnone eq_refl). unfold space_theme in Ho.
        destruct (customInfo o) as [ci|]; [by rewrite Ho | done].
Qed.

Lemma message_not_theme_missing e : failure (message e) <> ThemeTemplateMissing.
Proof. by destruct e. Qed.

Lemma message_not_container_missing e sid : failure (message e) <> ContainerMissing sid.
Proof. by destruct e. Qed.

(** C4. On a document that loads and can be backed up, [createSpace] reports
    the missing theme template exactly when no record of the primary space
    list carries a theme object; it then leaves the file holding the same
    document, unwritten. *)
Theorem createSpace_theme_template_missing w d name ic :
  sidebar_file w = Some (Json d) -> dir_writable w = true ->
  (fst (createSpace name ic w) = Returned ThemeTemplateMissing <->
   forall s, Obj s ∈ primary_spaces d -> space_theme s = None) /\
  ((forall s, Obj s ∈ primary_spaces d -> space_theme s = None) ->
   sidebar_file (snd (createSpace name ic w)) = Some (Json d) /\
   writes (snd (createSpace name ic w)) = writes w).
Proof.
  intros Hf Hd. rewrite <- find_theme_None. split.
  - destruct (find_theme (primary_spaces d)) as [theme|] eqn:Ht.
    + split; [|discriminate]. intros H. exfalso.
      destruct (createSpace_with_theme w d name ic theme Hf Hd Ht) as [w' [Hr|[e Hr]]];
        rewrite Hr in H; simpl in H.
      * discriminate.
      * injection H as H. by destruct e.
    + split; [done|]. intros _. by rewrite (createSpace_run w d name ic Hf Hd Ht).
  - intros Ht. rewrite (createSpace_run w d name ic Hf Hd Ht). simpl. by rewrite Hf.
Qed.

Lemma createSpace_theme_template_missing_witness :
  (fst (createSpace "Personal" (Some "house.fill") (world_of themeless_doc))
     = Returned ThemeTemplateMissing <->
   forall s, Obj s ∈ primary_spaces themeless_doc -> space_theme s = None) /\
  ((forall s, Obj s ∈ primary_spaces themeless_doc -> space_theme s = None) ->
   sidebar_file (snd (createSpace "Personal" (Some "house.fill") (world_of themeless_doc)))
     = Some (Json themeless_doc) /\
   writes (snd (createSpace "Personal" (Some "house.fill") (world_of themeless_doc)))
     = writes (world_of themeless_doc)).
Proof.
  apply (createSpace_theme_template_missing (world_of themeless_doc) themeless_doc);
    reflexivity.
Defined.

Example createSpace_on_themeless_doc :
  fst (createSpace "Personal" None (world_of themeless_doc)) = Returned ThemeTemplateMissing.
Proof. reflexivity. Qed.

Example createSpace_on_demo_doc :
  fst (createSpace "Personal" None demo_world) = Returned (ok_id "AA11-0001") /\
  (exists d', sidebar_file (snd (createSpace "Personal" None demo_world)) = Some (Json d') /\
     collect_spaces (primary_spaces d') =
       [ {| view_id := "S1"; view_title := "Work"; view_icon := Some "star" |};
         {| view_id := "S2"; view_title := "Solo"; view_icon := None |};
         {| view_id := "AA11-0001"; view_title := "Personal"; view_icon := Some "star" |} ]).
Proof. split; [reflexivity|]. eexists. split; reflexivity. Qed.

(** ** [addTab]: the missing container *)

(** C3 as stated fails: a resolvable space with a single structural
    container id accepts a pinned tab, because only the selected slot is
    tested. *)
Lemma addTab_pinned_with_single_container :
  findSpace "Solo" (primary_spaces demo_doc) = Some (3%nat, demo_solo) /\
  structural_ids demo_solo = ["P2"] /\
  fst (addTab "Solo" "https://example.com" None true demo_world)
    = Returned (ok_id "AA11-0001").
Proof. repeat split; vm_compute; reflexivity. Qed.

(** C3, as the code has it. For a resolvable space with fewer than two
    structural container ids, on a document that loads and can be backed
    up: an unpinned [addTab] reports the missing container; a pinned one
    reports it exactly when the first structural id is absent or empty. *)
Theorem addTab_container_missing w d nameOrId k s url title :
  sidebar_file w = Some (Json d) -> dir_writable w = true ->
  findSpace nameOrId (primary_spaces d) = Some (k, s) ->
  truthy (space_id s) = true ->
  (List.length (structural_ids s) < 2)%nat ->
  fst (addTab nameOrId url title false w) = Returned (ContainerMissing (space_id s)) /\
  (fst (addTab nameOrId url title true w) = Returned (ContainerMissing (space_id s)) <->
   truthy_opt (structural_ids s !! 0%nat) = false).
Proof.
  intros Hf Hd Hfind Hid Hlen. rewrite !(addTab_run w d) by done.
  cbv zeta. rewrite Hfind, Hid. simpl negb. cbv iota.
  split.
  - unfold select_container. rewrite (lookup_ge_None_2 _ 1%nat) by lia. done.
  - unfold select_container.
    destruct (truthy_opt (structural_ids s !! 0%nat)) eqn:H0; simpl.
    + split; [|discriminate]. intros H. exfalso.
      destruct (assign_items _ d) as [d1|e]; [destruct (file_writable w)|];
        simpl in H; injection H as H; try discriminate.
      destruct e; simpl in H; discriminate.
    + done.
Qed.

Lemma addTab_container_missing_witness :
  fst (addTab "Solo" "https://example.com" None false demo_world)
    = Returned (ContainerMissing "S2") /\
  (fst (addTab "Solo" "https://example.com" None true demo_world)
     = Returned (ContainerMissing "S2") <->
   truthy_opt (structural_ids demo_solo !! 0%nat) = false).
Proof.
  apply (addTab_container_missing demo_world demo_doc "Solo" 3%nat demo_solo);
    [reflexivity | reflexivity | vm_compute; reflexivity | reflexivity | simpl; lia].
Defined.

(** ** Lists and ledgers *)

Lemma elem_of_List_filter {A} (f : A -> bool) (l : list A) (x : A) :
  x ∈ List.filter f l <-> x ∈ l /\ f x = true.
Proof. rewrite !list_elem_of_In. apply filter_In. Qed.

Lemma elem_of_item_ids l id :
  id ∈ item_ids l <-> exists it, Obj it ∈ l /\ item_id it = id.
Proof.
  unfold item_ids. rewrite list_elem_of_omap. split.
  - intros ([t|it] & Hin & Heq); [discriminate|]. injection Heq as <-. eauto.
  - intros (it & Hin & <-). exists (Obj it). eauto.
Qed.


Lemma on_local_ordered_containers f d : containers (on_local_ordered f d) = containers d.
Proof.
  unfold on_local_ordered. destruct (sidebarSyncState d) as [s|]; [|done].
  by destruct (local_orderedSpaceIDs s).
Qed.

Lemma on_local_spaceModels_containers f d :
  containers (on_local_spaceModels f d) = containers d.
Proof.
  unfold on_local_spaceModels. destruct (sidebarSyncState d) as [s|]; [|done].
  by destruct (local_spaceModels s).
Qed.

Lemma on_sync_ordered_containers f d : containers (on_sync_ordered f d) = containers d.
Proof.
  unfold on_sync_ordered. destruct (syncData d) as [sd|]; [|done].
  by destruct (orderedSpaceIDs sd).
Qed.

Lemma on_sync_spaceModels_containers f d :
  containers (on_sync_spaceModels f d) = containers d.
Proof.
  unfold on_sync_spaceModels. destruct (syncData d) as [sd|]; [|done].
  by destruct (spaceModels sd).
Qed.

Lemma primary_items_ledgers d f1 f2 f3 f4 f5 :
  primary_items
    (on_sync_items f5 (on_sync_spaceModels f4 (on_sync_ordered_value f3
       (on_local_spaceModels f2 (on_local_ordered f1 d))))) = primary_items d.
Proof.
  unfold primary_items, container1, on_sync_ordered_value.
  by rewrite on_sync_items_containers, on_sync_spaceModels_containers,
    on_sync_ordered_containers, on_local_spaceModels_containers,
    on_local_ordered_containers.
Qed.

(** ** [deleteSpace]: the removal set *)

Lemma itemsToRemove_spec containerIds its id :
  id ∈ itemsToRemove containerIds its <->
  id ∈ containerIds \/
  exists it p, Obj it ∈ its /\ item_id it = id /\ parentID it = Some p /\
               truthy p = true /\ p ∈ containerIds.
Proof.
  unfold itemsToRemove.
  assert (Hgen : forall acc : gset string,
    id ∈ foldl (fun acc e =>
                  match e with
                  | Obj it =>
                      match parentID it with
                      | Some p =>
                          if truthy p && bool_decide (p ∈ containerIds)
                          then acc ∪ {[ item_id it ]}
                          else acc
                      | None => acc
                      end
                  | Token _ => acc
                  end) acc its <->
    id ∈ acc \/
    exists it p, Obj it ∈ its /\ item_id it = id /\ parentID it = Some p /\
                 truthy p = true /\ p ∈ containerIds).
  { induction its as [|e r IH]; intros acc; simpl.
    - split; [by left|]. intros [?|(it & p & Hin & _)]; [done | by apply elem_of_nil in Hin].
    - rewrite IH. clear IH.
      assert (Hweak : (exists it p, Obj it ∈ r /\ item_id it = id /\ parentID it = Some p /\
                         truthy p = true /\ p ∈ containerIds) ->
                      exists it p, Obj it ∈ e :: r /\ item_id it = id /\
                         parentID it = Some p /\ truthy p = true /\ p ∈ containerIds).
      { intros (it & p & Hin & H). exists it, p. split; [by right | done]. }
      destruct e as [t|o].
      + split; [intros [?|?]; eauto|].
        intros [?|(it & p & Hin & H)]; [by left|].
        apply elem_of_cons in Hin as [?|Hin]; [discriminate|]. right. eauto.
      + destruct (parentID o) as [p|] eqn:Hp.
        * destruct (truthy p && bool_decide (p ∈ containerIds)) eqn:Hc.
          -- apply andb_true_iff in Hc as [Ht Hc]. apply bool_decide_eq_true in Hc.
             rewrite elem_of_union, elem_of_singleton. split.
             ++ intros [[? | ->] | ?]; [by left | | eauto].
                right. exists o, p. split; [left | done].
             ++ intros [?|(it & q & Hin & Hid & H)]; [by left; left|].
                apply elem_of_cons in Hin as [?|Hin]; [simplify_eq; by left; right|].
                right. eauto.
          -- split; [intros [?|?]; eauto|].
             intros [?|(it & q & Hin & Hid & Hq & Ht & Hc')]; [by left|].
             apply elem_of_cons in Hin as [?|Hin]; [|right; eauto 10].
             simplify_eq. apply andb_false_iff in Hc as [?|Hc]; [congruence|].
             by apply bool_decide_eq_false in Hc.
        * split; [intros [?|?]; eauto|].
          intros [?|(it & q & Hin & Hid & Hq & H)]; [by left|].
          apply elem_of_cons in Hin as [?|Hin]; [simplify_eq|]. right. eauto 10. }
  rewrite Hgen, elem_of_list_to_set. done.
Qed.


Lemma keep_item_spec rm e : keep_item rm e = true <-> entry_id e ∉ rm.
Proof.
  destruct e; simpl; rewrite negb_true_iff, bool_decide_eq_false; done.
Qed.



(** The sample document after [deleteSpace "Work"]: the containers P1 and
    U1 and their direct children F1 and T1 are gone; the tab T2, nested in
    the folder F1, stays behind with its parent missing. *)
Example deleteSpace_orphans_nested_tab :
  exists d', sidebar_file (snd (deleteSpace "Work" demo_world)) = Some (Json d') /\
    primary_items d' =
      [ Token "T2"; Obj (demo_tab "T2" "F1" "https://rocq-prover.org" "Rocq");
        Token "P2"; Obj (demo_container "P2" "S2" []) ] /\
    find_item "F1" (primary_items d') = None.
Proof. eexists. split; [reflexivity|]. split; vm_compute; reflexivity. Qed.

(** ** [deleteTab]: what is left of the item list *)

Lemma item_ids_cons_obj o r : item_ids (Obj o :: r) = item_id o :: item_ids r.
Proof. reflexivity. Qed.

Lemma item_ids_cons_token t r : item_ids (Token t :: r) = item_ids r.
Proof. reflexivity. Qed.


Lemma detach_child_item_ids pid tid l :
  item_ids (detach_child pid tid l) = item_ids l.
Proof.
  unfold item_ids. induction l as [|e r IH]; csimpl; [done|].
  destruct e as [t|o]; csimpl; [by rewrite IH|].
  destruct (str_eq (item_id o) pid); [|csimpl; by rewrite IH].
  destruct (childrenIds o); csimpl; [done | by rewrite IH].
Qed.

(** A record of the detached list is a record of the list, up to its child
    list. *)
Lemma detach_child_record pid tid l it' :
  Obj it' ∈ detach_child pid tid l ->
  exists it, Obj it ∈ l /\ item_id it' = item_id it /\ parentID it' = parentID it /\
             data it' = data it /\ item_title it' = item_title it.
Proof.
  induction l as [|e r IH]; simpl; [by intros ?%elem_of_nil|].
  destruct e as [t|o].
  - intros [?|Hin]%elem_of_cons; [discriminate|].
    destruct (IH Hin) as (it & ? & ?). exists it. split; [by right | done].
  - assert (Hrec : Obj it' ∈ Obj o :: detach_child pid tid r ->
              exists it, Obj it ∈ Obj o :: r /\ item_id it' = item_id it /\
                parentID it' = parentID it /\ data it' = data it /\
                item_title it' = item_title it).
    { intros [?|Hin]%elem_of_cons.
      - simplify_eq. eexists. split; [left | done].
      - destruct (IH Hin) as (it & ? & ?). exists it. split; [by right | done]. }
    destruct (str_eq (item_id o) pid); [|exact Hrec].
    destruct (childrenIds o) as [cs|]; [|exact Hrec].
    intros [?|Hin]%elem_of_cons.
    + simplify_eq. eexists. split; [left | done].
    + exists it'. split; [by right | done].
Qed.


Lemma detach_child_detached pid tid l p :
  NoDup (item_ids l) ->
  Obj p ∈ detach_child pid tid l -> item_id p = pid ->
  tid ∉ default [] (childrenIds p).
Proof.
  induction l as [|e r IH]; [by intros _ ?%elem_of_nil|].
  destruct e as [t|o].
  - rewrite item_ids_cons_token. simpl.
    intros Hnd [?|Hin]%elem_of_cons Hp; [discriminate|]. by apply IH.
  - rewrite item_ids_cons_obj. simpl. intros [Hnotin Hnd]%NoDup_cons.
    destruct (str_eq (item_id o) pid) eqn:Ho.
    + apply str_eq_true in Ho.
      assert (Hlater : forall q, Obj q ∈ r -> item_id q <> pid).
      { intros q Hq Hqid. apply Hnotin. apply elem_of_item_ids. exists q. split; congruence. }
      destruct (childrenIds o) as [cs|] eqn:Hcs.
      * intros [?|Hin]%elem_of_cons Hp.
        -- simplify_eq. simpl. rewrite elem_of_List_filter, negb_true_iff, str_eq_false.
           tauto.
        -- by apply Hlater in Hin.
      * intros [?|Hin]%elem_of_cons Hp.
        -- simplify_eq. rewrite Hcs. simpl. apply not_elem_of_nil.
        -- exfalso. apply Hnotin. rewrite <- (detach_child_item_ids pid tid r).
           apply elem_of_item_ids. exists p. split; congruence.
    + apply str_eq_false in Ho.
      intros [?|Hin]%elem_of_cons Hp; [by simplify_eq | by apply IH].
Qed.

Lemma keep_not_id_spec tid e : keep_not_id tid e = true <-> entry_id e <> tid.
Proof. destruct e; simpl; by rewrite negb_true_iff, str_eq_false. Qed.


Lemma item_ids_filter tid l :
  item_ids (List.filter (keep_not_id tid) l) =
  List.filter (fun i => negb (str_eq i tid)) (item_ids l).
Proof.
  unfold item_ids. induction l as [|e r IH]; csimpl; [done|].
  destruct e as [t|o]; csimpl.
  - destruct (negb (str_eq t tid)); csimpl; by rewrite IH.
  - destruct (negb (str_eq (item_id o) tid)); csimpl; by rewrite IH.
Qed.

Lemma NoDup_List_filter {A} (f : A -> bool) (l : list A) :
  NoDup l -> NoDup (List.filter f l).
Proof.
  induction 1 as [|x l Hx Hnd IH]; simpl; [constructor|].
  destruct (f x); [|done]. constructor; [|done].
  rewrite elem_of_List_filter. tauto.
Qed.


Lemma items_after_deleteTab_item_ids tid found l :
  item_ids (items_after_deleteTab tid found l) =
  List.filter (fun i => negb (str_eq i tid)) (item_ids l).
Proof.
  unfold items_after_deleteTab. rewrite <- item_ids_filter.
  destruct (parentID found) as [pid|]; [|done].
  destruct (truthy pid); [apply detach_child_item_ids | done].
Qed.

Lemma items_after_deleteTab_gone tid found l : tid ∉ item_ids (items_after_deleteTab tid found l).
Proof.
  rewrite items_after_deleteTab_item_ids, elem_of_List_filter, negb_true_iff, str_eq_false.
  tauto.
Qed.

Lemma items_after_deleteTab_detached tid found l pid p :
  NoDup (item_ids l) ->
  parentID found = Some pid -> truthy pid = true ->
  Obj p ∈ items_after_deleteTab tid found l -> item_id p = pid ->
  tid ∉ default [] (childrenIds p).
Proof.
  intros Hnd Hpid Ht. unfold items_after_deleteTab. rewrite Hpid, Ht.
  apply detach_child_detached. rewrite item_ids_filter. by apply NoDup_List_filter.
Qed.


Lemma find_item_item_ids id l :
  find_item id l = None <-> id ∉ item_ids l.
Proof.
  rewrite find_item_None, elem_of_item_ids. split.
  - intros H (it & Hin & Heq). by apply (H it).
  - intros H it Hin Heq. apply H. eauto.
Qed.

Lemma remote_items_on_sync_items f d :
  remote_items (on_sync_items f d) = f <$> remote_items d.
Proof.
  unfold remote_items, on_sync_items.
  destruct (syncData d) as [sd|] eqn:Hsd; [|by rewrite Hsd].
  destruct (sync_items sd) as [l|] eqn:Hl; simpl; [done | by rewrite Hsd, Hl].
Qed.

Lemma deleteTab_present w d tabId found :
  sidebar_file w = Some (Json d) -> dir_writable w = true -> file_writable w = true ->
  find_item tabId (primary_items d) = Some found ->
  exists d',
    deleteTab tabId w = (Returned ok, with_file (Json d') (after_backup w (Json d))) /\
    primary_items d' = items_after_deleteTab tabId found (primary_items d) /\
    primary_spaces d' = primary_spaces d /\
    remote_items d' = List.filter (keep_sync_not_id tabId) <$> remote_items d.
Proof.
  intros Hf Hd Hw Hfound. rewrite (deleteTab_run w d) by done. rewrite Hfound, Hw.
  destruct (find_item_elem_of _ _ _ Hfound) as [Hin _].
  destruct (primary_items_container _ _ Hin) as (c & Hc & _).
  destruct (assign_items_ok
              (fun _ => items_after_deleteTab tabId found (primary_items d)) d c Hc)
    as (d1 & -> & Hits & Hsp & _ & Hsync).
  eexists. split; [reflexivity|].
  rewrite primary_items_on_sync_items, primary_spaces_on_sync_items,
    remote_items_on_sync_items.
  repeat split; try done. unfold remote_items. by rewrite Hsync.
Qed.



(** [deleteTab] on the folder F1 and on the container U1 of the sample
    document: both succeed, and the former children keep their parent id. *)
Example deleteTab_on_folder_and_container :
  (exists d', deleteTab "F1" demo_world
                = (Returned ok, with_file (Json d') (after_backup demo_world (Json demo_doc))) /\
     primary_items d' =
       [ Token "P1"; Obj (demo_container "P1" "S1" []);
         Token "U1"; Obj (demo_container "U1" "S1" ["T1"]);
         Token "T1"; Obj (demo_tab "T1" "U1" "https://example.com" "Example");
         Token "T2"; Obj (demo_tab "T2" "F1" "https://rocq-prover.org" "Rocq");
         Token "P2"; Obj (demo_container "P2" "S2" []) ]) /\
  (exists d', deleteTab "U1" demo_world
                = (Returned ok, with_file (Json d') (after_backup demo_world (Json demo_doc))) /\
     primary_items d' =
       [ Token "P1"; Obj (demo_container "P1" "S1" []);
         Token "F1"; Obj (demo_folder "F1" "Docs" "U1" ["T2"]);
         Token "T1"; Obj (demo_tab "T1" "U1" "https://example.com" "Example");
         Token "T2"; Obj (demo_tab "T2" "F1" "https://rocq-prover.org" "Rocq");
         Token "P2"; Obj (demo_container "P2" "S2" []) ]).
Proof. split; eexists; split; reflexivity. Qed.

(** ** The listings on a loaded document *)

Lemma listTabs_run depth q w d :
  sidebar_file w = Some (Json d) ->
  listTabs depth q w =
    match findTarget q (primary_spaces d) with
    | None => (Returned None, w)
    | Some targetSpace =>
        let itemMap := buildItemMap (primary_items d) in
        match buildBucket depth itemMap (structural_ids targetSpace !! 0%nat) with
        | Thrown e => (Thrown e, w)
        | Returned p =>
            match buildBucket depth itemMap (structural_ids targetSpace !! 1%nat) with
            | Thrown e => (Thrown e, w)
            | Returned u =>
                (Returned (Some {| spaceId := space_id targetSpace;
                                   spaceTitle := space_title targetSpace;
                                   pinned := p; unpinned := u |}), w)
            end
        end
    end.
Proof.
  intros Hf. unfold listTabs, loadSidebar, bind, readFileSync, lift, ret. rewrite Hf.
  simpl. destruct (findTarget q (primary_spaces d)); [|done].
  destruct (buildBucket depth _ (structural_ids s !! 0%nat)); [|done].
  by destruct (buildBucket depth _ (structural_ids s !! 1%nat)).
Qed.

Lemma listTabsFlat_run q w d :
  sidebar_file w = Some (Json d) ->
  exists target, listTabsFlat q w = (Returned [], w) \/
    listTabsFlat q w =
      (Returned (collect_tabs (containerToSpace (primary_spaces d)) target (primary_items d)), w).
Proof.
  intros Hf. unfold listTabsFlat, loadSidebar, bind, readFileSync, lift, ret. rewrite Hf.
  simpl. destruct (truthy_opt q); [|by exists None; right].
  destruct (findSpace _ _) as [[k s]|]; [|by exists None; left].
  destruct (truthy (space_id s)); [by exists (Some (space_id s)); right | by exists None; left].
Qed.

Lemma collect_tabs_ids c2s target l t :
  t ∈ collect_tabs c2s target l -> tab_id t ∈ item_ids l.
Proof.
  induction l as [|e r IH]; [by intros ?%elem_of_nil|].
  destruct e as [s|it]; [exact IH|]. rewrite item_ids_cons_obj. simpl.
  assert (Hskip : t ∈ collect_tabs c2s target r -> tab_id t ∈ item_id it :: item_ids r)
    by (intros H; right; by apply IH).
  destruct (item_tab it) as [td|]; [|exact Hskip].
  destruct (parentID it) as [p|]; [|exact Hskip].
  destruct (truthy p); [|exact Hskip].
  destruct (c2s !! p) as [[sid isPinned]|]; [|exact Hskip].
  destruct (match target with Some _ => _ | None => _ end); [exact Hskip|].
  intros [->|H]%elem_of_cons; [left | by apply Hskip].
Qed.

Lemma buildItemMap_lookup l k it :
  buildItemMap l !! k = Some it -> Obj it ∈ l /\ item_id it = k.
Proof.
  unfold buildItemMap.
  assert (Hgen : forall acc : gmap string ItemObject,
    foldl (fun m e => match e with Obj it => <[item_id it := it]> m | Token _ => m end)
      acc l !! k = Some it ->
    (Obj it ∈ l /\ item_id it = k) \/ acc !! k = Some it).
  { induction l as [|e r IH]; intros acc; simpl; [by right|].
    intros H. destruct (IH _ H) as [[Hin Hid]|Hacc].
    - left. split; [by right | done].
    - destruct e as [t|o]; [by right|].
      destruct (decide (item_id o = k)) as [Heq|Hne].
      + rewrite Heq, lookup_insert_eq in Hacc. simplify_eq. left. split; [left | done].
      + rewrite lookup_insert_ne in Hacc by done. by right. }
  intros H. destruct (Hgen ∅ H) as [?|Hempty]; [done|]. by rewrite lookup_empty in Hempty.
Qed.

Lemma buildChildren_elem build ids ns n :
  buildChildren build ids = Returned ns -> n ∈ ns ->
  exists c, c ∈ ids /\ build c = Returned (Some n).
Proof.
  revert ns. induction ids as [|c r IH]; simpl; intros ns.
  - intros [= <-] ?%elem_of_nil. done.
  - destruct (build c) as [o|e] eqn:Hc; [|discriminate].
    destruct (buildChildren build r) as [rest|e]; [|discriminate].
    intros [= <-] Hn.
    assert (Hrest : n ∈ rest -> exists c0, c0 ∈ c :: r /\ build c0 = Returned (Some n)).
    { intros Hr. destruct (IH rest eq_refl Hr) as (c0 & ? & ?). exists c0.
      split; [by right | done]. }
    destruct o as [m|]; [|by apply Hrest].
    apply elem_of_cons in Hn as [->|Hn]; [|by apply Hrest].
    exists c. split; [left | done].
Qed.

Lemma elem_of_flat_map {A B} (f : A -> list B) (l : list A) (y : B) :
  y ∈ flat_map f l <-> exists x, x ∈ l /\ y ∈ f x.
Proof.
  rewrite list_elem_of_In, in_flat_map. split; intros (x & Hx & Hy); exists x;
    by rewrite ?list_elem_of_In in *.
Qed.

Lemma buildTree_ids (ids : list string) itemMap :
  (forall k it, itemMap !! k = Some it -> item_id it ∈ ids) ->
  forall depth id n, buildTree depth itemMap id = Returned (Some n) ->
  forall i, i ∈ node_ids n -> i ∈ ids.
Proof.
  intros Hmap. induction depth as [|depth IH]; intros id n; simpl; [discriminate|].
  destruct (itemMap !! id) as [item|] eqn:Hitem; [|discriminate].
  specialize (Hmap _ _ Hitem).
  destruct (getItemType item).
  - intros [= <-] i. simpl. by intros ->%list_elem_of_singleton.
  - destruct (buildChildren _ _) as [children|e] eqn:Hch; [|discriminate].
    intros [= <-] i. simpl. intros [->|Hi]%elem_of_cons; [done|].
    apply elem_of_flat_map in Hi as (child & Hchild & Hi).
    destruct (buildChildren_elem _ _ _ _ Hch Hchild) as (c & _ & Hc).
    by eapply IH.
  - discriminate.
Qed.

Lemma buildBucket_ids (ids : list string) itemMap depth cid ns :
  (forall k it, itemMap !! k = Some it -> item_id it ∈ ids) ->
  buildBucket depth itemMap cid = Returned ns ->
  forall i, i ∈ flat_map node_ids ns -> i ∈ ids.
Proof.
  intros Hmap. unfold buildBucket.
  destruct cid as [c|]; [|by intros [= <-] i ?%elem_of_nil].
  destruct (itemMap !! c) as [cont|]; [|by intros [= <-] i ?%elem_of_nil].
  intros Hch i Hi. apply elem_of_flat_map in Hi as (n & Hn & Hi).
  destruct (buildChildren_elem _ _ _ _ Hch Hn) as (c' & _ & Hc).
  by eapply buildTree_ids.
Qed.

(** The listings show record ids only. *)
Lemma listTabs_ids depth q w d v :
  sidebar_file w = Some (Json d) ->
  fst (listTabs depth q w) = Returned (Some v) ->
  forall i, i ∈ listed_ids v -> i ∈ item_ids (primary_items d).
Proof.
  intros Hf. rewrite (listTabs_run depth q w d Hf).
  destruct (findTarget q (primary_spaces d)) as [t|]; [|discriminate]. cbv zeta.
  assert (Hmap : forall k it, buildItemMap (primary_items d) !! k = Some it ->
                   item_id it ∈ item_ids (primary_items d)).
  { intros k it [Hin _]%buildItemMap_lookup. apply elem_of_item_ids. eauto. }
  destruct (buildBucket depth _ (structural_ids t !! 0%nat)) as [p|e] eqn:Hp; [|discriminate].
  destruct (buildBucket depth _ (structural_ids t !! 1%nat)) as [u|e] eqn:Hu; [|discriminate].
  simpl. intros [= <-] i. unfold listed_ids. simpl. rewrite flat_map_app, elem_of_app.
  intros [Hi|Hi];
    [exact (buildBucket_ids _ _ _ _ _ Hmap Hp i Hi) | exact (buildBucket_ids _ _ _ _ _ Hmap Hu i Hi)].
Qed.

Lemma listTabsFlat_ids q w d l :
  sidebar_file w = Some (Json d) ->
  fst (listTabsFlat q w) = Returned l ->
  forall t, t ∈ l -> tab_id t ∈ item_ids (primary_items d).
Proof.
  intros Hf. destruct (listTabsFlat_run q w d Hf) as (target & [-> | ->]); simpl.
  - intros [= <-] t ?%elem_of_nil. done.
  - intros [= <-] t. apply collect_tabs_ids.
Qed.

(** ** The lookup of the tree builder when record ids are unique *)

Lemma item_ids_app a b : item_ids (a ++ b) = item_ids a ++ item_ids b.
Proof. unfold item_ids. apply omap_app. Qed.

Lemma buildItemMap_snoc l e :
  buildItemMap (l ++ [e]) =
    match e with
    | Obj it => <[item_id it := it]> (buildItemMap l)
    | Token _ => buildItemMap l
    end.
Proof. unfold buildItemMap. by rewrite foldl_app. Qed.

Lemma buildItemMap_NoDup l k it :
  NoDup (item_ids l) ->
  buildItemMap l !! k = Some it <-> Obj it ∈ l /\ item_id it = k.
Proof.
  intros Hnd. split; [apply buildItemMap_lookup|].
  revert Hnd. induction l as [|e l IH] using rev_ind; intros Hnd [Hin Hid].
  - by apply elem_of_nil in Hin.
  - rewrite item_ids_app in Hnd. apply NoDup_app in Hnd as (Hnd & Hdisj & _).
    rewrite buildItemMap_snoc. apply elem_of_app in Hin as [Hin|Hin].
    + destruct e as [t|o]; [by apply IH|].
      rewrite lookup_insert_ne; [by apply IH|].
      intros Heq. apply (Hdisj k); [apply elem_of_item_ids; eauto|].
      rewrite <- Heq. rewrite item_ids_cons_obj. left.
    + apply list_elem_of_singleton in Hin as <-. rewrite Hid. apply lookup_insert_eq.
Qed.

Lemma buildItemMap_None l k :
  buildItemMap l !! k = None <-> k ∉ item_ids l.
Proof.
  induction l as [|e l IH] using rev_ind.
  - unfold buildItemMap. simpl. rewrite lookup_empty. split; [intros _ ?%elem_of_nil | ]; done.
  - rewrite buildItemMap_snoc, item_ids_app, elem_of_app.
    destruct e as [t|o].
    + rewrite item_ids_cons_token, IH. unfold item_ids. simpl. rewrite elem_of_nil. tauto.
    + rewrite item_ids_cons_obj. unfold item_ids at 2. simpl.
      rewrite list_elem_of_singleton.
      destruct (decide (item_id o = k)) as [Heq|Hne].
      * rewrite Heq, lookup_insert_eq. split; [discriminate|]. intros H. exfalso. apply H. by right.
      * rewrite lookup_insert_ne by done. rewrite IH. split; [|tauto].
        intros H [?|?]; [done | congruence].
Qed.

(** ** [addTab]: the item list it leaves *)

Lemma push_child_item_ids cid tid l : item_ids (push_child cid tid l) = item_ids l.
Proof.
  induction l as [|e r IH]; [done|].
  destruct e as [t|o]; simpl push_child.
  - by rewrite !item_ids_cons_token.
  - destruct (str_eq (item_id o) cid); rewrite !item_ids_cons_obj; [done | by rewrite IH].
Qed.

Lemma push_child_records cid tid l it' :
  NoDup (item_ids l) ->
  Obj it' ∈ push_child cid tid l <->
  (Obj it' ∈ l /\ item_id it' <> cid) \/
  (exists r, Obj r ∈ l /\ item_id r = cid /\ it' = with_child tid r).
Proof.
  induction l as [|e r IH]; intros Hnd.
  - simpl push_child. split; [by intros ?%elem_of_nil|].
    intros [[?%elem_of_nil _]|(? & ?%elem_of_nil & _)]; done.
  - destruct e as [t|o].
    + rewrite item_ids_cons_token in Hnd. simpl push_child. rewrite elem_of_cons, (IH Hnd). split.
      * intros [?|[[? ?]|(c & ? & ?)]]; [discriminate | left | right].
        -- split; [by right | done].
        -- exists c. split; [by right | done].
      * intros [[[?|?]%elem_of_cons ?]|(c & [?|?]%elem_of_cons & ?)]; try discriminate.
        -- right. by left.
        -- right. right. by exists c.
    + rewrite item_ids_cons_obj in Hnd. apply NoDup_cons in Hnd as [Hnotin Hnd]. simpl push_child.
      destruct (str_eq (item_id o) cid) eqn:Ho.
      * apply str_eq_true in Ho.
        assert (Hlater : forall q, Obj q ∈ r -> item_id q <> cid).
        { intros q Hq Hqid. apply Hnotin. apply elem_of_item_ids. exists q.
          split; congruence. }
        rewrite elem_of_cons. split.
        -- intros [Heq|Hin].
           ++ simplify_eq. right. exists o. split; [left | done].
           ++ left. split; [by right | by apply Hlater].
        -- intros [[[?|Hin]%elem_of_cons Hne]|(c & [?|Hin]%elem_of_cons & Hc & ->)].
           ++ simplify_eq.
           ++ by right.
           ++ simplify_eq. by left.
           ++ by apply Hlater in Hin.
      * apply str_eq_false in Ho. rewrite elem_of_cons, (IH Hnd). split.
        -- intros [?|[[? ?]|(c & ? & ?)]].
           ++ simplify_eq. left. split; [left | done].
           ++ left. split; [by right | done].
           ++ right. exists c. split; [by right | done].
        -- intros [[[?|?]%elem_of_cons ?]|(c & [?|?]%elem_of_cons & Hc & ?)].
           ++ by left.
           ++ right. by left.
           ++ simplify_eq.
           ++ right. right. by exists c.
Qed.

Lemma buildChildren_returned_inv build ids ns :
  buildChildren build ids = Returned ns ->
  Forall (fun c => exists o, build c = Returned o) ids.
Proof.
  revert ns. induction ids as [|c r IH]; intros ns; simpl; [constructor|].
  destruct (build c) as [o|e] eqn:Hc; [|discriminate].
  destruct (buildChildren build r) as [rest|e]; [|discriminate].
  intros _. constructor; [eauto | by eapply IH].
Qed.

Lemma getItemType_with_child tid r : getItemType (with_child tid r) = getItemType r.
Proof. by rewrite !getItemType_priority. Qed.

Lemma buildTree_S depth itemMap itemId :
  buildTree (S depth) itemMap itemId =
    match itemMap !! itemId with
    | None => Returned None
    | Some item =>
        match getItemType item with
        | tab_type =>
            Returned (Some (TabNode (item_id item)
                              (match item_tab item with
                               | Some t => tab_display_title t
                               | None => "Untitled"
                               end)
                              (match item_tab item with
                               | Some t => tab_display_url t
                               | None => ""
                               end)))
        | folder_type =>
            match buildChildren (buildTree depth itemMap)
                    (default [] (childrenIds item)) with
            | Thrown e => Thrown e
            | Returned children =>
                Returned (Some (FolderNode (item_id item)
                                  (opt_or_str (item_title item) "Untitled")
                                  children))
            end
        | container_type => Returned None
        end
    end.
Proof. reflexivity. Qed.

Lemma buildChildren_singleton build c :
  buildChildren build [c] =
    match build c with
    | Thrown e => Thrown e
    | Returned o => Returned (match o with Some n => [n] | None => [] end)
    end.
Proof. simpl. by destruct (build c). Qed.

(** ** The nested listing after [addTab] *)

Section AddTabListing.

Variables (its : list (Entry ItemObject)) (cid tabId : string) (tabObj : ItemObject).

Hypothesis Hnd : NoDup (item_ids its).
Hypothesis Hcid : cid ∈ item_ids its.
Hypothesis Hfresh : tabId ∉ item_ids its.
Hypothesis Htab_id : item_id tabObj = tabId.
Hypothesis Htab_type : getItemType tabObj = tab_type.

(** The item list [addTab] leaves, and the lookups before and after. *)
Let its' := push_child cid tabId (its ++ [Token tabId; Obj tabObj]).
Let m := buildItemMap its.
Let m' := buildItemMap its'.

Lemma addTab_ids_differ : tabId <> cid.
Proof. intros Heq. apply Hfresh. by rewrite Heq. Qed.

Lemma addTab_item_ids : item_ids its' = item_ids its ++ [tabId].
Proof.
  unfold its'. rewrite push_child_item_ids, item_ids_app.
  rewrite item_ids_cons_token, item_ids_cons_obj. by rewrite Htab_id.
Qed.

Lemma addTab_NoDup_appended : NoDup (item_ids (its ++ [Token tabId; Obj tabObj])).
Proof.
  rewrite item_ids_app, item_ids_cons_token, item_ids_cons_obj, Htab_id.
  apply NoDup_app. split; [done|]. split.
  - intros x Hx [->|?%elem_of_nil]%elem_of_cons; done.
  - apply NoDup_singleton.
Qed.

Lemma addTab_NoDup : NoDup (item_ids its').
Proof.
  unfold its'. rewrite push_child_item_ids. apply addTab_NoDup_appended.
Qed.

Lemma lookup_new_tab : m' !! tabId = Some tabObj.
Proof.
  apply buildItemMap_NoDup; [apply addTab_NoDup|]. split; [|done].
  apply push_child_records; [apply addTab_NoDup_appended|]. left. split.
  - apply elem_of_app. right. right. left.
  - rewrite Htab_id. apply addTab_ids_differ.
Qed.

Lemma lookup_container :
  exists r, m !! cid = Some r /\ m' !! cid = Some (with_child tabId r).
Proof.
  apply elem_of_item_ids in Hcid as (r & Hr & Hrid). exists r. split.
  - by apply buildItemMap_NoDup.
  - apply buildItemMap_NoDup; [apply addTab_NoDup|]. split; [|done].
    apply push_child_records; [apply addTab_NoDup_appended|]. right.
    exists r. split; [|done]. apply elem_of_app. by left.
Qed.

Lemma lookup_other k : k <> cid -> k <> tabId -> m' !! k = m !! k.
Proof.
  intros Hk1 Hk2. apply option_eq. intros x. unfold m, m'.
  rewrite !buildItemMap_NoDup by (apply addTab_NoDup || done).
  unfold its'. rewrite push_child_records by apply addTab_NoDup_appended. split.
  - intros [[[Hin Hne] | (r & Hin & Hr & ->)] Hx].
    + split; [|done]. apply elem_of_app in Hin as [?|Hin]; [done|].
      apply elem_of_cons in Hin as [?|Hin]; [discriminate|].
      apply list_elem_of_singleton in Hin. simplify_eq.
    + simpl in Hx. congruence.
  - intros [Hin Hx]. split; [|done]. left. split; [|congruence].
    apply elem_of_app. by left.
Qed.

(** A call that returned before still returns after, one frame deeper. *)
Lemma buildTree_still_returns depth : forall id,
  (exists o, buildTree depth m id = Returned o) ->
  exists o, buildTree (S depth) m' id = Returned o.
Proof.
  induction depth as [|depth IH]; intros id [o Ho]; [discriminate|].
  assert (Hchildren : forall ids,
            (exists ns, buildChildren (buildTree depth m) ids = Returned ns) ->
            exists ns, buildChildren (buildTree (S depth) m') ids = Returned ns).
  { intros ids [ns Hns]. eexists. apply buildChildren_returned.
    eapply Forall_impl; [by eapply buildChildren_returned_inv|]. exact IH. }
  assert (Hleaf : exists o, buildTree (S depth) m' tabId = Returned o).
  { rewrite buildTree_S, lookup_new_tab, Htab_type. eauto. }
  destruct (decide (id = tabId)) as [->|Hne1].
  { rewrite buildTree_S, lookup_new_tab, Htab_type. eauto. }
  revert Ho. rewrite (buildTree_S depth m), (buildTree_S (S depth) m').
  destruct (decide (id = cid)) as [->|Hne2].
  - destruct lookup_container as (r & Hr & Hr'). rewrite Hr, Hr'.
    rewrite getItemType_with_child. destruct (getItemType r); eauto.
    destruct (buildChildren (buildTree depth m) _) as [ns|e] eqn:Hns; [|discriminate].
    intros _. simpl childrenIds. simpl default.
    rewrite buildChildren_app.
    destruct (Hchildren _ (ex_intro _ ns Hns)) as [ns' ->].
    destruct Hleaf as [leaf Hleaf]. rewrite buildChildren_singleton, Hleaf. eauto.
  - rewrite lookup_other by done. destruct (m !! id) as [item|]; [|eauto].
    destruct (getItemType item); eauto.
    destruct (buildChildren (buildTree depth m) _) as [ns|e] eqn:Hns; [|discriminate].
    intros _. destruct (Hchildren _ (ex_intro _ ns Hns)) as [ns' ->]. eauto.
Qed.

Hypothesis Htab_children : childrenIds tabObj = Some [].

Lemma buildTree_new_tab depth :
  buildTree (S depth) m' tabId = Returned (Some (tab_leaf tabObj)).
Proof. by rewrite buildTree_S, lookup_new_tab, Htab_type. Qed.

Lemma buildChildren_still_return depth ids :
  (exists ns, buildChildren (buildTree depth m) ids = Returned ns) ->
  exists ns, buildChildren (buildTree (S depth) m') ids = Returned ns.
Proof.
  intros [ns Hns]. eexists. apply buildChildren_returned.
  eapply Forall_impl; [by eapply buildChildren_returned_inv|].
  apply buildTree_still_returns.
Qed.

(** The bucket of the chosen container ends with the new tab. *)
Lemma buildBucket_chosen depth :
  (exists ns, buildBucket depth m (Some cid) = Returned ns) ->
  exists siblings,
    buildBucket (S depth) m' (Some cid) = Returned (siblings ++ [tab_leaf tabObj]).
Proof.
  unfold buildBucket. destruct lookup_container as (r & -> & ->). intros Hpre.
  destruct (buildChildren_still_return _ _ Hpre) as [ns' Hns'].
  exists ns'. simpl childrenIds. simpl default.
  by rewrite buildChildren_app, Hns', buildChildren_singleton, buildTree_new_tab.
Qed.

(** Any bucket that was built before is built after. *)
Lemma buildBucket_still_returns depth c :
  (exists ns, buildBucket depth m c = Returned ns) ->
  exists ns, buildBucket (S depth) m' c = Returned ns.
Proof.
  intros Hpre. destruct c as [k|]; [|by exists []].
  destruct (decide (k = cid)) as [->|Hne1].
  { destruct (buildBucket_chosen depth Hpre) as [siblings ->]. eauto. }
  unfold buildBucket in *. destruct (decide (k = tabId)) as [->|Hne2].
  - rewrite lookup_new_tab, Htab_children. by exists [].
  - rewrite lookup_other by done. destruct (m !! k); [|by exists []].
    by apply buildChildren_still_return.
Qed.

End AddTabListing.

Lemma tab_leaf_new_tab tabId cid url title deviceId ts :
  tab_leaf (new_tab tabId cid url title deviceId ts) =
    TabNode tabId (shown_title title url) url.
Proof.
  unfold tab_leaf, shown_title. simpl. f_equal.
  - unfold tab_display_title, opt_or_str, or_str. simpl.
    destruct title as [t|]; [destruct (truthy t) eqn:Ht|]; rewrite ?Ht;
      by destruct (truthy url) eqn:Hu; rewrite ?Hu.
  - unfold tab_display_url, opt_or_str, or_str. simpl.
    destruct (truthy url) eqn:Hu; [done|]. symmetry. by apply truthy_false.
Qed.

(** C2, as the code has it. On a document that loads and can be written,
    whose record ids are unique, in which the chosen container has its
    record, and whose nested listing of the space returned with [depth]
    frames: [addTab] with a fresh id succeeds, and the nested listing of the
    space then returns (with one more frame) and shows the new tab as the
    last direct child of the pinned bucket when [pin] is true and of the
    unpinned bucket when it is false, under the given title when that is
    non-empty, else under the url when that is non-empty, else as
    "Untitled". *)
Theorem addTab_then_listTabs w d nameOrId k s url title pin cid q depth v0 :
  sidebar_file w = Some (Json d) -> dir_writable w = true -> file_writable w = true ->
  findSpace nameOrId (primary_spaces d) = Some (k, s) ->
  truthy (space_id s) = true ->
  select_container pin (structural_ids s) = Some cid -> truthy cid = true ->
  NoDup (item_ids (primary_items d)) ->
  cid ∈ item_ids (primary_items d) ->
  toUpperCase (uuid_source w (uuid_draws w)) ∉ item_ids (primary_items d) ->
  findTarget q (primary_spaces d) = Some s ->
  fst (listTabs depth q w) = Returned (Some v0) ->
  fst (addTab nameOrId url title pin w)
    = Returned (ok_id (toUpperCase (uuid_source w (uuid_draws w)))) /\
  exists v siblings,
    fst (listTabs (S depth) q (snd (addTab nameOrId url title pin w))) = Returned (Some v) /\
    (if pin then pinned v else unpinned v) =
      siblings ++ [TabNode (toUpperCase (uuid_source w (uuid_draws w)))
                     (shown_title title url) url].
Proof.
  intros Hf Hd Hw Hfind Hid Hsel Hcid Hnd Hcin Hfresh Htarget Hpre.
  set (tabId := toUpperCase (uuid_source w (uuid_draws w))) in *.
  rewrite (addTab_run w d) by done. cbv zeta.
  rewrite Hfind, Hid, Hsel, Hw. simpl truthy_opt. rewrite Hcid. simpl negb. cbv iota.
  simpl default. fold tabId.
  set (tabObj := new_tab tabId cid url title (getDeviceId d)
                   (clock w (S (clock_reads w)))).
  destruct (findSpace_container _ _ _ _ Hfind) as (c1 & Hc1 & _).
  destruct (assign_items_ok
              (fun old => push_child cid tabId (default [] old ++ [Token tabId; Obj tabObj]))
              d c1 Hc1) as (d1 & -> & Hits & Hsp & _).
  rewrite (primary_items_default d c1 Hc1) in Hits.
  split; [reflexivity|]. simpl snd.
  match goal with |- context [listTabs _ _ ?w1] => set (w' := w1) end.
  assert (Hf' : exists d2, sidebar_file w' = Some (Json d2) /\
                  primary_items d2 = primary_items d1 /\
                  primary_spaces d2 = primary_spaces d1).
  { eexists. split; [reflexivity|].
    by rewrite primary_items_on_sync_items, primary_spaces_on_sync_items. }
  destruct Hf' as (d2 & Hf' & Hits2 & Hsp2).
  rewrite (listTabs_run (S depth) q w' d2 Hf'), Hsp2, Hsp, Htarget, Hits2, Hits. cbv zeta.
  rewrite (listTabs_run depth q w d Hf), Htarget in Hpre. cbv zeta in Hpre.
  destruct (buildBucket depth _ (structural_ids s !! 0%nat)) as [p0|e] eqn:Hp0;
    [|discriminate].
  destruct (buildBucket depth _ (structural_ids s !! 1%nat)) as [u0|e] eqn:Hu0;
    [|discriminate].
  assert (Hany : forall c, (exists ns, buildBucket depth (buildItemMap (primary_items d)) c
                                         = Returned ns) ->
            exists ns, buildBucket (S depth)
                         (buildItemMap (push_child cid tabId
                            (primary_items d ++ [Token tabId; Obj tabObj]))) c
                       = Returned ns).
  { intros c. by apply buildBucket_still_returns. }
  assert (Hchosen : (exists ns, buildBucket depth (buildItemMap (primary_items d)) (Some cid)
                                  = Returned ns) ->
            exists siblings, buildBucket (S depth)
                         (buildItemMap (push_child cid tabId
                            (primary_items d ++ [Token tabId; Obj tabObj]))) (Some cid)
                       = Returned (siblings ++ [tab_leaf tabObj])).
  { by apply buildBucket_chosen. }
  unfold tabObj in Hchosen at 2. rewrite tab_leaf_new_tab in Hchosen.
  unfold select_container in Hsel. destruct pin.
  - rewrite Hsel in *. destruct (Hchosen (ex_intro _ _ Hp0)) as [siblings ->].
    destruct (Hany _ (ex_intro _ _ Hu0)) as [u ->]. simpl. eauto.
  - rewrite Hsel in *. destruct (Hany _ (ex_intro _ _ Hp0)) as [p ->].
    destruct (Hchosen (ex_intro _ _ Hu0)) as [siblings ->]. simpl. eauto.
Qed.

Lemma addTab_then_listTabs_witness :
  fst (addTab "Work" "https://example.org" (Some "Org") false demo_world)
    = Returned (ok_id (toUpperCase (uuid_source demo_world (uuid_draws demo_world)))) /\
  exists v siblings,
    fst (listTabs 5 (Some "S1")
           (snd (addTab "Work" "https://example.org" (Some "Org") false demo_world)))
      = Returned (Some v) /\
    (if false then pinned v else unpinned v) =
      siblings ++ [TabNode (toUpperCase (uuid_source demo_world (uuid_draws demo_world)))
                     (shown_title (Some "Org") "https://example.org")
                     "https://example.org"].
Proof.
  eapply (addTab_then_listTabs demo_world demo_doc "Work" 1%nat demo_work
            "https://example.org" (Some "Org") false "U1" (Some "S1") 4%nat);
    try (vm_compute; reflexivity); compute_done.
Defined.

(** C2 as stated fails in two ways. With an empty url and no title the tab
    is listed as "Untitled", not under its url. And when the chosen
    container id has no record in the item list, [addTab] still succeeds but
    the listing shows no child at all. *)
Lemma addTab_listing_counterexample :
  (fst (addTab "Work" "" None false demo_world) = Returned (ok_id "AA11-0001") /\
   fst (listTabs 4 (Some "Work") (snd (addTab "Work" "" None false demo_world))) =
     Returned (Some {| spaceId := "S1"; spaceTitle := "Work"; pinned := [];
                       unpinned := [ FolderNode "F1" "Docs"
                                       [TabNode "T2" "Rocq" "https://rocq-prover.org"];
                                     TabNode "T1" "Example" "https://example.com";
                                     TabNode "AA11-0001" "Untitled" "" ] |})) /\
  (structural_ids demo_work = ["P1"; "U1"] /\
   fst (addTab "Work" "https://example.com" (Some "Example") false (world_of dangling_doc))
     = Returned (ok_id "AA11-0001") /\
   fst (listTabs 4 (Some "Work")
          (snd (addTab "Work" "https://example.com" (Some "Example") false
                  (world_of dangling_doc)))) =
     Returned (Some {| spaceId := "S1"; spaceTitle := "Work";
                       pinned := []; unpinned := [] |})).
Proof. repeat split; vm_compute; reflexivity. Qed.

(** The scenario of the spec on the sample document: an unpinned tab
    titled "Example" added to "Work" is listed last in the unpinned bucket,
    and is recorded in the remote item mirror. *)
Example addTab_on_demo_doc :
  fst (listTabs 4 (Some "Work")
         (snd (addTab "Work" "https://example.net" (Some "Net") false demo_world))) =
    Returned (Some {| spaceId := "S1"; spaceTitle := "Work"; pinned := [];
                      unpinned := [ FolderNode "F1" "Docs"
                                      [TabNode "T2" "Rocq" "https://rocq-prover.org"];
                                    TabNode "T1" "Example" "https://example.com";
                                    TabNode "AA11-0001" "Net" "https://example.net" ] |}) /\
  fst (listTabs 4 (Some "Work")
         (snd (addTab "Work" "https://example.net" None true demo_world))) =
    Returned (Some {| spaceId := "S1"; spaceTitle := "Work";
                      pinned := [ TabNode "AA11-0001" "https://example.net"
                                    "https://example.net" ];
                      unpinned := [ FolderNode "F1" "Docs"
                                      [TabNode "T2" "Rocq" "https://rocq-prover.org"];
                                    TabNode "T1" "Example" "https://example.com" ] |}).
Proof. split; vm_compute; reflexivity. Qed.

(** ** The nested listing after [deleteTab] *)

Lemma narrows_refl it : narrows it it.
Proof. by repeat split. Qed.

Lemma detach_child_narrows pid tid l :
  Forall2 entry_narrows l (detach_child pid tid l).
Proof.
  assert (Hrefl : forall l : list (Entry ItemObject), Forall2 entry_narrows l l).
  { intros l0. induction l0 as [|e r IH]; constructor; [|done].
    destruct e; simpl; [done | apply narrows_refl]. }
  induction l as [|e r IH]; simpl; [constructor|].
  destruct e as [t|o]; [by constructor|].
  destruct (str_eq (item_id o) pid); [|constructor; [apply narrows_refl | done]].
  destruct (childrenIds o) as [cs|] eqn:Hcs; [|constructor; [apply narrows_refl | done]].
  constructor; [|apply Hrefl]. simpl. repeat split.
  - by rewrite !getItemType_priority.
  - simpl. rewrite Hcs. simpl. intros c Hc. by apply elem_of_List_filter in Hc as [? _].
Qed.

Lemma buildItemMap_narrows l l' :
  Forall2 entry_narrows l l' -> lookup_narrows (buildItemMap l) (buildItemMap l').
Proof.
  unfold buildItemMap. intros H.
  assert (Hgen : forall acc acc' : gmap string ItemObject,
            lookup_narrows acc acc' ->
            lookup_narrows
              (foldl (fun m e => match e with Obj it => <[item_id it := it]> m
                                              | Token _ => m end) acc l)
              (foldl (fun m e => match e with Obj it => <[item_id it := it]> m
                                              | Token _ => m end) acc' l')).
  { induction H as [|e e' r r' He _ IH]; intros acc acc' Hacc; simpl; [done|].
    apply IH. destruct e as [t|o], e' as [t'|o']; simpl in He; try done.
    destruct He as (Hid & Hty & Hch). intros k it'. rewrite Hid.
    destruct (decide (item_id o = k)) as [->|Hne].
    - rewrite !lookup_insert_eq. intros [= <-]. exists o. by repeat split.
    - rewrite !lookup_insert_ne by done. apply Hacc. }
  apply Hgen. intros k it'. by rewrite lookup_empty.
Qed.

Lemma foldl_itemMap_lookup_ext l k : forall acc acc' : gmap string ItemObject,
  acc !! k = acc' !! k ->
  foldl (fun m e => match e with Obj it => <[item_id it := it]> m | Token _ => m end)
    acc l !! k =
  foldl (fun m e => match e with Obj it => <[item_id it := it]> m | Token _ => m end)
    acc' l !! k.
Proof.
  induction l as [|e r IH]; intros acc acc' Hacc; simpl; [done|].
  apply IH. destruct e as [t|o]; [done|].
  destruct (decide (item_id o = k)) as [->|Hne].
  - by rewrite !lookup_insert_eq.
  - by rewrite !lookup_insert_ne.
Qed.

Lemma buildItemMap_filter tid l k :
  buildItemMap (List.filter (keep_not_id tid) l) !! k =
    if decide (k = tid) then None else buildItemMap l !! k.
Proof.
  unfold buildItemMap.
  assert (Hgen : forall acc : gmap string ItemObject,
    foldl (fun m e => match e with Obj it => <[item_id it := it]> m | Token _ => m end)
      acc (List.filter (keep_not_id tid) l) !! k =
    if decide (k = tid) then acc !! k
    else foldl (fun m e => match e with Obj it => <[item_id it := it]> m
                                        | Token _ => m end) acc l !! k).
  { induction l as [|e r IH]; intros acc; simpl; [by destruct (decide (k = tid))|].
    destruct (keep_not_id tid e) eqn:Hkeep; simpl.
    - rewrite IH. destruct (decide (k = tid)) as [->|Hne]; [|done].
      destruct e as [t|o]; [done|]. simpl in Hkeep.
      apply negb_true_iff, str_eq_false in Hkeep. by rewrite lookup_insert_ne.
    - rewrite IH. destruct (decide (k = tid)) as [->|Hne]; [done|].
      apply foldl_itemMap_lookup_ext. destruct e as [t|o]; [done|]. simpl in Hkeep.
      apply negb_false_iff, str_eq_true in Hkeep. rewrite lookup_insert_ne; [done|].
      congruence. }
  rewrite Hgen. destruct (decide (k = tid)); [apply lookup_empty | done].
Qed.

Lemma items_after_deleteTab_narrows tid found l :
  lookup_narrows (buildItemMap l) (buildItemMap (items_after_deleteTab tid found l)).
Proof.
  assert (Hfilter : lookup_narrows (buildItemMap l)
                      (buildItemMap (List.filter (keep_not_id tid) l))).
  { intros k it'. rewrite buildItemMap_filter. destruct (decide (k = tid)); [done|].
    intros H. exists it'. split; [done | apply narrows_refl]. }
  unfold items_after_deleteTab. destruct (parentID found) as [pid|]; [|done].
  destruct (truthy pid); [|done].
  intros k it' Hk.
  destruct (buildItemMap_narrows _ _ (detach_child_narrows pid tid _) k it' Hk)
    as (it1 & H1 & Hid1 & Hty1 & Hch1).
  destruct (Hfilter k it1 H1) as (it & H & Hid & Hty & Hch).
  exists it. split; [done|]. repeat split; [congruence | congruence | auto].
Qed.

Section NarrowedLookup.

Variables (m m' : gmap string ItemObject).
Hypothesis Hnarrow : lookup_narrows m m'.

(** A call that returned on the wider lookup returns on the narrower one. *)
Lemma buildTree_narrowed depth : forall id,
  (exists o, buildTree depth m id = Returned o) ->
  exists o, buildTree depth m' id = Returned o.
Proof.
  induction depth as [|depth IH]; intros id [o Ho]; [discriminate|].
  revert Ho. rewrite !buildTree_S.
  destruct (m' !! id) as [it'|] eqn:Hit'; [|eauto].
  destruct (Hnarrow _ _ Hit') as (it & -> & _ & -> & Hch).
  destruct (getItemType it); eauto.
  destruct (buildChildren (buildTree depth m) _) as [ns|e] eqn:Hns; [|discriminate].
  intros _. apply buildChildren_returned_inv in Hns.
  rewrite (buildChildren_returned (buildTree depth m')); [eauto|].
  apply Forall_forall. intros c Hc. apply IH.
  rewrite Forall_forall in Hns. apply Hns, Hch, Hc.
Qed.

Lemma buildBucket_narrowed depth c :
  (exists ns, buildBucket depth m c = Returned ns) ->
  exists ns, buildBucket depth m' c = Returned ns.
Proof.
  unfold buildBucket. destruct c as [k|]; [|eauto].
  destruct (m' !! k) as [it'|] eqn:Hit'; [|eauto].
  destruct (Hnarrow _ _ Hit') as (it & -> & _ & _ & Hch).
  intros [ns Hns]. apply buildChildren_returned_inv in Hns.
  rewrite (buildChildren_returned (buildTree depth m')); [eauto|].
  apply Forall_forall. intros c Hc. apply buildTree_narrowed.
  rewrite Forall_forall in Hns. apply Hns, Hch, Hc.
Qed.

End NarrowedLookup.

(** C7. On a document that loads and can be written: when the id has a
    record in the primary item list, [deleteTab] succeeds, after which no
    flat listing and no nested listing, whatever space it is asked for,
    shows the id; a nested listing that returned before the call still
    returns after it; and (record ids being unique) no record with the
    former parent's id holds the id in its child list. [deleteTab] reports
    the tab as not found exactly when no record carries the id. *)
Theorem deleteTab_then_listings w d tabId :
  sidebar_file w = Some (Json d) -> dir_writable w = true -> file_writable w = true ->
  (forall x, find_item tabId (primary_items d) = Some x ->
     exists d',
       deleteTab tabId w = (Returned ok, with_file (Json d') (after_backup w (Json d))) /\
       (forall q, exists l, fst (listTabsFlat q (snd (deleteTab tabId w))) = Returned l /\
                            tabId ∉ tab_id <$> l) /\
       (forall depth q v,
          fst (listTabs depth q (snd (deleteTab tabId w))) = Returned (Some v) ->
          tabId ∉ listed_ids v) /\
       (forall depth q v0, fst (listTabs depth q w) = Returned (Some v0) ->
          exists v, fst (listTabs depth q (snd (deleteTab tabId w))) = Returned (Some v)) /\
       (NoDup (item_ids (primary_items d)) ->
        forall pid p, parentID x = Some pid -> truthy pid = true ->
          Obj p ∈ primary_items d' -> item_id p = pid ->
          tabId ∉ default [] (childrenIds p))) /\
  (fst (deleteTab tabId w) = Returned (TabNotFound tabId) <->
   tabId ∉ item_ids (primary_items d)).
Proof.
  intros Hf Hd Hw. split.
  - intros x Hx.
    destruct (deleteTab_present w d tabId x Hf Hd Hw Hx) as (d' & Hrun & Hits & Hsp & _).
    exists d'. split; [exact Hrun|]. rewrite Hrun. simpl snd.
    set (w' := with_file (Json d') (after_backup w (Json d))).
    assert (Hf' : sidebar_file w' = Some (Json d')) by reflexivity.
    assert (Hgone : tabId ∉ item_ids (primary_items d'))
      by (rewrite Hits; apply items_after_deleteTab_gone).
    split; [|split; [|split]].
    + intros q.
      destruct (listTabsFlat_run q w' d' Hf') as (target & [Hl | Hl]);
        eexists; (split; [by rewrite Hl|]).
      * by intros ?%elem_of_nil.
      * intros (t & Ht & Hin)%list_elem_of_fmap. apply Hgone. rewrite Ht.
        by eapply collect_tabs_ids.
    + intros depth q v Hv Hin. apply Hgone. by eapply listTabs_ids.
    + intros depth q v0. rewrite (listTabs_run depth q w d Hf).
      rewrite (listTabs_run depth q w' d' Hf'), Hsp, Hits. cbv zeta.
      destruct (findTarget q (primary_spaces d)) as [t|]; [|discriminate].
      pose proof (items_after_deleteTab_narrows tabId x (primary_items d)) as Hnarrow.
      destruct (buildBucket depth _ (structural_ids t !! 0%nat)) as [p0|e] eqn:Hp0;
        [|discriminate].
      destruct (buildBucket depth _ (structural_ids t !! 1%nat)) as [u0|e] eqn:Hu0;
        [|discriminate].
      intros _.
      destruct (buildBucket_narrowed _ _ Hnarrow depth _ (ex_intro _ _ Hp0)) as [p ->].
      destruct (buildBucket_narrowed _ _ Hnarrow depth _ (ex_intro _ _ Hu0)) as [u ->].
      simpl. eauto.
    + intros Hnd pid p Hpid Ht Hp Hpp. rewrite Hits in Hp.
      by eapply items_after_deleteTab_detached.
  - rewrite <- find_item_item_ids, (deleteTab_run w d) by done.
    destruct (find_item tabId (primary_items d)) as [x|] eqn:Hx; [|done].
    split; [|discriminate]. intros H. exfalso.
    destruct (deleteTab_present w d tabId x Hf Hd Hw Hx) as (d' & Hrun & _).
    rewrite (deleteTab_run w d), Hx in Hrun by done.
    rewrite Hrun in H. discriminate.
Qed.

Lemma deleteTab_then_listings_witness :
  (forall x, find_item "T1" (primary_items demo_doc) = Some x ->
     exists d',
       deleteTab "T1" demo_world
         = (Returned ok, with_file (Json d') (after_backup demo_world (Json demo_doc))) /\
       (forall q, exists l,
          fst (listTabsFlat q (snd (deleteTab "T1" demo_world))) = Returned l /\
          "T1" ∉ tab_id <$> l) /\
       (forall depth q v,
          fst (listTabs depth q (snd (deleteTab "T1" demo_world))) = Returned (Some v) ->
          "T1" ∉ listed_ids v) /\
       (forall depth q v0, fst (listTabs depth q demo_world) = Returned (Some v0) ->
          exists v,
            fst (listTabs depth q (snd (deleteTab "T1" demo_world))) = Returned (Some v)) /\
       (NoDup (item_ids (primary_items demo_doc)) ->
        forall pid p, parentID x = Some pid -> truthy pid = true ->
          Obj p ∈ primary_items d' -> item_id p = pid ->
          "T1" ∉ default [] (childrenIds p))) /\
  (fst (deleteTab "T1" demo_world) = Returned (TabNotFound "T1") <->
   "T1" ∉ item_ids (primary_items demo_doc)).
Proof. apply (deleteTab_then_listings demo_world demo_doc "T1"); reflexivity. Defined.

(** The sample document listed before and after [deleteTab "T1"]. *)
Example listings_after_deleteTab :
  fst (listTabs 4 (Some "Work") demo_world) =
    Returned (Some {| spaceId := "S1"; spaceTitle := "Work"; pinned := [];
                      unpinned := [ FolderNode "F1" "Docs"
                                      [TabNode "T2" "Rocq" "https://rocq-prover.org"];
                                    TabNode "T1" "Example" "https://example.com" ] |}) /\
  fst (listTabs 4 (Some "Work") (snd (deleteTab "T1" demo_world))) =
    Returned (Some {| spaceId := "S1"; spaceTitle := "Work"; pinned := [];
                      unpinned := [ FolderNode "F1" "Docs"
                                      [TabNode "T2" "Rocq" "https://rocq-prover.org"] ] |}) /\
  fst (listTabsFlat None demo_world) =
    Returned [ {| tab_id := "T1"; tab_title := "Example"; tab_url := "https://example.com";
                  location := unpinned_loc; tab_spaceId := "S1" |} ] /\
  fst (listTabsFlat None (snd (deleteTab "T1" demo_world))) = Returned [] /\
  fst (deleteTab "T9" demo_world) = Returned (TabNotFound "T9").
Proof. repeat split; vm_compute; reflexivity. Qed.

(** ** IdentifierAllocator: the device tag *)

Lemma first_originatingDevice_found before it after dev :
  Forall no_device before -> originatingDevice it = Some dev -> truthy dev = true ->
  first_originatingDevice (before ++ Obj it :: after) = dev.
Proof.
  intros Hb Hdev Ht. induction Hb as [|e r He _ IH]; simpl.
  - by rewrite Hdev; simpl; rewrite Ht.
  - destruct e as [t|o]; [done|]. simpl in He. by rewrite He.
Qed.

Lemma first_originatingDevice_none l :
  Forall no_device l -> first_originatingDevice l = "".
Proof.
  induction 1 as [|e r He _ IH]; simpl; [done|].
  destruct e as [t|o]; [done|]. simpl in He. by rewrite He.
Qed.

(** X1. [getDeviceId] takes the device recorded against the remote
    ordered-space list when that is a non-empty string; failing that, the
    device of the first item record, in storage order, that carries a
    non-empty one; failing that, the empty string. *)
Theorem getDeviceId_priority (d : SidebarData) :
  (forall dev, remote_device d = Some dev -> truthy dev = true -> getDeviceId d = dev) /\
  (truthy_opt (remote_device d) = false ->
   (forall before it after dev,
      primary_items d = before ++ Obj it :: after ->
      Forall no_device before ->
      originatingDevice it = Some dev -> truthy dev = true ->
      getDeviceId d = dev) /\
   (Forall no_device (primary_items d) -> getDeviceId d = "")).
Proof.
  unfold getDeviceId, remote_device.
  set (r := match syncData d with
            | Some sd => match orderedSpaceIDs sd with
                         | Some o => opt_or_str (ordered_lastChangedDevice o) ""
                         | None => ""
                         end
            | None => ""
            end).
  split.
  - intros dev Hdev Ht.
    assert (r = dev) as ->.
    { unfold r. destruct (syncData d) as [sd|]; [|discriminate].
      destruct (orderedSpaceIDs sd) as [o|]; [|discriminate].
      rewrite Hdev. simpl. by apply or_str_truthy. }
    by rewrite Ht.
  - intros Hnone.
    assert (r = "") as ->.
    { unfold r. destruct (syncData d) as [sd|]; [|done].
      destruct (orderedSpaceIDs sd) as [o|]; [|done].
      destruct (ordered_lastChangedDevice o) as [s|]; [|done].
      simpl in *. unfold or_str. by rewrite Hnone. }
    simpl. split.
    + intros before it after dev -> Hb Hdev Ht. by apply first_originatingDevice_found.
    + apply first_originatingDevice_none.
Qed.

(** ** The listings only read *)

(** X2. A listing leaves the world as it found it, whether it returns or
    throws: no backup, no write, no clock reading and no identifier drawn. *)
Theorem listings_leave_the_world_unchanged (w : World) :
  snd (listSpaces w) = w /\
  (forall depth q, snd (listTabs depth q w) = w) /\
  (forall q, snd (listTabsFlat q w) = w).
Proof.
  split; [|split].
  - rewrite listSpaces_run. by destruct (sidebar_file w) as [[?|?]|].
  - intros depth q. destruct (sidebar_file w) as [[raw|d]|] eqn:Hf.
    + by rewrite (proj2 (listTabs_unloadable depth q w) raw Hf).
    + rewrite (listTabs_run depth q w d Hf).
      destruct (findTarget q (primary_spaces d)); [|done]. cbv zeta.
      destruct (buildBucket depth _ (structural_ids s !! 0%nat)); [|done].
      by destruct (buildBucket depth _ (structural_ids s !! 1%nat)).
    + by rewrite (proj1 (listTabs_unloadable depth q w) Hf).
  - intros q. destruct (sidebar_file w) as [[raw|d]|] eqn:Hf.
    + by rewrite (proj2 (listTabsFlat_unloadable q w) raw Hf).
    + by destruct (listTabsFlat_run q w d Hf) as (target & [-> | ->]).
    + by rewrite (proj1 (listTabsFlat_unloadable q w) Hf).
Qed.

(** ** [buildTree] and the depth of the stack *)

Lemma buildChildren_ext build build' ids :
  Forall (fun c => forall o, build c = Returned o -> build' c = Returned o) ids ->
  forall ns, buildChildren build ids = Returned ns ->
             buildChildren build' ids = Returned ns.
Proof.
  induction 1 as [|c r Hc _ IH]; simpl; [done|]. intros ns.
  destruct (build c) as [o|e] eqn:Ho; [|discriminate]. rewrite (Hc o eq_refl).
  destruct (buildChildren build r) as [rest|e]; [|discriminate].
  by rewrite (IH rest eq_refl).
Qed.

Lemma buildTree_deeper m : forall depth depth' id o,
  (depth <= depth')%nat ->
  buildTree depth m id = Returned o -> buildTree depth' m id = Returned o.
Proof.
  induction depth as [|depth IH]; intros depth' id o Hle; [discriminate|].
  destruct depth' as [|depth']; [lia|]. rewrite !buildTree_S.
  destruct (m !! id) as [it|]; [|done]. destruct (getItemType it); try done.
  destruct (buildChildren (buildTree depth m) _) as [ns|e] eqn:Hns; [|discriminate].
  assert (HF : Forall (fun c => forall o', buildTree depth m c = Returned o' ->
                                 buildTree depth' m c = Returned o')
                 (default [] (childrenIds it))).
  { apply Forall_forall. intros c _ o'. apply IH. lia. }
  by rewrite (buildChildren_ext _ _ _ HF _ Hns).
Qed.

Lemma buildBucket_deeper m depth depth' c ns :
  (depth <= depth')%nat ->
  buildBucket depth m c = Returned ns -> buildBucket depth' m c = Returned ns.
Proof.
  intros Hle. unfold buildBucket. destruct c as [k|]; [|done].
  destruct (m !! k) as [it|]; [|done]. apply buildChildren_ext.
  apply Forall_forall. intros c _ o. by apply buildTree_deeper.
Qed.

(** X3. The stack depth never changes what a nested listing shows: once
    [listTabs] returns with some depth, it returns the same with any larger
    one. *)
Theorem listTabs_deeper depth depth' q w v :
  (depth <= depth')%nat ->
  fst (listTabs depth q w) = Returned v ->
  fst (listTabs depth' q w) = Returned v.
Proof.
  intros Hle. destruct (sidebar_file w) as [[raw|d]|] eqn:Hf.
  - by rewrite (proj2 (listTabs_unloadable depth q w) raw Hf).
  - rewrite !(listTabs_run _ q w d Hf).
    destruct (findTarget q (primary_spaces d)) as [t|]; [|done]. cbv zeta.
    destruct (buildBucket depth _ (structural_ids t !! 0%nat)) as [p|e] eqn:Hp;
      [|discriminate].
    destruct (buildBucket depth _ (structural_ids t !! 1%nat)) as [u|e] eqn:Hu;
      [|discriminate].
    by rewrite (buildBucket_deeper _ _ _ _ _ Hle Hp), (buildBucket_deeper _ _ _ _ _ Hle Hu).
  - by rewrite (proj1 (listTabs_unloadable depth q w) Hf).
Qed.

Lemma listTabs_deeper_witness :
  fst (listTabs 9 (Some "Work") demo_world) =
    Returned (Some {| spaceId := "S1"; spaceTitle := "Work"; pinned := [];
                      unpinned := [ FolderNode "F1" "Docs"
                                      [TabNode "T2" "Rocq" "https://rocq-prover.org"];
                                    TabNode "T1" "Example" "https://example.com" ] |}).
Proof.
  apply (listTabs_deeper 2 9 (Some "Work") demo_world); [lia | vm_compute; reflexivity].
Defined.

Lemma buildTree_throws_RangeError m : forall depth id e,
  buildTree depth m id = Thrown e -> e = RangeError.
Proof.
  induction depth as [|depth IH]; intros id e; [by intros [= <-]|].
  rewrite buildTree_S. destruct (m !! id) as [it|]; [|discriminate].
  destruct (getItemType it); try discriminate.
  destruct (buildChildren (buildTree depth m) _) as [ns|e'] eqn:Hns; [discriminate|].
  intros [= <-]. revert Hns. generalize (default [] (childrenIds it)).
  intros ids. revert e'. induction ids as [|c r IHr]; intros e'; simpl; [discriminate|].
  destruct (buildTree depth m c) as [o|e0] eqn:Hc.
  - destruct (buildChildren (buildTree depth m) r) as [rest|e1]; [discriminate|].
    intros [= <-]. by apply IHr.
  - intros [= <-]. by eapply IH.
Qed.

Lemma buildChildren_throws m depth ids c :
  c ∈ ids -> buildTree depth m c = Thrown RangeError ->
  buildChildren (buildTree depth m) ids = Thrown RangeError.
Proof.
  intros Hin Hc. induction ids as [|c0 r IH]; [by apply elem_of_nil in Hin|].
  simpl. destruct (buildTree depth m c0) as [o|e] eqn:Hc0.
  - apply elem_of_cons in Hin as [->|Hin]; [congruence|]. by rewrite (IH Hin).
  - f_equal. by eapply buildTree_throws_RangeError.
Qed.

(** X4. A cycle of folders cannot be listed. When every id of a set is a
    folder with a child in the set (a folder that holds itself, or two that
    hold each other), [buildTree] on such an id exhausts the stack at every
    depth; a space that has one as a direct child of its pinned or unpinned
    container makes [listTabs] throw [RangeError] whatever the depth. *)
Theorem cyclic_folders_overflow (m : gmap string ItemObject) (cyclic : string -> Prop) :
  (forall id, cyclic id -> exists c, folder_with_child m id c /\ cyclic c) ->
  (forall depth id, cyclic id -> buildTree depth m id = Thrown RangeError) /\
  (forall depth container cid id,
     m !! cid = Some container -> id ∈ default [] (childrenIds container) -> cyclic id ->
     buildBucket depth m (Some cid) = Thrown RangeError).
Proof.
  intros Hcyc.
  assert (Htree : forall depth id, cyclic id -> buildTree depth m id = Thrown RangeError).
  { induction depth as [|depth IH]; intros id Hid; [done|].
    destruct (Hcyc id Hid) as (c & (it & Hit & Hty & Hc) & Hcc).
    rewrite buildTree_S, Hit, Hty.
    by rewrite (buildChildren_throws m depth _ c Hc (IH c Hcc)). }
  split; [exact Htree|].
  intros depth container cid id Hcont Hid Hcyclic. unfold buildBucket. rewrite Hcont.
  apply (buildChildren_throws m depth _ id Hid). by apply Htree.
Qed.

Lemma cyclic_folders_overflow_witness :
  (forall depth id, id = "F1" ->
     buildTree depth (buildItemMap (primary_items cyclic_doc)) id = Thrown RangeError) /\
  (forall depth container cid id,
     buildItemMap (primary_items cyclic_doc) !! cid = Some container ->
     id ∈ default [] (childrenIds container) -> id = "F1" ->
     buildBucket depth (buildItemMap (primary_items cyclic_doc)) (Some cid)
       = Thrown RangeError).
Proof.
  apply (cyclic_folders_overflow (buildItemMap (primary_items cyclic_doc))
           (fun id => id = "F1")).
  intros id ->. exists "F1". split; [|done].
  exists (demo_folder "F1" "Loop" "U1" ["F1"]).
  split; [vm_compute; reflexivity|]. split; [reflexivity|]. simpl. left.
Defined.

Example listTabs_on_cyclic_doc :
  fst (listTabs 50 (Some "Work") (world_of cyclic_doc)) = Thrown RangeError /\
  fst (listTabsFlat (Some "Work") (world_of cyclic_doc)) = Returned [].
Proof. split; vm_compute; reflexivity. Qed.

(** ** The target of the nested listing *)

Lemma findTarget_default q l :
  truthy_opt q = false -> findTarget q l = first_space l.
Proof.
  intros Hq. induction l as [|e r IH]; simpl; [done|].
  destruct e as [t|s]; [exact IH|]. by rewrite Hq.
Qed.

(** X5. Asked for no space (no argument, or the empty string), the nested
    listing takes the first space record of the document; asked for a name
    or id, it takes what the scan finds. It returns [null] exactly when
    that resolution finds no record, where the flat listing returns the
    empty list. *)
Theorem listTabs_target w d depth q :
  sidebar_file w = Some (Json d) ->
  (truthy_opt q = false -> findTarget q (primary_spaces d) = first_space (primary_spaces d)) /\
  (forall n, q = Some n -> truthy n = true ->
     findTarget q (primary_spaces d) = snd <$> findSpace n (primary_spaces d)) /\
  (fst (listTabs depth q w) = Returned None <-> findTarget q (primary_spaces d) = None) /\
  (forall v, fst (listTabs depth q w) = Returned (Some v) ->
     exists s, findTarget q (primary_spaces d) = Some s /\
               spaceId v = space_id s /\ spaceTitle v = space_title s) /\
  (forall n, q = Some n -> truthy n = true -> findSpace n (primary_spaces d) = None ->
     fst (listTabsFlat q w) = Returned []).
Proof.
  intros Hf. split; [apply findTarget_default|].
  split; [intros n -> Hn; by apply findTarget_findSpaceFrom|].
  rewrite (listTabs_run depth q w d Hf).
  destruct (findTarget q (primary_spaces d)) as [t|] eqn:Ht; cbv zeta.
  - destruct (buildBucket depth _ (structural_ids t !! 0%nat)) as [p|e];
      [destruct (buildBucket depth _ (structural_ids t !! 1%nat)) as [u|e]|]; simpl.
    + split; [split; discriminate|]. split.
      * intros v [= <-]. by exists t.
      * intros n -> Hn Hnone. rewrite (findTarget_findSpaceFrom n _ 0%nat Hn) in Ht.
        unfold findSpace in Hnone. by rewrite Hnone in Ht.
    + split; [split; discriminate|]. split; [discriminate|].
      intros n -> Hn Hnone. rewrite (findTarget_findSpaceFrom n _ 0%nat Hn) in Ht.
      unfold findSpace in Hnone. by rewrite Hnone in Ht.
    + split; [split; discriminate|]. split; [discriminate|].
      intros n -> Hn Hnone. rewrite (findTarget_findSpaceFrom n _ 0%nat Hn) in Ht.
      unfold findSpace in Hnone. by rewrite Hnone in Ht.
  - simpl. split; [done|]. split; [discriminate|].
    intros n -> Hn Hnone.
    unfold listTabsFlat, loadSidebar, bind, readFileSync, lift, ret. rewrite Hf. simpl.
    by rewrite Hn, Hnone.
Qed.

Lemma listTabs_target_witness :
  (truthy_opt None = false ->
   findTarget None (primary_spaces demo_doc) = first_space (primary_spaces demo_doc)) /\
  (forall n, None = Some n -> truthy n = true ->
     findTarget None (primary_spaces demo_doc) = snd <$> findSpace n (primary_spaces demo_doc)) /\
  (fst (listTabs 4 None demo_world) = Returned None <->
   findTarget None (primary_spaces demo_doc) = None) /\
  (forall v, fst (listTabs 4 None demo_world) = Returned (Some v) ->
     exists s, findTarget None (primary_spaces demo_doc) = Some s /\
               spaceId v = space_id s /\ spaceTitle v = space_title s) /\
  (forall n, None = Some n -> truthy n = true ->
     findSpace n (primary_spaces demo_doc) = None ->
     fst (listTabsFlat None demo_world) = Returned []).
Proof. apply (listTabs_target demo_world demo_doc 4 None). reflexivity. Defined.

(** ** The ledgers under the guarded updates *)

Lemma ledgers_updated f1 f2 f3 f4 f5 d :
  let d' := on_sync_items f5 (on_sync_spaceModels f4 (on_sync_ordered f3
              (on_local_spaceModels f2 (on_local_ordered f1 d)))) in
  containers d' = containers d /\
  local_ordered d' = f1 <$> local_ordered d /\
  local_models d' = f2 <$> local_models d /\
  remote_ordered d' = f3 <$> remote_ordered d /\
  remote_models d' = f4 <$> remote_models d /\
  remote_items d' = f5 <$> remote_items d.
Proof.
  destruct d as [cs [[[lo|] [lm|]]|] [[[ro|] [rm|] [ri|]]|]]; repeat split.
Qed.

Lemma mirrors_of_fields d d' :
  sidebarSyncState d' = sidebarSyncState d -> syncData d' = syncData d ->
  local_ordered d' = local_ordered d /\ local_models d' = local_models d /\
  remote_ordered d' = remote_ordered d /\ remote_models d' = remote_models d /\
  remote_items d' = remote_items d.
Proof.
  unfold local_ordered, local_models, remote_ordered, remote_models, remote_items.
  by intros -> ->.
Qed.

Lemma find_theme_Some l theme :
  find_theme l = Some theme ->
  exists before s after, l = before ++ Obj s :: after /\ space_theme s = Some theme /\
    forall s', Obj s' ∈ before -> space_theme s' = None.
Proof.
  induction l as [|e r IH]; simpl; [discriminate|].
  assert (Hskip : (match e with Obj s => space_theme s = None | Token _ => True end) ->
            find_theme r = Some theme ->
            exists before s after, e :: r = before ++ Obj s :: after /\
              space_theme s = Some theme /\
              forall s', Obj s' ∈ before -> space_theme s' = None).
  { intros He Hr. destruct (IH Hr) as (b & s & a & -> & Hs & Hb).
    exists (e :: b), s, a. split; [done|]. split; [done|].
    intros s' [?|?]%elem_of_cons; [by simplify_eq | by apply Hb]. }
  destruct e as [t|o]; [by apply Hskip|].
  destruct (space_theme o) as [t|] eqn:Ho.
  - pose proof Ho as Ho'. unfold space_theme in Ho.
    destruct (customInfo o) as [ci|]; [|discriminate].
    rewrite Ho. intros [= <-]. exists [], o, r. split; [done|]. split; [done|].
    by intros s' ?%elem_of_nil.
  - pose proof Ho as Ho'. unfold space_theme in Ho.
    destruct (customInfo o) as [ci|]; [rewrite Ho|]; by apply Hskip.
Qed.

(** ** [createSpace]: what a successful call appends *)

Lemma createSpace_success w d name ic theme :
  sidebar_file w = Some (Json d) -> dir_writable w = true -> file_writable w = true ->
  find_theme (primary_spaces d) = Some theme ->
  exists d',
    createSpace name ic w =
      (Returned (ok_id (drawn_id w 0)),
       with_file (Json d')
         (tick_clock (tick_uuid (tick_uuid (tick_uuid (after_backup w (Json d))))))) /\
    createSpace_effect w d name ic theme d'.
Proof.
  intros Hf Hd Hw Ht. unfold createSpace_effect. cbv zeta. unfold drawn_id. simpl Nat.add.
  unfold createSpace, try_catch, bind, loadSidebar, createBackup, bind, readFileSync,
    lift, Date_now, copyFileSync, ret, report, saveSidebar, writeFileSync, newId,
    randomUUID, bind, ret.
  rewrite Hf. cbn. rewrite Hf, Hd, Ht.
  destruct (find_theme_Some _ _ Ht) as (b & s0 & a & Hsp & _).
  destruct (primary_spaces_container d (Obj s0)) as (c & Hc & _).
  { rewrite Hsp. apply elem_of_app. right. left. }
  match goal with |- context [assign_spaces ?f d] =>
    destruct (assign_spaces_ok f d c Hc) as (d1 & -> & Hsp1 & Hit1 & Hc1 & Hss1 & Hsd1)
  end.
  match goal with |- context [assign_items ?f d1] =>
    destruct (assign_items_ok f d1 _ Hc1) as (d2 & -> & Hit2 & Hsp2 & Hss2 & Hsd2)
  end.
  cbn. rewrite Hw. eexists. split; [reflexivity|].
  match goal with |- context [on_sync_items ?f5 (on_sync_spaceModels ?f4 (on_sync_ordered ?f3
                               (on_local_spaceModels ?f2 (on_local_ordered ?f1 d2))))] =>
    destruct (ledgers_updated f1 f2 f3 f4 f5 d2) as (Hcs & H1 & H2 & H3 & H4 & H5)
  end.
  cbv zeta in Hcs, H1, H2, H3, H4, H5.
  destruct (mirrors_of_fields d d2) as (M1 & M2 & M3 & M4 & M5); [congruence | congruence|].
  rewrite H1, H2, H3, H4, H5, M1, M2, M3, M4, M5.
  unfold primary_spaces at 1, primary_items at 1, container1. rewrite Hcs.
  fold (container1 d2). fold (primary_spaces d2). fold (primary_items d2).
  simpl in Hit2. rewrite Hsp2, Hsp1, Hit2, (primary_spaces_default d c Hc),
    (primary_items_default d c Hc).
  repeat split.
Qed.

Lemma toUpperCase_truthy s : truthy (toUpperCase s) = truthy s.
Proof. by destruct s. Qed.

Lemma collect_spaces_app a b : collect_spaces (a ++ b) = collect_spaces a ++ collect_spaces b.
Proof.
  induction a as [|e r IH]; simpl; [done|]. destruct e as [t|s]; [done|].
  destruct (truthy (space_id s) && truthy (space_title s)); simpl; by rewrite IH.
Qed.



Lemma space_icon_new_space spaceId name ic pinnedId unpinnedId theme :
  space_icon (new_space spaceId name (default "star" ic) pinnedId unpinnedId theme)
    = listed_icon ic.
Proof.
  unfold space_icon, listed_icon, new_space, iconObj. simpl.
  destruct (includes_dot (default "star" ic)) eqn:Hdot; simpl.
  - unfold opt_or_opt. simpl. destruct (default "star" ic); [discriminate | done].
  - unfold opt_or_opt. simpl. by destruct (truthy (default "star" ic)).
Qed.

(** X7. After a successful [createSpace], [listSpaces] returns what it
    returned before followed by the new space under its id, name and icon,
    provided the name and the drawn identifier are non-empty; a space made
    with the empty name is saved but never listed. *)
Theorem createSpace_then_listSpaces w d name ic theme :
  sidebar_file w = Some (Json d) -> dir_writable w = true -> file_writable w = true ->
  find_theme (primary_spaces d) = Some theme ->
  uuid_source w (uuid_draws w) <> "" ->
  fst (listSpaces (snd (createSpace name ic w))) =
    Returned (collect_spaces (primary_spaces d) ++
              if truthy name
              then [ {| view_id := drawn_id w 0; view_title := name;
                        view_icon := listed_icon ic |} ]
              else []) /\
  fst (listSpaces w) = Returned (collect_spaces (primary_spaces d)).
Proof.
  intros Hf Hd Hw Ht Hid.
  destruct (createSpace_success w d name ic theme Hf Hd Hw Ht) as (d' & -> & Hsp & _).
  rewrite !listSpaces_run, Hf. simpl. split; [|done].
  rewrite Hsp, collect_spaces_app. do 2 f_equal. simpl.
  unfold drawn_id. simpl Nat.add. rewrite toUpperCase_truthy.
  apply truthy_true in Hid. rewrite Hid. simpl.
  destruct (truthy name); [|done]. by rewrite space_icon_new_space.
Qed.

Lemma createSpace_then_listSpaces_witness :
  fst (listSpaces (snd (createSpace "Personal" (Some "house.fill") demo_world))) =
    Returned (collect_spaces (primary_spaces demo_doc) ++
              if truthy "Personal"
              then [ {| view_id := drawn_id demo_world 0; view_title := "Personal";
                        view_icon := listed_icon (Some "house.fill") |} ]
              else []) /\
  fst (listSpaces demo_world) = Returned (collect_spaces (primary_spaces demo_doc)).
Proof.
  apply (createSpace_then_listSpaces demo_world demo_doc "Personal" (Some "house.fill")
           "theme-blue"); try reflexivity. discriminate.
Defined.

(** ** [deleteSpace]: what a successful call strips *)

Lemma primary_spaces_ledgers d f1 f2 f3 f4 f5 :
  primary_spaces
    (on_sync_items f5 (on_sync_spaceModels f4 (on_sync_ordered_value f3
       (on_local_spaceModels f2 (on_local_ordered f1 d))))) = primary_spaces d.
Proof.
  unfold primary_spaces, container1, on_sync_ordered_value.
  by rewrite on_sync_items_containers, on_sync_spaceModels_containers,
    on_sync_ordered_containers, on_local_spaceModels_containers,
    on_local_ordered_containers.
Qed.

Lemma deleteSpace_success w d n k s :
  sidebar_file w = Some (Json d) -> dir_writable w = true -> file_writable w = true ->
  findSpace n (primary_spaces d) = Some (k, s) -> truthy (space_id s) = true ->
  exists d',
    deleteSpace n w = (Returned ok, with_file (Json d') (after_backup w (Json d))) /\
    deleteSpace_effect d s d'.
Proof.
  intros Hf Hd Hw Hfind Hid.
  rewrite (deleteSpace_run w d) by done. cbv zeta. rewrite Hfind, Hid, Hw. simpl negb.
  cbv iota.
  destruct (findSpace_container _ _ _ _ Hfind) as (c1 & Hc1 & _).
  destruct (assign_spaces_ok
              (fun _ => List.filter (keep_space (space_id s)) (primary_spaces d)) d c1 Hc1)
    as (d1 & -> & Hsp1 & Hits1 & Hc1' & Hss1 & Hsd1).
  destruct (assign_items_ok
              (fun _ => List.filter
                          (keep_item (itemsToRemove (structural_ids s) (primary_items d1)))
                          (primary_items d1)) d1 _ Hc1')
    as (d2 & -> & Hits2 & Hsp2 & Hss2 & Hsd2).
  rewrite Hits1 in *.
  eexists. split; [reflexivity|]. unfold deleteSpace_effect. cbv zeta.
  rewrite primary_items_ledgers, primary_spaces_ledgers. unfold on_sync_ordered_value.
  match goal with |- context [on_sync_items ?f5 (on_sync_spaceModels ?f4 (on_sync_ordered ?f3
                               (on_local_spaceModels ?f2 (on_local_ordered ?f1 d2))))] =>
    destruct (ledgers_updated f1 f2 f3 f4 f5 d2) as (Hcs & H1 & H2 & H3 & H4 & H5)
  end.
  cbv zeta in Hcs, H1, H2, H3, H4, H5.
  destruct (mirrors_of_fields d d2) as (M1 & M2 & M3 & M4 & M5); [congruence | congruence|].
  rewrite H1, H2, H3, H4, H5, M1, M2, M3, M4, M5.
  rewrite Hsp2, Hsp1, Hits2.
  repeat split. destruct (remote_ordered d) as [[[l|] ? ?]|]; reflexivity.
Qed.




(** X9. On a document that loads and can be written, [deleteSpace]
    succeeds exactly when the first record the scan matches has a non-empty
    id; otherwise it reports the space as not found, also when a later
    record would have matched, and the file keeps its content. *)
Theorem deleteSpace_outcome w d n :
  sidebar_file w = Some (Json d) -> dir_writable w = true -> file_writable w = true ->
  fst (deleteSpace n w) =
    Returned (if match findSpace n (primary_spaces d) with
                 | Some (_, s) => truthy (space_id s)
                 | None => false
                 end
              then ok else SpaceNotFound n) /\
  (fst (deleteSpace n w) = Returned (SpaceNotFound n) ->
   sidebar_file (snd (deleteSpace n w)) = Some (Json d)).
Proof.
  intros Hf Hd Hw.
  destruct (findSpace n (primary_spaces d)) as [[k s]|] eqn:Hfind.
  - destruct (truthy (space_id s)) eqn:Hid.
    + destruct (deleteSpace_success w d n k s Hf Hd Hw Hfind Hid) as (d' & -> & _).
      split; [done | discriminate].
    + rewrite (deleteSpace_run w d) by done. cbv zeta. rewrite Hfind, Hid. simpl.
      by rewrite Hf.
  - rewrite (deleteSpace_run w d) by done. cbv zeta. rewrite Hfind. simpl. by rewrite Hf.
Qed.

Lemma deleteSpace_outcome_witness :
  fst (deleteSpace "Work" (world_of shadowed_doc)) =
    Returned (if match findSpace "Work" (primary_spaces shadowed_doc) with
                 | Some (_, s) => truthy (space_id s)
                 | None => false
                 end
              then ok else SpaceNotFound "Work") /\
  (fst (deleteSpace "Work" (world_of shadowed_doc)) = Returned (SpaceNotFound "Work") ->
   sidebar_file (snd (deleteSpace "Work" (world_of shadowed_doc)))
     = Some (Json shadowed_doc)).
Proof. apply (deleteSpace_outcome (world_of shadowed_doc) shadowed_doc "Work"); reflexivity. Defined.

Example deleteSpace_shadowed_by_empty_id :
  fst (deleteSpace "Work" (world_of shadowed_doc)) = Returned (SpaceNotFound "Work") /\
  fst (deleteSpace "S1" (world_of shadowed_doc)) = Returned ok.
Proof. split; vm_compute; reflexivity. Qed.

(** ** Generated identifiers are never role markers *)

Lemma upper_ascii_not_lower c : upper_ascii c <> "p"%char /\ upper_ascii c <> "u"%char.
Proof. destruct c as [[] [] [] [] [] [] [] []]; vm_compute; split; discriminate. Qed.

Lemma not_marker_toUpperCase s : not_marker (toUpperCase s) = true.
Proof.
  unfold not_marker. apply andb_true_iff.
  split; apply negb_true_iff, str_eq_false; destruct s as [|c r]; simpl;
    try discriminate; intros [= H _]; by apply (upper_ascii_not_lower c) in H.
Qed.

Lemma structural_ids_new_space w name ic theme :
  structural_ids (new_space (drawn_id w 0) name ic (drawn_id w 1) (drawn_id w 2) theme)
    = [drawn_id w 1; drawn_id w 2].
Proof.
  unfold structural_ids. simpl. unfold drawn_id. by rewrite !not_marker_toUpperCase.
Qed.

Lemma List_filter_all {A} (f : A -> bool) l :
  Forall (fun x => f x = true) l -> List.filter f l = l.
Proof. induction 1 as [|x r Hx _ IH]; simpl; [done|]. by rewrite Hx, IH. Qed.

Lemma List_filter_snoc_out {A} (f : A -> bool) l extra :
  Forall (fun x => f x = true) l -> Forall (fun x => f x = false) extra ->
  List.filter f (l ++ extra) = l.
Proof.
  intros Hl He. rewrite List.filter_app, (List_filter_all f l Hl).
  induction He as [|x r Hx _ IH]; simpl; [by rewrite app_nil_r|]. by rewrite Hx.
Qed.

(** ** [createSpace] undone by [deleteSpace] *)

Lemma findSpace_appended sid l s :
  Forall (fun e => match e with
                   | Token t => t <> sid
                   | Obj o => space_id o <> sid /\ space_title o <> sid
                   end) l ->
  space_id s = sid ->
  findSpace sid (l ++ [Token sid; Obj s]) = Some (S (List.length l), s).
Proof.
  intros Hl Hs. apply findSpace_spec. exists (l ++ [Token sid]), [].
  rewrite <- app_assoc. split; [done|]. split; [rewrite length_app; simpl; lia|].
  split; [apply space_matches_spec; by left|].
  apply Forall_app. split; [|by repeat constructor].
  eapply Forall_impl; [exact Hl|]. intros [t|o]; simpl; [done|]. intros [H1 H2].
  destruct (space_matches sid o) eqn:Hm; [|done].
  apply space_matches_spec in Hm as [?|?]; done.
Qed.

Lemma removal_set_of_new_containers its pid uid pc uc id :
  Forall (fun e => entry_id e <> pid /\
                   match e with Obj it => parentID it <> Some pid | Token _ => True end) its ->
  Forall (fun e => entry_id e <> uid /\
                   match e with Obj it => parentID it <> Some uid | Token _ => True end) its ->
  parentID pc = None -> parentID uc = None ->
  id ∈ itemsToRemove [pid; uid] (its ++ [Token pid; Obj pc; Token uid; Obj uc]) <->
  id = pid \/ id = uid.
Proof.
  intros Hp Hu Hpc Huc. rewrite itemsToRemove_spec.
  assert (Hmem : forall x, x ∈ [pid; uid] <-> x = pid \/ x = uid).
  { intros x. rewrite !elem_of_cons, elem_of_nil. tauto. }
  rewrite Hmem. split; [|tauto].
  intros [?|(it & p & Hin & _ & Hpar & _ & Hpin)]; [done|]. exfalso.
  apply Hmem in Hpin. apply elem_of_app in Hin as [Hin|Hin].
  - rewrite Forall_forall in Hp, Hu.
    destruct (Hp _ Hin) as [_ H1]. destruct (Hu _ Hin) as [_ H2]. simpl in *.
    destruct Hpin as [-> | ->]; congruence.
  - repeat (apply elem_of_cons in Hin as [Hin|Hin]; [simplify_eq; congruence|]).
    by apply elem_of_nil in Hin.
Qed.

(** X10. [deleteSpace] undoes [createSpace]. On a document that loads and
    can be written and has a theme, when the identifiers drawn occur
    nowhere in the document, creating a space and then deleting it by the
    returned id gives back the primary space list, the primary item list,
    the local mirrors, the remote models and the remote items exactly, and
    the remote ordered list up to its change stamp. *)
Theorem createSpace_then_deleteSpace w d name ic theme :
  sidebar_file w = Some (Json d) -> dir_writable w = true -> file_writable w = true ->
  find_theme (primary_spaces d) = Some theme ->
  uuid_source w (uuid_draws w) <> "" ->
  space_id_unused d (drawn_id w 0) ->
  item_id_unused d (drawn_id w 1) -> item_id_unused d (drawn_id w 2) ->
  fst (createSpace name ic w) = Returned (ok_id (drawn_id w 0)) /\
  fst (deleteSpace (drawn_id w 0) (snd (createSpace name ic w))) = Returned ok /\
  exists d'',
    sidebar_file (snd (deleteSpace (drawn_id w 0) (snd (createSpace name ic w))))
      = Some (Json d'') /\
    primary_spaces d'' = primary_spaces d /\
    primary_items d'' = primary_items d /\
    local_ordered d'' = local_ordered d /\
    local_models d'' = local_models d /\
    ordered_ids <$> remote_ordered d'' = ordered_ids <$> remote_ordered d /\
    remote_models d'' = remote_models d /\
    remote_items d'' = remote_items d.
Proof.
  intros Hf Hd Hw Ht Hid (Us1 & Us2 & Us3 & Us4 & Us5) (Up1 & Up2) (Uu1 & Uu2).
  destruct (createSpace_success w d name ic theme Hf Hd Hw Ht)
    as (d' & -> & Hsp & Hit & Hlo & Hlm & Hro & Hrm & Hri).
  cbv zeta in Hsp, Hit, Hlo, Hlm, Hro, Hrm, Hri.
  split; [done|]. simpl snd.
  set (sid := drawn_id w 0) in *. set (pid := drawn_id w 1) in *.
  set (uid := drawn_id w 2) in *.
  set (spaceObj := new_space sid name (default "star" ic) pid uid theme) in *.
  match goal with |- context [deleteSpace sid ?w1] => set (w' := w1) end.
  assert (Hfind : findSpace sid (primary_spaces d')
                  = Some (S (List.length (primary_spaces d)), spaceObj)).
  { rewrite Hsp. by apply findSpace_appended. }
  assert (Hsid : truthy (space_id spaceObj) = true).
  { simpl. unfold sid, drawn_id. rewrite toUpperCase_truthy. by apply truthy_true. }
  destruct (deleteSpace_success w' d' sid _ spaceObj eq_refl Hd Hw Hfind Hsid)
    as (d'' & -> & Dsp & Dit & Dlo & Dlm & Dro & Drm & Dri).
  cbv zeta in Dsp, Dit, Dlo, Dlm, Dro, Drm, Dri.
  split; [done|]. exists d''. split; [done|].
  unfold spaceObj, sid, pid, uid in Dit, Dri.
  rewrite structural_ids_new_space in Dit, Dri.
  fold sid pid uid in Dit, Dri. rewrite Hit in Dit, Dri. simpl space_id in *.
  assert (Hrm_spec : forall id,
            id ∈ itemsToRemove [pid; uid]
                   (primary_items d ++
                    [Token pid; Obj (new_container pid sid (getDeviceId d)
                                       (clock w (S (clock_reads w))));
                     Token uid; Obj (new_container uid sid (getDeviceId d)
                                       (clock w (S (clock_reads w))))]) <->
            id = pid \/ id = uid).
  { intros id. by apply removal_set_of_new_containers. }
  split; [|split; [|split; [|split; [|split; [|split]]]]].
  - rewrite Dsp, Hsp. apply List_filter_snoc_out.
    + eapply Forall_impl; [exact Us1|]. intros [t|o]; simpl.
      * intros H. by apply negb_true_iff, str_eq_false.
      * intros [H _]. by apply negb_true_iff, str_eq_false.
    + repeat constructor; simpl; by rewrite str_eq_refl.
  - rewrite Dit. apply List_filter_snoc_out.
    + apply Forall_forall. intros e He. apply keep_item_spec. rewrite Hrm_spec.
      rewrite Forall_forall in Up1, Uu1.
      destruct (Up1 _ He) as [H1 _]. destruct (Uu1 _ He) as [H2 _]. tauto.
    + repeat constructor; simpl; apply negb_false_iff, bool_decide_eq_true, Hrm_spec; tauto.
  - rewrite Dlo, Hlo. destruct (local_ordered d) as [l|] eqn:Hl; [|done]. simpl. f_equal.
    apply List_filter_snoc_out.
    + apply Forall_forall. intros x Hx. apply negb_true_iff, str_eq_false.
      intros ->. by apply (Us2 l).
    + repeat constructor. simpl. by rewrite str_eq_refl.
  - rewrite Dlm, Hlm. destruct (local_models d) as [l|] eqn:Hl; [|done]. simpl. f_equal.
    apply List_filter_snoc_out; [by apply Us3|].
    repeat constructor; simpl; by rewrite str_eq_refl.
  - rewrite Dro, Hro. destruct (remote_ordered d) as [o|] eqn:Ho; [|done]. simpl. f_equal.
    unfold ordered_ids. simpl. apply List_filter_snoc_out.
    + apply Forall_forall. intros x Hx. apply negb_true_iff, str_eq_false.
      intros ->. destruct (ordered_value o) as [l|] eqn:Hv; [|by apply elem_of_nil in Hx].
      by apply (Us4 o l).
    + repeat constructor. simpl. by rewrite str_eq_refl.
  - rewrite Drm, Hrm. destruct (remote_models d) as [l|] eqn:Hl; [|done]. simpl. f_equal.
    apply List_filter_snoc_out; [by apply Us5|].
    repeat constructor; simpl; by rewrite str_eq_refl.
  - rewrite Dri, Hri. destruct (remote_items d) as [l|] eqn:Hl; [|done]. simpl. f_equal.
    apply List_filter_snoc_out.
    + specialize (Up2 l eq_refl). specialize (Uu2 l eq_refl).
      rewrite Forall_forall in Up2, Uu2. apply Forall_forall. intros e He.
      specialize (Up2 e He). specialize (Uu2 e He).
      destruct e as [t|m]; simpl; apply negb_true_iff, bool_decide_eq_false;
        rewrite Hrm_spec; tauto.
    + repeat constructor; simpl; apply negb_false_iff, bool_decide_eq_true, Hrm_spec; tauto.
Qed.

Lemma createSpace_then_deleteSpace_witness :
  fst (createSpace "Personal" None demo_world) = Returned (ok_id (drawn_id demo_world 0)) /\
  fst (deleteSpace (drawn_id demo_world 0) (snd (createSpace "Personal" None demo_world)))
    = Returned ok /\
  exists d'',
    sidebar_file (snd (deleteSpace (drawn_id demo_world 0)
                         (snd (createSpace "Personal" None demo_world))))
      = Some (Json d'') /\
    primary_spaces d'' = primary_spaces demo_doc /\
    primary_items d'' = primary_items demo_doc /\
    local_ordered d'' = local_ordered demo_doc /\
    local_models d'' = local_models demo_doc /\
    ordered_ids <$> remote_ordered d'' = ordered_ids <$> remote_ordered demo_doc /\
    remote_models d'' = remote_models demo_doc /\
    remote_items d'' = remote_items demo_doc.
Proof.
  apply (createSpace_then_deleteSpace demo_world demo_doc "Personal" None "theme-blue");
    try reflexivity; try discriminate.
  - repeat split.
    + repeat constructor; discriminate.
    + intros l [= <-]. compute_done.
    + intros l [= <-]. repeat constructor.
    + intros o l [= <-] [= <-]. compute_done.
    + intros l [= <-]. repeat constructor.
  - split.
    + repeat constructor; discriminate.
    + intros l [= <-]. repeat constructor; discriminate.
  - split.
    + repeat constructor; discriminate.
    + intros l [= <-]. repeat constructor; discriminate.
Defined.

(** ** [addTab]: what a successful call saves *)

Lemma addTab_success w d n k s url title pin cid :
  sidebar_file w = Some (Json d) -> dir_writable w = true -> file_writable w = true ->
  findSpace n (primary_spaces d) = Some (k, s) -> truthy (space_id s) = true ->
  select_container pin (structural_ids s) = Some cid -> truthy cid = true ->
  let tabId := drawn_id w 0 in
  let ts := clock w (S (clock_reads w)) in
  let tabObj := new_tab tabId cid url title (getDeviceId d) ts in
  exists d',
    addTab n url title pin w =
      (Returned (ok_id tabId),
       with_file (Json d') (tick_clock (tick_uuid (after_backup w (Json d))))) /\
    primary_items d' = push_child cid tabId (primary_items d ++ [Token tabId; Obj tabObj]) /\
    primary_spaces d' = primary_spaces d /\
    remote_items d' =
      (fun l => l ++ [Token tabId; Obj (stamped tabId ts (getDeviceId d) tabObj)])
        <$> remote_items d /\
    local_ordered d' = local_ordered d /\ local_models d' = local_models d /\
    remote_ordered d' = remote_ordered d /\ remote_models d' = remote_models d.
Proof.
  intros Hf Hd Hw Hfind Hid Hsel Hcid. cbv zeta. unfold drawn_id. simpl Nat.add.
  rewrite (addTab_run w d) by done. cbv zeta.
  rewrite Hfind, Hid, Hsel, Hw. simpl truthy_opt. rewrite Hcid. simpl negb. cbv iota.
  simpl default.
  destruct (findSpace_container _ _ _ _ Hfind) as (c1 & Hc1 & _).
  match goal with |- context [assign_items ?f d] =>
    destruct (assign_items_ok f d c1 Hc1) as (d1 & -> & Hits & Hsp & Hss & Hsd)
  end.
  rewrite (primary_items_default d c1 Hc1) in Hits.
  eexists. split; [reflexivity|].
  rewrite primary_items_on_sync_items, primary_spaces_on_sync_items,
    remote_items_on_sync_items.
  destruct (mirrors_of_fields d d1 Hss Hsd) as (M1 & M2 & M3 & M4 & M5).
  rewrite M5. split; [done|]. split; [done|]. split; [done|].
  match goal with |- context [on_sync_items ?f d1] =>
    destruct (ledgers_updated (fun l => l) (fun l => l) (fun o => o) (fun l => l) f d1)
      as (_ & H1 & H2 & H3 & H4 & _)
  end.
  cbv zeta in H1, H2, H3, H4.
  assert (Hidm : forall g, on_sync_ordered (fun o => o) g = g).
  { intros g. unfold on_sync_ordered. destruct g as [cs ss [[[o|] rm ri]|]]; reflexivity. }
  assert (Hidl : forall g, on_local_ordered (fun l => l) g = g).
  { intros g. unfold on_local_ordered. destruct g as [cs [[[lo|] lm]|] sd]; reflexivity. }
  assert (Hidlm : forall g, on_local_spaceModels (fun l => l) g = g).
  { intros g. unfold on_local_spaceModels. destruct g as [cs [[lo [lm|]]|] sd]; reflexivity. }
  assert (Hidsm : forall g, on_sync_spaceModels (fun l => l) g = g).
  { intros g. unfold on_sync_spaceModels. destruct g as [cs ss [[o [rm|] ri]|]]; reflexivity. }
  rewrite Hidl, Hidlm, Hidm, Hidsm in H1, H2, H3, H4.
  rewrite H1, H2, H3, H4, M1, M2, M3, M4.
  repeat split; by rewrite option_fmap_id.
Qed.

Lemma push_child_entry_ids cid tid l : entry_id <$> push_child cid tid l = entry_id <$> l.
Proof.
  induction l as [|e r IH]; [done|]. destruct e as [t|o]; simpl push_child; csimpl.
  - by rewrite IH.
  - destruct (str_eq (item_id o) cid); csimpl; [done | by rewrite IH].
Qed.

Lemma push_child_found cid tid l r extra :
  find_item cid l = Some r ->
  push_child cid tid (l ++ extra) = push_child cid tid l ++ extra /\
  find_item cid (push_child cid tid l) = Some (with_child tid r).
Proof.
  induction l as [|e l' IH]; simpl; [discriminate|]. destruct e as [t|o].
  - intros H. destruct (IH H) as [IH1 IH2]. simpl. by rewrite IH1, IH2.
  - destruct (str_eq (item_id o) cid) eqn:Ho.
    + intros [= ->]. simpl. by rewrite Ho.
    + intros H. destruct (IH H) as [IH1 IH2]. simpl. by rewrite Ho, IH1, IH2.
Qed.

Lemma push_child_absent cid tid l :
  find_item cid l = None -> push_child cid tid l = l.
Proof.
  induction l as [|e l' IH]; simpl; [done|]. destruct e as [t|o].
  - intros H. by rewrite IH.
  - destruct (str_eq (item_id o) cid); [discriminate|]. intros H. by rewrite IH.
Qed.

Lemma find_item_app id a b :
  find_item id (a ++ b) = match find_item id a with
                          | Some it => Some it
                          | None => find_item id b
                          end.
Proof.
  induction a as [|e r IH]; simpl; [done|]. destruct e as [t|o]; [done|].
  by destruct (str_eq (item_id o) id).
Qed.

(** X11. A successful [addTab] appends the token and the record of the
    new tab to the primary item list and leaves every other entry in place.
    When the chosen container has a record, the first such record gets the
    new id at the end of its child list; when it has none, the call
    succeeds all the same and no child list changes, so the saved tab
    points at a parent that does not exist. *)
Theorem addTab_attaches_or_dangles w d n k s url title pin cid :
  sidebar_file w = Some (Json d) -> dir_writable w = true -> file_writable w = true ->
  findSpace n (primary_spaces d) = Some (k, s) -> truthy (space_id s) = true ->
  select_container pin (structural_ids s) = Some cid -> truthy cid = true ->
  drawn_id w 0 <> cid ->
  let tabObj := new_tab (drawn_id w 0) cid url title (getDeviceId d)
                  (clock w (S (clock_reads w))) in
  fst (addTab n url title pin w) = Returned (ok_id (drawn_id w 0)) /\
  exists d',
    sidebar_file (snd (addTab n url title pin w)) = Some (Json d') /\
    entry_id <$> primary_items d' =
      (entry_id <$> primary_items d) ++ [drawn_id w 0; drawn_id w 0] /\
    (forall r, find_item cid (primary_items d) = Some r ->
       primary_items d' =
         push_child cid (drawn_id w 0) (primary_items d)
           ++ [Token (drawn_id w 0); Obj tabObj] /\
       find_item cid (primary_items d') = Some (with_child (drawn_id w 0) r)) /\
    (find_item cid (primary_items d) = None ->
       primary_items d' = primary_items d ++ [Token (drawn_id w 0); Obj tabObj] /\
       find_item cid (primary_items d') = None).
Proof.
  intros Hf Hd Hw Hfind Hid Hsel Hcid Hne. cbv zeta.
  destruct (addTab_success w d n k s url title pin cid Hf Hd Hw Hfind Hid Hsel Hcid)
    as (d' & -> & Hits & _).
  split; [done|]. exists d'. split; [done|]. rewrite Hits.
  split; [by rewrite push_child_entry_ids, fmap_app|]. split.
  - intros r Hr. destruct (push_child_found cid (drawn_id w 0) _ r
                             [Token (drawn_id w 0);
                              Obj (new_tab (drawn_id w 0) cid url title (getDeviceId d)
                                     (clock w (S (clock_reads w))))] Hr) as [-> Hfound].
    split; [done|]. by rewrite find_item_app, Hfound.
  - intros Hnone.
    assert (Habs : find_item cid
                     (primary_items d ++
                      [Token (drawn_id w 0);
                       Obj (new_tab (drawn_id w 0) cid url title (getDeviceId d)
                              (clock w (S (clock_reads w))))]) = None).
    { rewrite find_item_app, Hnone. simpl.
      by replace (str_eq (drawn_id w 0) cid) with false
        by (symmetry; by apply str_eq_false). }
    by rewrite (push_child_absent _ _ _ Habs).
Qed.

Lemma addTab_attaches_or_dangles_witness :
  let tabObj := new_tab (drawn_id (world_of dangling_doc) 0) "U1" "https://example.com"
                  (Some "Example") (getDeviceId dangling_doc)
                  (clock (world_of dangling_doc) (S (clock_reads (world_of dangling_doc)))) in
  fst (addTab "Work" "https://example.com" (Some "Example") false (world_of dangling_doc))
    = Returned (ok_id (drawn_id (world_of dangling_doc) 0)) /\
  exists d',
    sidebar_file (snd (addTab "Work" "https://example.com" (Some "Example") false
                         (world_of dangling_doc))) = Some (Json d') /\
    entry_id <$> primary_items d' =
      (entry_id <$> primary_items dangling_doc)
        ++ [drawn_id (world_of dangling_doc) 0; drawn_id (world_of dangling_doc) 0] /\
    (forall r, find_item "U1" (primary_items dangling_doc) = Some r ->
       primary_items d' =
         push_child "U1" (drawn_id (world_of dangling_doc) 0) (primary_items dangling_doc)
           ++ [Token (drawn_id (world_of dangling_doc) 0); Obj tabObj] /\
       find_item "U1" (primary_items d')
         = Some (with_child (drawn_id (world_of dangling_doc) 0) r)) /\
    (find_item "U1" (primary_items dangling_doc) = None ->
       primary_items d' =
         primary_items dangling_doc
           ++ [Token (drawn_id (world_of dangling_doc) 0); Obj tabObj] /\
       find_item "U1" (primary_items d') = None).
Proof.
  apply (addTab_attaches_or_dangles (world_of dangling_doc) dangling_doc "Work" 1%nat
           demo_work "https://example.com" (Some "Example") false "U1");
    try reflexivity. discriminate.
Defined.

(** ** The flat listing *)

Lemma collect_tabs_app c2s target a b :
  collect_tabs c2s target (a ++ b) = collect_tabs c2s target a ++ collect_tabs c2s target b.
Proof.
  induction a as [|e r IH]; simpl; [done|]. destruct e as [t|it]; [done|].
  destruct (item_tab it) as [td|]; [|done]. destruct (parentID it) as [p|]; [|done].
  destruct (truthy p); [|done].
  destruct (c2s !! p) as [[sid isPinned]|]; [|done].
  destruct (match target with Some _ => _ | None => _ end); [done|]. simpl. by rewrite IH.
Qed.

Lemma collect_tabs_push_child c2s target cid tid l :
  collect_tabs c2s target (push_child cid tid l) = collect_tabs c2s target l.
Proof.
  induction l as [|e r IH]; simpl; [done|]. destruct e as [t|it]; simpl; [done|].
  destruct (str_eq (item_id it) cid); simpl; [done|]. by rewrite IH.
Qed.

(** X12. After a successful [addTab], the flat listing of all spaces is
    the former listing followed by the new tab, placed in the space and
    bucket that the container table gives for the chosen container, with
    the title shown as in the nested listing; the flat listing of the space
    [addTab] was given returns the same way. The tab is found whether or
    not the container has a record. *)
Theorem addTab_then_listTabsFlat w d n k s url title pin cid :
  sidebar_file w = Some (Json d) -> dir_writable w = true -> file_writable w = true ->
  findSpace n (primary_spaces d) = Some (k, s) -> truthy (space_id s) = true ->
  select_container pin (structural_ids s) = Some cid -> truthy cid = true ->
  truthy n = true ->
  containerToSpace (primary_spaces d) !! cid = Some (space_id s, pin) ->
  let shown := {| tab_id := drawn_id w 0; tab_title := shown_title title url;
                  tab_url := url;
                  location := if pin then pinned_loc else unpinned_loc;
                  tab_spaceId := space_id s |} in
  (exists before, fst (listTabsFlat None w) = Returned before /\
     fst (listTabsFlat None (snd (addTab n url title pin w))) = Returned (before ++ [shown])) /\
  (exists before, fst (listTabsFlat (Some n) w) = Returned before /\
     fst (listTabsFlat (Some n) (snd (addTab n url title pin w)))
       = Returned (before ++ [shown])).
Proof.
  intros Hf Hd Hw Hfind Hid Hsel Hcid Hn Hmap. cbv zeta.
  destruct (addTab_success w d n k s url title pin cid Hf Hd Hw Hfind Hid Hsel Hcid)
    as (d' & -> & Hits & Hsp & _).
  cbv zeta in Hits. simpl snd.
  assert (Hleaf : forall target,
            match target with
            | Some tid => truthy tid && negb (str_eq (space_id s) tid)
            | None => false
            end = false ->
            collect_tabs (containerToSpace (primary_spaces d)) target (primary_items d') =
            collect_tabs (containerToSpace (primary_spaces d)) target (primary_items d)
              ++ [ {| tab_id := drawn_id w 0; tab_title := shown_title title url;
                      tab_url := url;
                      location := if pin then pinned_loc else unpinned_loc;
                      tab_spaceId := space_id s |} ]).
  { intros target Htarget.
    rewrite Hits, collect_tabs_push_child, collect_tabs_app. f_equal. simpl.
    rewrite Hcid, Hmap, Htarget.
    pose proof (tab_leaf_new_tab (drawn_id w 0) cid url title (getDeviceId d)
                  (clock w (S (clock_reads w)))) as Hshown.
    unfold tab_leaf in Hshown. simpl in Hshown. injection Hshown as Ht Hu.
    by rewrite Ht, Hu. }
  unfold listTabsFlat, loadSidebar, bind, readFileSync, lift, ret. rewrite Hf. simpl.
  rewrite Hsp, Hn, Hfind, Hid. split; eexists; (split; [reflexivity|]); simpl; f_equal.
  - by apply Hleaf.
  - apply Hleaf. by rewrite str_eq_refl, andb_false_r.
Qed.

Lemma addTab_then_listTabsFlat_witness :
  let shown := {| tab_id := drawn_id demo_world 0;
                  tab_title := shown_title None "https://example.org";
                  tab_url := "https://example.org";
                  location := if true then pinned_loc else unpinned_loc;
                  tab_spaceId := space_id demo_work |} in
  (exists before, fst (listTabsFlat None demo_world) = Returned before /\
     fst (listTabsFlat None (snd (addTab "Work" "https://example.org" None true demo_world)))
       = Returned (before ++ [shown])) /\
  (exists before, fst (listTabsFlat (Some "Work") demo_world) = Returned before /\
     fst (listTabsFlat (Some "Work")
            (snd (addTab "Work" "https://example.org" None true demo_world)))
       = Returned (before ++ [shown])).
Proof.
  apply (addTab_then_listTabsFlat demo_world demo_doc "Work" 1%nat demo_work
           "https://example.org" None true "P1"); reflexivity.
Defined.

(** ** [addTab] undone by [deleteTab] *)

Lemma filter_push_child cid tid l :
  tid <> cid ->
  List.filter (keep_not_id tid) (push_child cid tid l) =
  push_child cid tid (List.filter (keep_not_id tid) l).
Proof.
  intros Hne. induction l as [|e r IH]; simpl; [done|]. destruct e as [t|o]; simpl.
  - destruct (negb (str_eq t tid)); simpl; by rewrite IH.
  - destruct (str_eq (item_id o) cid) eqn:Ho; simpl.
    + apply str_eq_true in Ho.
      replace (str_eq (item_id o) tid) with false
        by (symmetry; apply str_eq_false; congruence).
      simpl. by rewrite (proj2 (str_eq_true _ _) Ho).
    + destruct (negb (str_eq (item_id o) tid)); simpl; rewrite ?Ho, IH; done.
Qed.

Lemma set_childrenIds_with_child tid r cs :
  childrenIds r = Some cs -> tid ∉ cs ->
  set_childrenIds
    (Some (List.filter (fun id => negb (str_eq id tid))
             (default [] (childrenIds r) ++ [tid]))) (with_child tid r) = r.
Proof.
  intros Hcs Hnotin. rewrite Hcs. simpl default.
  rewrite (List_filter_snoc_out _ cs [tid]).
  - destruct r. simpl in *. by rewrite Hcs.
  - apply Forall_forall. intros x Hx. apply negb_true_iff, str_eq_false. by intros ->.
  - repeat constructor. simpl. by rewrite str_eq_refl.
Qed.

Lemma detach_push_child cid tid l r cs :
  find_item cid l = Some r -> childrenIds r = Some cs -> tid ∉ cs ->
  detach_child cid tid (push_child cid tid l) = l.
Proof.
  intros Hr Hcs Hnotin. induction l as [|e l' IH]; simpl in *; [done|].
  destruct e as [t|o]; simpl.
  - by rewrite IH.
  - destruct (str_eq (item_id o) cid) eqn:Ho; simpl; rewrite Ho.
    + simplify_eq. fold (with_child tid r).
      by rewrite (set_childrenIds_with_child tid r cs).
    + by rewrite IH.
Qed.

(** X13. [deleteTab] undoes [addTab]. On a document that loads and can be
    written, when the chosen container has a record with a child list and
    the drawn identifier occurs nowhere in the item list, in that child
    list or in the remote mirror, adding a tab and then deleting it by the
    returned id gives back the primary item list and the remote item mirror
    exactly, and every nested listing is what it was. *)
Theorem addTab_then_deleteTab w d n k s url title pin cid r cs :
  sidebar_file w = Some (Json d) -> dir_writable w = true -> file_writable w = true ->
  findSpace n (primary_spaces d) = Some (k, s) -> truthy (space_id s) = true ->
  select_container pin (structural_ids s) = Some cid -> truthy cid = true ->
  find_item cid (primary_items d) = Some r -> childrenIds r = Some cs ->
  drawn_id w 0 ∉ cs ->
  drawn_id w 0 ∉ entry_id <$> primary_items d ->
  (forall l, remote_items d = Some l ->
     Forall (fun e => keep_sync_not_id (drawn_id w 0) e = true) l) ->
  fst (addTab n url title pin w) = Returned (ok_id (drawn_id w 0)) /\
  fst (deleteTab (drawn_id w 0) (snd (addTab n url title pin w))) = Returned ok /\
  exists d'',
    sidebar_file (snd (deleteTab (drawn_id w 0) (snd (addTab n url title pin w))))
      = Some (Json d'') /\
    primary_items d'' = primary_items d /\
    primary_spaces d'' = primary_spaces d /\
    remote_items d'' = remote_items d /\
    (forall depth q,
       fst (listTabs depth q (snd (deleteTab (drawn_id w 0)
                                     (snd (addTab n url title pin w)))))
       = fst (listTabs depth q w)).
Proof.
  intros Hf Hd Hw Hfind Hid Hsel Hcid Hr Hcs Hnotin Hfresh Hremote.
  destruct (addTab_success w d n k s url title pin cid Hf Hd Hw Hfind Hid Hsel Hcid)
    as (d' & -> & Hits & Hsp & Hri & _).
  cbv zeta in Hits, Hri. split; [done|]. simpl snd.
  set (tabId := drawn_id w 0) in *.
  set (tabObj := new_tab tabId cid url title (getDeviceId d)
                   (clock w (S (clock_reads w)))) in *.
  match goal with |- context [deleteTab tabId ?w1] => set (w' := w1) end.
  assert (Hne : tabId <> cid).
  { intros Heq. apply Hfresh. destruct (find_item_elem_of _ _ _ Hr) as [Hin Hrid].
    apply list_elem_of_fmap. exists (Obj r). split; [simpl; congruence | done]. }
  assert (Hkeep : Forall (fun e => keep_not_id tabId e = true) (primary_items d)).
  { apply Forall_forall. intros e He. apply keep_not_id_spec. intros Heq.
    apply Hfresh. apply list_elem_of_fmap. by exists e. }
  assert (Hnone : find_item tabId (primary_items d) = None).
  { apply find_item_None. intros it Hin Heq. apply Hfresh.
    apply list_elem_of_fmap. by exists (Obj it). }
  assert (Hfound : find_item tabId (primary_items d') = Some tabObj).
  { rewrite Hits.
    destruct (push_child_found cid tabId _ r [Token tabId; Obj tabObj] Hr) as [-> _].
    rewrite find_item_app.
    replace (find_item tabId (push_child cid tabId (primary_items d))) with (@None ItemObject).
    - simpl. by rewrite str_eq_refl.
    - symmetry. apply find_item_item_ids. rewrite push_child_item_ids.
      by apply find_item_item_ids. }
  destruct (deleteTab_present w' d' tabId tabObj eq_refl Hd Hw Hfound)
    as (d'' & -> & Dits & Dsp & Dri).
  split; [done|]. exists d''. split; [done|].
  assert (Hitems : primary_items d'' = primary_items d).
  { rewrite Dits, Hits. unfold items_after_deleteTab.
    change (parentID tabObj) with (Some cid). cbv beta iota. rewrite Hcid.
    rewrite (filter_push_child _ _ _ Hne).
    rewrite (List_filter_snoc_out _ (primary_items d) [Token tabId; Obj tabObj] Hkeep).
    - by apply (detach_push_child cid tabId _ r cs).
    - repeat constructor; simpl; by rewrite str_eq_refl. }
  split; [exact Hitems|]. split; [congruence|]. split.
  - rewrite Dri, Hri. destruct (remote_items d) as [l|]; [|done]. simpl. f_equal.
    apply List_filter_snoc_out; [by apply Hremote|].
    repeat constructor; simpl; by rewrite str_eq_refl.
  - intros depth q.
    simpl snd.
    match goal with |- context [listTabs depth q ?w2] =>
      rewrite (listTabs_run depth q w2 d'' eq_refl)
    end.
    rewrite (listTabs_run depth q w d Hf).
    rewrite Hitems, Dsp, Hsp. simpl.
    destruct (findTarget q (primary_spaces d)) as [t|]; [|done]. cbv zeta.
    destruct (buildBucket depth _ (structural_ids t !! 0%nat)); [|done].
    by destruct (buildBucket depth _ (structural_ids t !! 1%nat)).
Qed.

Lemma addTab_then_deleteTab_witness :
  fst (addTab "Work" "https://example.org" None false demo_world)
    = Returned (ok_id (drawn_id demo_world 0)) /\
  fst (deleteTab (drawn_id demo_world 0)
         (snd (addTab "Work" "https://example.org" None false demo_world))) = Returned ok /\
  exists d'',
    sidebar_file (snd (deleteTab (drawn_id demo_world 0)
                         (snd (addTab "Work" "https://example.org" None false demo_world))))
      = Some (Json d'') /\
    primary_items d'' = primary_items demo_doc /\
    primary_spaces d'' = primary_spaces demo_doc /\
    remote_items d'' = remote_items demo_doc /\
    (forall depth q,
       fst (listTabs depth q
              (snd (deleteTab (drawn_id demo_world 0)
                      (snd (addTab "Work" "https://example.org" None false demo_world)))))
       = fst (listTabs depth q demo_world)).
Proof.
  apply (addTab_then_deleteTab demo_world demo_doc "Work" 1%nat demo_work
           "https://example.org" None false "U1"
           (demo_container "U1" "S1" ["F1"; "T1"]) ["F1"; "T1"]);
    try reflexivity; try compute_done.
  intros l [= <-]. repeat constructor.
Defined.

(** ** DocumentStore: which steps make a backup *)










(** ** [createWorkspace]: what each call leaves *)

Ltac call_done :=
  eexists _, _; split; [reflexivity|]; simpl; split; [reflexivity|]; eauto.

Lemma createSpace_call name ic w :
  exists r w', createSpace name ic w = (Returned r, w') /\
    uuid_source w' = uuid_source w /\
    if success r
    then r = ok_id (drawn_id w 0) /\ writes w' = S (writes w)
    else writes w' = writes w /\ exists msg, error r = Some msg.
Proof.
  unfold createSpace, try_catch, bind, loadSidebar, createBackup, bind, readFileSync,
    lift, Date_now, copyFileSync, ret, report, saveSidebar, writeFileSync, newId,
    randomUUID, bind, ret, drawn_id.
  destruct (sidebar_file w) as [[raw|d]|] eqn:Hf; simpl; rewrite ?Hf; simpl;
    [call_done | | call_done].
  destruct (dir_writable w); simpl; [|call_done].
  destruct (find_theme (primary_spaces d)) as [theme|]; simpl; [|call_done].
  destruct (assign_spaces _ d) as [d1|e]; simpl; [|call_done].
  destruct (assign_items _ d1) as [d2|e]; simpl; [|call_done].
  destruct (file_writable w); simpl; call_done.
Qed.

Lemma addTab_call n url title pin w :
  exists r w', addTab n url title pin w = (Returned r, w') /\
    uuid_source w' = uuid_source w /\
    if success r
    then (exists i, ident r = Some (toUpperCase (uuid_source w i))) /\
         writes w' = S (writes w)
    else writes w' = writes w.
Proof.
  unfold addTab, try_catch, bind, loadSidebar, createBackup, bind, readFileSync,
    lift, Date_now, copyFileSync, ret, report, saveSidebar, writeFileSync, newId,
    randomUUID, bind, ret.
  destruct (sidebar_file w) as [[raw|d]|] eqn:Hf; simpl; rewrite ?Hf; simpl;
    [call_done | | call_done].
  destruct (dir_writable w); simpl; [|call_done].
  destruct (findSpace n (primary_spaces d)) as [[k item]|]; simpl; [|call_done].
  destruct (truthy (space_id item)); simpl; [|call_done].
  destruct (truthy_opt (select_container pin (structural_ids item))); simpl; [|call_done].
  destruct (assign_items _ d) as [d1|e]; simpl; [|call_done].
  destruct (file_writable w); simpl; call_done.
Qed.

Lemma addTabs_accounting sid urls : forall acc w,
  (forall i, truthy (uuid_source w i) = true) ->
  exists ids w', addTabs sid urls acc w = (Returned (acc ++ ids), w') /\
    (List.length ids <= List.length urls)%nat /\
    writes w' = (writes w + List.length ids)%nat.
Proof.
  induction urls as [|u rest IH]; intros acc w Hu; simpl.
  - exists [], w. rewrite app_nil_r. repeat split; simpl; lia.
  - unfold bind.
    destruct (addTab_call sid (spec_url u) (spec_title u) false w)
      as (r & w1 & -> & Hsrc & Hr).
    assert (Hu1 : forall i, truthy (uuid_source w1 i) = true) by (by rewrite Hsrc).
    destruct (success r) eqn:Hs; simpl.
    + destruct Hr as [[i Hi] Hw]. rewrite Hi. simpl truthy_opt.
      rewrite toUpperCase_truthy, Hu. simpl default.
      destruct (IH (acc ++ [toUpperCase (uuid_source w i)]) w1 Hu1)
        as (ids & w' & -> & Hlen & Hwr).
      exists (toUpperCase (uuid_source w i) :: ids), w'. rewrite <- app_assoc.
      repeat split; simpl; lia.
    + destruct (IH acc w1 Hu1) as (ids & w' & -> & Hlen & Hwr).
      exists ids, w'. repeat split; simpl; lia.
Qed.

(** X15. [createWorkspace] never throws and reports success as soon as the
    space was made, whether or not every tab could be added. With a UUID
    source that yields no empty identifier: when it reports success,
    [createSpace] succeeded with the first identifier drawn, the result
    carries that identifier and a list of at most as many tab ids as urls
    were given, and the file was written once for the space and once for
    each listed tab; when it reports failure, [createSpace] failed, the
    world is the one [createSpace] left with no write made, and no tab was
    attempted. *)
Theorem createWorkspace_accounting w name urls ic :
  (forall i, truthy (uuid_source w i) = true) ->
  exists r w', createWorkspace name urls ic w = (Returned r, w') /\
    if ws_success r
    then fst (createSpace name (Some (default wrench ic)) w)
           = Returned (ok_id (drawn_id w 0)) /\
         ws_spaceId r = Some (drawn_id w 0) /\ ws_error r = None /\
         exists ids, ws_tabIds r = Some ids /\
           (List.length ids <= List.length urls)%nat /\
           writes w' = (writes w + 1 + List.length ids)%nat
    else exists r0, createSpace name (Some (default wrench ic)) w = (Returned r0, w') /\
           success r0 = false /\ writes w' = writes w /\
           ws_spaceId r = None /\ ws_tabIds r = None /\
           ws_error r = Some (opt_or_str (error r0) "Failed to create space").
Proof.
  intros Hu. unfold createWorkspace. cbv zeta. unfold bind.
  destruct (createSpace_call name (Some (default wrench ic)) w)
    as (r0 & w1 & -> & Hsrc & Hr0).
  destruct (success r0) eqn:Hs; simpl.
  - destruct Hr0 as [-> Hw1]. simpl.
    replace (truthy (drawn_id w 0)) with true
      by (unfold drawn_id; by rewrite toUpperCase_truthy, Hu).
    simpl.
    assert (Hu1 : forall i, truthy (uuid_source w1 i) = true) by (by rewrite Hsrc).
    destruct (addTabs_accounting (drawn_id w 0) urls [] w1 Hu1)
      as (ids & w' & -> & Hlen & Hwr).
    eexists _, w'. split; [reflexivity|]. simpl.
    repeat split. exists ids. repeat split; [done|lia].
  - destruct Hr0 as [Hw1 _]. eexists _, w1. split; [reflexivity|]. simpl.
    exists r0. by repeat split.
Qed.

Lemma createWorkspace_accounting_witness :
  exists r w',
    createWorkspace "Dev" [mkUrlSpec "https://example.org" None;
                           mkUrlSpec "https://example.com" (Some "Example")] None
      demo_world = (Returned r, w') /\
    if ws_success r
    then fst (createSpace "Dev" (Some (default wrench None)) demo_world)
           = Returned (ok_id (drawn_id demo_world 0)) /\
         ws_spaceId r = Some (drawn_id demo_world 0) /\ ws_error r = None /\
         exists ids, ws_tabIds r = Some ids /\
           (List.length ids <= 2)%nat /\
           writes w' = (writes demo_world + 1 + List.length ids)%nat
    else exists r0, createSpace "Dev" (Some (default wrench None)) demo_world
                      = (Returned r0, w') /\
           success r0 = false /\ writes w' = writes demo_world /\
           ws_spaceId r = None /\ ws_tabIds r = None /\
           ws_error r = Some (opt_or_str (error r0) "Failed to create space").
Proof.
  apply (createWorkspace_accounting demo_world "Dev"
           [mkUrlSpec "https://example.org" None;
            mkUrlSpec "https://example.com" (Some "Example")] None).
  intros [|[|i]]; reflexivity.
Defined.

(** ** [createWorkspace]: the space it fills *)

Lemma drawn_ids_shift w w1 j from n :
  uuid_source w1 = uuid_source w -> uuid_draws w1 = (j + uuid_draws w)%nat ->
  drawn_ids w1 from n = drawn_ids w (j + from) n.
Proof.
  intros Hs Hd. unfold drawn_ids. revert from. induction n as [|n IH]; intros from; [done|].
  simpl. rewrite IH. replace (S (j + from)) with (j + S from)%nat by lia.
  f_equal. unfold drawn_id. rewrite Hs, Hd. do 2 f_equal. lia.
Qed.

Lemma addTabs_fill sid s k u urls : forall acc w d,
  sidebar_file w = Some (Json d) -> dir_writable w = true -> file_writable w = true ->
  findSpace sid (primary_spaces d) = Some (k, s) -> truthy (space_id s) = true ->
  select_container false (structural_ids s) = Some u -> truthy u = true ->
  NoDup (item_ids (primary_items d)) -> u ∈ item_ids (primary_items d) ->
  NoDup (drawn_ids w 0 (List.length urls)) ->
  Forall (fun id => truthy id = true /\ id ∉ item_ids (primary_items d))
    (drawn_ids w 0 (List.length urls)) ->
  exists w' d',
    addTabs sid urls acc w = (Returned (acc ++ drawn_ids w 0 (List.length urls)), w') /\
    sidebar_file w' = Some (Json d') /\
    primary_spaces d' = primary_spaces d /\
    (forall r, buildItemMap (primary_items d) !! u = Some r ->
       exists r', buildItemMap (primary_items d') !! u = Some r' /\
         default [] (childrenIds r') =
           default [] (childrenIds r) ++ drawn_ids w 0 (List.length urls)) /\
    (forall depth,
       buildChildren (buildTree (S depth) (buildItemMap (primary_items d')))
         (drawn_ids w 0 (List.length urls))
       = Returned (url_leaves (drawn_ids w 0 (List.length urls)) urls)) /\
    (forall k', k' <> u -> k' ∉ drawn_ids w 0 (List.length urls) ->
       buildItemMap (primary_items d') !! k' = buildItemMap (primary_items d) !! k').
Proof.
  induction urls as [|u0 rest IH]; intros acc w d Hf Hd Hw Hfind Hid Hsel Hu Hnd Hin Hids Hfresh.
  - exists w, d. simpl. rewrite app_nil_r. repeat split; try done.
    intros r Hr. exists r. by rewrite app_nil_r.
  - simpl List.length in *. change (drawn_ids w 0 (S (List.length rest)))
      with (drawn_id w 0 :: drawn_ids w 1 (List.length rest)) in *.
    apply NoDup_cons in Hids as [Hhead Hids].
    apply Forall_cons in Hfresh as [[Ht0 Hf0] Hfresh].
    destruct (addTab_success w d sid k s (spec_url u0) (spec_title u0) false u
                Hf Hd Hw Hfind Hid Hsel Hu) as (d1 & Heq & Hits & Hsp & _).
    cbv zeta in Hits.
    set (tid := drawn_id w 0) in *.
    set (tabObj := new_tab tid u (spec_url u0) (spec_title u0) (getDeviceId d)
                     (clock w (S (clock_reads w)))) in *.
    set (w1 := with_file (Json d1) (tick_clock (tick_uuid (after_backup w (Json d))))) in *.
    assert (Hnext : drawn_ids w1 0 (List.length rest) = drawn_ids w 1 (List.length rest))
      by (by apply (drawn_ids_shift w w1 1)).
    assert (Htid : item_id tabObj = tid) by done.
    assert (Hne : tid <> u) by (intros Heq'; apply Hf0; by rewrite Heq').
    destruct (IH (acc ++ [tid]) w1 d1) as (w' & d' & Hrun & Hf' & Hsp' & Hcont & Hkids & Hother).
    { done. } { done. } { done. } { by rewrite Hsp. } { done. } { done. } { done. }
    { rewrite Hits. by apply addTab_NoDup. }
    { rewrite Hits, addTab_item_ids by done. apply elem_of_app. by left. }
    { by rewrite Hnext. }
    { rewrite Hnext. apply Forall_forall. intros x Hx.
      split; [by apply (proj1 (Forall_forall _ _) Hfresh x Hx)|].
      rewrite Hits, addTab_item_ids by done. intros [Hx'|Hx']%elem_of_app.
      - by apply (proj1 (Forall_forall _ _) Hfresh x Hx).
      - apply list_elem_of_singleton in Hx' as ->. done. }
    rewrite Hnext in Hrun, Hcont, Hkids, Hother.
    exists w', d'. simpl addTabs. unfold bind. rewrite Heq. simpl success. simpl ident.
    simpl truthy_opt. rewrite Ht0. simpl default. cbv iota. simpl andb. cbv iota.
    rewrite Hrun, <- app_assoc. split; [done|]. split; [done|].
    split; [by rewrite Hsp', Hsp|].
    assert (Hnew : buildItemMap (primary_items d') !! tid = Some tabObj).
    { rewrite Hother by done. rewrite Hits. by apply lookup_new_tab. }
    split; [|split].
    + intros r Hr.
      destruct (lookup_container (primary_items d) u tid tabObj Hnd Hin Hf0 Htid)
        as (r0 & Hr0 & Hr1).
      rewrite Hr in Hr0. injection Hr0 as <-. rewrite <- Hits in Hr1.
      destruct (Hcont _ Hr1) as (r' & Hr' & Hch). exists r'. split; [done|].
      rewrite Hch. simpl. by rewrite <- app_assoc.
    + intros depth.
      unfold url_leaves. simpl zip_with.
      rewrite <- (tab_leaf_new_tab tid u (spec_url u0) (spec_title u0) (getDeviceId d)
                    (clock w (S (clock_reads w)))).
      fold tabObj. fold (url_leaves (drawn_ids w 1 (List.length rest)) rest).
      change (tid :: drawn_ids w 1 (List.length rest))
        with ([tid] ++ drawn_ids w 1 (List.length rest)).
      rewrite buildChildren_app, buildChildren_singleton, buildTree_S, Hnew.
      change (getItemType tabObj) with tab_type. cbv iota. by rewrite Hkids.
    + intros k' Hk1 Hk2. apply not_elem_of_cons in Hk2 as [Hk2 Hk3].
      rewrite Hother by done. rewrite Hits. by apply lookup_other.
Qed.

Lemma item_ids_two_containers its p pc u uc :
  item_id pc = p -> item_id uc = u ->
  item_ids (its ++ [Token p; Obj pc; Token u; Obj uc]) = item_ids its ++ [p; u].
Proof.
  intros <- <-. by rewrite item_ids_app, item_ids_cons_token, item_ids_cons_obj,
    item_ids_cons_token, item_ids_cons_obj.
Qed.

(** X16. [createWorkspace] fills the space it makes. On a document that
    loads and can be written, has a theme to copy and unique item ids, when
    no earlier space answers to the first identifier drawn and the
    identifiers drawn are distinct, non-empty and name no item, the call
    succeeds with that first identifier as the space id and the later draws
    as tab ids, one for each url in order; and the nested listing of the new
    space then shows its name, nothing pinned, and under unpinned exactly
    one tab for each url, in the order given, titled with the title that
    was given when it is non-empty, else with the url, else "Untitled". *)
Theorem createWorkspace_fills_new_space w d name urls ic theme :
  sidebar_file w = Some (Json d) -> dir_writable w = true -> file_writable w = true ->
  find_theme (primary_spaces d) = Some theme ->
  Forall (no_match (drawn_id w 0)) (primary_spaces d) ->
  NoDup (item_ids (primary_items d)) ->
  NoDup (drawn_ids w 0 (3 + List.length urls)) ->
  Forall (fun id => truthy id = true /\ id ∉ item_ids (primary_items d))
    (drawn_ids w 0 (3 + List.length urls)) ->
  exists w',
    createWorkspace name urls ic w =
      (Returned {| ws_success := true; ws_spaceId := Some (drawn_id w 0);
                   ws_tabIds := Some (drawn_ids w 3 (List.length urls));
                   ws_error := None |}, w') /\
    forall depth,
      listTabs (S depth) (Some (drawn_id w 0)) w' =
        (Returned (Some {| spaceId := drawn_id w 0; spaceTitle := name; pinned := [];
                           unpinned := url_leaves (drawn_ids w 3 (List.length urls)) urls |}),
         w').
Proof.
  intros Hf Hd Hw Ht Hfree Hnd Hids Hfresh.
  change (drawn_ids w 0 (3 + List.length urls))
    with (drawn_id w 0 :: drawn_id w 1 :: drawn_id w 2 :: drawn_ids w 3 (List.length urls))
    in Hids, Hfresh.
  apply NoDup_cons in Hids as [_ Hids]. apply NoDup_cons in Hids as [Hpu Hids].
  apply NoDup_cons in Hids as [Hut Hids].
  apply Forall_cons in Hfresh as [[Hs0 _] Hfresh].
  apply Forall_cons in Hfresh as [[_ Hp0] Hfresh].
  apply Forall_cons in Hfresh as [[Hu0 Hu1] Hfresh].
  destruct (createSpace_success w d name (Some (default wrench ic)) theme Hf Hd Hw Ht)
    as (d1 & Heq & Hsp1 & Hit1 & _).
  cbv zeta in Hsp1, Hit1. simpl default in Hsp1.
  set (sid := drawn_id w 0) in *. set (p := drawn_id w 1) in *. set (u := drawn_id w 2) in *.
  set (s_new := new_space sid name (default wrench ic) p u theme) in *.
  set (ts := clock w (S (clock_reads w))) in *.
  set (pc := new_container p sid (getDeviceId d) ts) in *.
  set (uc := new_container u sid (getDeviceId d) ts) in *.
  set (w1 := with_file (Json d1)
               (tick_clock (tick_uuid (tick_uuid (tick_uuid (after_backup w (Json d))))))) in *.
  assert (Hshift : drawn_ids w1 0 (List.length urls) = drawn_ids w 3 (List.length urls))
    by (by apply (drawn_ids_shift w w1 3)).
  assert (Hpne : p <> u) by (intros Heq'; apply Hpu; rewrite Heq'; left).
  assert (Hids1 : item_ids (primary_items d1) = item_ids (primary_items d) ++ [p; u])
    by (rewrite Hit1; by apply item_ids_two_containers).
  assert (Hnd1 : NoDup (item_ids (primary_items d1))).
  { rewrite Hids1. apply NoDup_app. split; [done|]. split.
    - intros x Hx [-> | [-> | ?%elem_of_nil]%elem_of_cons]%elem_of_cons; done.
    - apply NoDup_cons. split; [|apply NoDup_singleton].
      intros ?%list_elem_of_singleton. done. }
  assert (Hfind : findSpace sid (primary_spaces d1)
                  = Some (S (List.length (primary_spaces d)), s_new)).
  { apply findSpace_spec. exists (primary_spaces d ++ [Token sid]), [].
    rewrite Hsp1, <- app_assoc. split; [done|].
    split; [rewrite length_app; simpl; lia|].
    split; [apply space_matches_spec; by left|].
    apply Forall_app. split; [done | by repeat constructor]. }
  assert (Hstruct : structural_ids s_new = [p; u])
    by apply structural_ids_new_space.
  destruct (addTabs_fill sid s_new (S (List.length (primary_spaces d))) u urls [] w1 d1) as
    (w' & d' & Hrun & Hf' & Hsp' & Hcont & Hkids & Hother); try done.
  { by rewrite Hstruct. }
  { rewrite Hids1. apply elem_of_app. right. right. left. }
  { by rewrite Hshift. }
  { rewrite Hshift. apply Forall_forall. intros x Hx.
    split; [by apply (proj1 (Forall_forall _ _) Hfresh x Hx)|].
    rewrite Hids1. intros [Hx'|Hx']%elem_of_app.
    - by apply (proj1 (Forall_forall _ _) Hfresh x Hx).
    - apply elem_of_cons in Hx' as [-> | Hx'].
      + apply Hpu. by right.
      + apply list_elem_of_singleton in Hx' as ->. done. }
  rewrite Hshift in Hrun, Hcont, Hkids, Hother.
  exists w'. unfold createWorkspace. cbv zeta. unfold bind. rewrite Heq.
  change (truthy_opt (ident (ok_id sid))) with (truthy sid). rewrite Hs0.
  change (negb (success (ok_id sid)) || negb true) with false. cbv iota.
  change (default "" (ident (ok_id sid))) with sid. cbv beta. rewrite Hrun. split; [done|].
  intros depth. rewrite (listTabs_run (S depth) (Some sid) w' d' Hf').
  rewrite (findTarget_findSpaceFrom sid _ 0 Hs0), Hsp'. fold (findSpace sid (primary_spaces d1)).
  rewrite Hfind. simpl fmap. cbv zeta. cbv iota. rewrite Hstruct.
  change ([p; u] !! 0%nat) with (Some p). change ([p; u] !! 1%nat) with (Some u).
  assert (Hmp : buildItemMap (primary_items d') !! p = Some pc).
  { rewrite Hother; [| done | intros Hin; apply Hpu; by right].
    apply buildItemMap_NoDup; [done|]. split; [|done].
    rewrite Hit1. apply elem_of_app. right. right. left. }
  assert (Hmu : buildItemMap (primary_items d1) !! u = Some uc).
  { apply buildItemMap_NoDup; [done|]. split; [|done].
    rewrite Hit1. apply elem_of_app. right. do 3 right. left. }
  destruct (Hcont _ Hmu) as (r' & Hr' & Hch).
  unfold buildBucket. rewrite Hmp, Hr', Hch.
  change (default [] (childrenIds uc) ++ drawn_ids w 3 (List.length urls))
    with (drawn_ids w 3 (List.length urls)).
  by rewrite Hkids.
Qed.

Lemma createWorkspace_fills_new_space_witness :
  exists w',
    createWorkspace "Dev" demo_urls None serial_world =
      (Returned {| ws_success := true; ws_spaceId := Some "U";
                   ws_tabIds := Some ["000U"; "0000U"]; ws_error := None |}, w') /\
    forall depth,
      listTabs (S depth) (Some "U") w' =
        (Returned (Some {| spaceId := "U"; spaceTitle := "Dev"; pinned := [];
                           unpinned :=
                             [TabNode "000U" "https://example.org" "https://example.org";
                              TabNode "0000U" "Example" "https://example.com"] |}),
         w').
Proof.
  apply (createWorkspace_fills_new_space serial_world demo_doc "Dev" demo_urls None
           "theme-blue"); try reflexivity; try compute_done.
  repeat constructor.
Defined.

(** ** The flat listing: which tabs it shows *)

Lemma containerToSpace_snoc l e :
  containerToSpace (l ++ [e]) =
    let m := containerToSpace l in
    match e with
    | Obj s =>
        if truthy (space_id s) then
          match containerIDs s with
          | Some ids =>
              let cs := List.filter not_marker ids in
              let m1 := if truthy_opt (cs !! 0%nat)
                        then <[default "" (cs !! 0%nat) := (space_id s, true)]> m
                        else m in
              if truthy_opt (cs !! 1%nat)
              then <[default "" (cs !! 1%nat) := (space_id s, false)]> m1
              else m1
          | None => m
          end
        else m
    | Token _ => m
    end.
Proof. unfold containerToSpace. by rewrite foldl_app. Qed.

(** Every entry of the map comes from a space record with a non-empty id
    that names the key as its first (pinned) or second (unpinned) container. *)
Lemma containerToSpace_sound (l : list (Entry SpaceObject)) (p sid : string) (b : bool) :
  containerToSpace l !! p = Some (sid, b) ->
  truthy sid = true /\ truthy p = true /\
  exists s : SpaceObject, Obj s ∈ l /\ space_id s = sid /\
    structural_ids s !! (if b then 0%nat else 1%nat) = Some p.
Proof.
  induction l as [|e l IH] using rev_ind.
  - unfold containerToSpace. simpl. by rewrite lookup_empty.
  - rewrite containerToSpace_snoc. cbv zeta.
    assert (Hold : containerToSpace l !! p = Some (sid, b) ->
              truthy sid = true /\ truthy p = true /\
              exists s, Obj s ∈ l ++ [e] /\ space_id s = sid /\
                structural_ids s !! (if b then 0%nat else 1%nat) = Some p).
    { intros H. destruct (IH H) as (H1 & H2 & s & Hs & H3). repeat split; try done.
      exists s. split; [apply elem_of_app; by left | done]. }
    destruct e as [t|s]; [done|].
    destruct (truthy (space_id s)) eqn:Hid; [|done].
    destruct (containerIDs s) as [ids|] eqn:Hids; [|done].
    assert (Hst : structural_ids s = List.filter not_marker ids)
      by (unfold structural_ids; by rewrite Hids).
    assert (Hnew : forall i k, List.filter not_marker ids !! i = Some k -> truthy k = true ->
              (i = 0%nat /\ b = true) \/ (i = 1%nat /\ b = false) -> sid = space_id s -> p = k ->
              truthy sid = true /\ truthy p = true /\
              exists s', Obj s' ∈ l ++ [Obj s] /\ space_id s' = sid /\
                structural_ids s' !! (if b then 0%nat else 1%nat) = Some p).
    { intros i k Hk Htk Hib -> ->. repeat split; try done. exists s.
      split; [apply elem_of_app; right; left|]. split; [done|]. rewrite Hst.
      by destruct Hib as [[-> ->]|[-> ->]]. }
    destruct (truthy_opt (List.filter not_marker ids !! 1%nat)) eqn:H1;
      destruct (truthy_opt (List.filter not_marker ids !! 0%nat)) eqn:H0;
      try (apply truthy_opt_Some in H1 as (k1 & Hk1 & Ht1));
      try (apply truthy_opt_Some in H0 as (k0 & Hk0 & Ht0));
      rewrite ?Hk1, ?Hk0; simpl default.
    + destruct (decide (p = k1)) as [->|Hne1].
      * rewrite lookup_insert_eq. intros [= <- <-].
        apply (Hnew 1%nat k1); [done | done | by right | done | done].
      * rewrite lookup_insert_ne by done. destruct (decide (p = k0)) as [->|Hne0].
        -- rewrite lookup_insert_eq. intros [= <- <-].
           apply (Hnew 0%nat k0); [done | done | by left | done | done].
        -- by rewrite lookup_insert_ne.
    + destruct (decide (p = k1)) as [->|Hne1].
      * rewrite lookup_insert_eq. intros [= <- <-].
        apply (Hnew 1%nat k1); [done | done | by right | done | done].
      * by rewrite lookup_insert_ne.
    + destruct (decide (p = k0)) as [->|Hne0].
      * rewrite lookup_insert_eq. intros [= <- <-].
        apply (Hnew 0%nat k0); [done | done | by left | done | done].
      * by rewrite lookup_insert_ne.
    + done.
Qed.

Lemma containerToSpace_mono l e p :
  is_Some (containerToSpace l !! p) -> is_Some (containerToSpace (l ++ [e]) !! p).
Proof.
  intros H. rewrite containerToSpace_snoc. cbv zeta. destruct e as [t|s]; [done|].
  destruct (truthy (space_id s)); [|done]. destruct (containerIDs s) as [ids|]; [|done].
  cbv zeta.
  destruct (truthy_opt (List.filter not_marker ids !! 1%nat));
    destruct (truthy_opt (List.filter not_marker ids !! 0%nat));
    rewrite ?lookup_insert_is_Some'; tauto.
Qed.

(** Every first or second container of a space record with a non-empty id
    has an entry, when its own id is non-empty. *)
Lemma containerToSpace_complete l p s :
  Obj s ∈ l -> truthy (space_id s) = true -> truthy p = true ->
  structural_ids s !! 0%nat = Some p \/ structural_ids s !! 1%nat = Some p ->
  is_Some (containerToSpace l !! p).
Proof.
  intros Hin Hid Hp Hpos. induction l as [|e l IH] using rev_ind.
  - by apply elem_of_nil in Hin.
  - apply elem_of_app in Hin as [Hin|Hin]; [by apply containerToSpace_mono, IH|].
    apply list_elem_of_singleton in Hin as <-.
    rewrite containerToSpace_snoc. cbv zeta. rewrite Hid.
    unfold structural_ids in Hpos.
    destruct (containerIDs s) as [ids|]; [|simpl in Hpos; by destruct Hpos].
    simpl default in Hpos. cbv zeta.
    destruct Hpos as [H0|H1].
    + rewrite H0. simpl truthy_opt. rewrite Hp. simpl default.
      destruct (truthy_opt (List.filter not_marker ids !! 1%nat));
        rewrite ?lookup_insert_is_Some'; tauto.
    + rewrite H1. simpl truthy_opt. rewrite Hp. simpl default.
      rewrite lookup_insert_is_Some'. tauto.
Qed.

Lemma collect_tabs_elem (c2s : gmap string (string * bool)) (l : list (Entry ItemObject))
    (t : Tab) :
  t ∈ collect_tabs c2s None l <->
  exists (it : ItemObject) td p sid (b : bool),
    Obj it ∈ l /\ item_tab it = Some td /\ parentID it = Some p /\ truthy p = true /\
    c2s !! p = Some (sid, b) /\
    t = {| tab_id := item_id it; tab_title := tab_display_title td;
           tab_url := tab_display_url td;
           location := if b then pinned_loc else unpinned_loc;
           tab_spaceId := sid |}.
Proof.
  induction l as [|e r IH].
  - simpl. split; [by intros ?%elem_of_nil|]. by intros (it & ? & ? & ? & ? & ?%elem_of_nil & _).
  - assert (Hskip : t ∈ collect_tabs c2s None r <->
              exists (it : ItemObject) td p sid (b : bool),
                Obj it ∈ r /\ item_tab it = Some td /\ parentID it = Some p /\
                truthy p = true /\ c2s !! p = Some (sid, b) /\
                t = {| tab_id := item_id it; tab_title := tab_display_title td;
                       tab_url := tab_display_url td;
                       location := if b then pinned_loc else unpinned_loc;
                       tab_spaceId := sid |}) by exact IH.
    clear IH. destruct e as [tok|o]; simpl collect_tabs.
    + rewrite Hskip. split.
      * intros (it & td & p & sid & b & Hin & H). exists it, td, p, sid, b.
        split; [by right | done].
      * intros (it & td & p & sid & b & [Heq|Hin]%elem_of_cons & H); [discriminate|].
        by exists it, td, p, sid, b.
    + assert (Hpass : t ∈ collect_tabs c2s None r ->
                exists (it : ItemObject) td p sid (b : bool),
                  Obj it ∈ Obj o :: r /\ item_tab it = Some td /\ parentID it = Some p /\
                  truthy p = true /\ c2s !! p = Some (sid, b) /\
                  t = {| tab_id := item_id it; tab_title := tab_display_title td;
                         tab_url := tab_display_url td;
                         location := if b then pinned_loc else unpinned_loc;
                         tab_spaceId := sid |}).
      { intros (it & td & p & sid & b & Hin & H)%Hskip. exists it, td, p, sid, b.
        split; [by right | done]. }
      destruct (item_tab o) as [td0|] eqn:Htd; [destruct (parentID o) as [p0|] eqn:Hp0;
        [destruct (truthy p0) eqn:Htp; [destruct (c2s !! p0) as [[sid0 b0]|] eqn:Hc|]|]|].
      2-5: split; [exact Hpass|];
        intros (it & td & p & sid & b & [Heq|Hin]%elem_of_cons & H1 & H2 & H3 & H4 & ->);
        [injection Heq as ->; congruence | apply Hskip; by exists it, td, p, sid, b].
      rewrite elem_of_cons. split.
      * intros [->|Ht]; [|by apply Hpass].
        exists o, td0, p0, sid0, b0. repeat split; try done. left.
      * intros (it & td & p & sid & b & [Heq|Hin]%elem_of_cons & H1 & H2 & H3 & H4 & ->).
        -- injection Heq as ->. left. rewrite Htd in H1. rewrite Hp0 in H2.
           injection H1 as <-. injection H2 as <-. rewrite Hc in H4. by injection H4 as <- <-.
        -- right. apply Hskip. by exists it, td, p, sid, b.
Qed.

Lemma collect_tabs_sublist c2s target l :
  sublist (tab_id <$> collect_tabs c2s target l) (item_ids l).
Proof.
  induction l as [|e r IH]; [done|]. destruct e as [tok|o]; [exact IH|].
  rewrite item_ids_cons_obj. simpl collect_tabs.
  assert (Hskip : sublist (tab_id <$> collect_tabs c2s target r) (item_id o :: item_ids r))
    by (by apply sublist_cons).
  destruct (item_tab o) as [td|]; [|exact Hskip].
  destruct (parentID o) as [p|]; [|exact Hskip].
  destruct (truthy p); [|exact Hskip].
  destruct (c2s !! p) as [[sid b]|]; [|exact Hskip].
  destruct (match target with Some _ => _ | None => _ end); [exact Hskip|].
  csimpl. by apply sublist_skip.
Qed.

Lemma List_filter_none {A} (f : A -> bool) l :
  Forall (fun x => f x = false) l -> List.filter f l = [].
Proof. induction 1 as [|x r Hx _ IH]; simpl; [done|]. by rewrite Hx. Qed.

Lemma collect_tabs_target c2s sid l :
  truthy sid = true ->
  collect_tabs c2s (Some sid) l =
    List.filter (fun t => str_eq (tab_spaceId t) sid) (collect_tabs c2s None l).
Proof.
  intros Hsid. induction l as [|e r IH]; [done|]. destruct e as [tok|o]; [exact IH|].
  simpl collect_tabs.
  destruct (item_tab o) as [td|]; [|exact IH].
  destruct (parentID o) as [p|]; [|exact IH].
  destruct (truthy p); [|exact IH].
  destruct (c2s !! p) as [[s b]|]; [|exact IH].
  rewrite Hsid. simpl. destruct (str_eq s sid); simpl; by rewrite IH.
Qed.

Lemma listTabsFlat_all w d :
  sidebar_file w = Some (Json d) ->
  listTabsFlat None w =
    (Returned (collect_tabs (containerToSpace (primary_spaces d)) None (primary_items d)), w).
Proof.
  intros Hf. unfold listTabsFlat, loadSidebar, bind, readFileSync, lift, ret. by rewrite Hf.
Qed.

(** X17. What the flat listing of all spaces shows. Each listed tab is a
    record of the item list with a tab payload, shown with that record's id
    and the payload's title and url, whose parent is the first (pinned) or
    second (unpinned) container of a space record with a non-empty id, the
    space it is listed under; so a tab inside a folder is not listed.
    Conversely every tab record whose parent is such a container is listed;
    and the listing keeps the storage order of the item list. *)
Theorem listTabsFlat_shows w d :
  sidebar_file w = Some (Json d) ->
  exists all, listTabsFlat None w = (Returned all, w) /\
    (forall t, t ∈ all ->
       exists it td p s,
         Obj it ∈ primary_items d /\ item_id it = tab_id t /\ item_tab it = Some td /\
         tab_title t = tab_display_title td /\ tab_url t = tab_display_url td /\
         parentID it = Some p /\
         Obj s ∈ primary_spaces d /\ space_id s = tab_spaceId t /\
         truthy (space_id s) = true /\
         structural_ids s !! (match location t with
                              | pinned_loc => 0%nat
                              | unpinned_loc => 1%nat
                              end) = Some p) /\
    (forall it td p s,
       Obj it ∈ primary_items d -> item_tab it = Some td -> parentID it = Some p ->
       truthy p = true ->
       Obj s ∈ primary_spaces d -> truthy (space_id s) = true ->
       structural_ids s !! 0%nat = Some p \/ structural_ids s !! 1%nat = Some p ->
       exists t, t ∈ all /\ tab_id t = item_id it) /\
    sublist (tab_id <$> all) (item_ids (primary_items d)).
Proof.
  intros Hf. eexists. split; [by apply listTabsFlat_all|]. split; [|split].
  - intros t (it & td & p & sid & b & Hin & Htd & Hp & Htp & Hc & ->)%collect_tabs_elem.
    destruct (containerToSpace_sound _ _ _ _ Hc) as (Hsid & _ & s & Hs & Hsid' & Hpos).
    exists it, td, p, s. simpl. repeat split; try done; [congruence|].
    by destruct b.
  - intros it td p s Hin Htd Hp Htp Hs Hsid Hpos.
    destruct (containerToSpace_complete _ _ _ Hs Hsid Htp Hpos) as [[sid b] Hc].
    eexists. split; [apply collect_tabs_elem; by exists it, td, p, sid, b | done].
  - apply collect_tabs_sublist.
Qed.

Lemma listTabsFlat_shows_witness :
  exists all, listTabsFlat None demo_world = (Returned all, demo_world) /\
    (forall t, t ∈ all ->
       exists it td p s,
         Obj it ∈ primary_items demo_doc /\ item_id it = tab_id t /\ item_tab it = Some td /\
         tab_title t = tab_display_title td /\ tab_url t = tab_display_url td /\
         parentID it = Some p /\
         Obj s ∈ primary_spaces demo_doc /\ space_id s = tab_spaceId t /\
         truthy (space_id s) = true /\
         structural_ids s !! (match location t with
                              | pinned_loc => 0%nat
                              | unpinned_loc => 1%nat
                              end) = Some p) /\
    (forall it td p s,
       Obj it ∈ primary_items demo_doc -> item_tab it = Some td -> parentID it = Some p ->
       truthy p = true ->
       Obj s ∈ primary_spaces demo_doc -> truthy (space_id s) = true ->
       structural_ids s !! 0%nat = Some p \/ structural_ids s !! 1%nat = Some p ->
       exists t, t ∈ all /\ tab_id t = item_id it) /\
    sublist (tab_id <$> all) (item_ids (primary_items demo_doc)).
Proof. apply (listTabsFlat_shows demo_world demo_doc). reflexivity. Defined.

(** X18. Naming a space restricts the flat listing, it does not change it.
    With a non-empty argument that resolves to a space, the listing is the
    listing of all spaces cut down to the tabs listed under that space's
    id, in the same order; with an argument that resolves to no space it is
    empty; with the empty string it is the listing of all spaces. *)
Theorem listTabsFlat_restricts q w d :
  sidebar_file w = Some (Json d) ->
  exists all, listTabsFlat None w = (Returned all, w) /\
    listTabsFlat (Some q) w =
      (Returned
         (if truthy q
          then match findSpace q (primary_spaces d) with
               | Some (_, s) =>
                   List.filter (fun t => str_eq (tab_spaceId t) (space_id s)) all
               | None => []
               end
          else all), w).
Proof.
  intros Hf. eexists. split; [by apply listTabsFlat_all|].
  unfold listTabsFlat, loadSidebar, bind, readFileSync, lift, ret. rewrite Hf. simpl.
  destruct (truthy q); [|done].
  destruct (findSpace q (primary_spaces d)) as [[k s]|]; [|done].
  destruct (truthy (space_id s)) eqn:Hs.
  - by rewrite collect_tabs_target.
  - do 2 f_equal. symmetry. apply List_filter_none. apply Forall_forall.
    intros t (it & td & p & sid & b & _ & _ & _ & _ & Hc & ->)%collect_tabs_elem.
    destruct (containerToSpace_sound _ _ _ _ Hc) as (Hsid & _).
    simpl. apply str_eq_false. intros ->. congruence.
Qed.

Lemma listTabsFlat_restricts_witness :
  exists all, listTabsFlat None demo_world = (Returned all, demo_world) /\
    listTabsFlat (Some "Work") demo_world =
      (Returned
         (if truthy "Work"
          then match findSpace "Work" (primary_spaces demo_doc) with
               | Some (_, s) =>
                   List.filter (fun t => str_eq (tab_spaceId t) (space_id s)) all
               | None => []
               end
          else all), demo_world).
Proof. apply (listTabsFlat_restricts "Work" demo_world demo_doc). reflexivity. Defined.

(** ** The token and record pairs of the ledgers *)

Lemma paired_app {A} (id_of : A -> string) l l' :
  paired id_of l -> paired id_of l' -> paired id_of (l ++ l').
Proof. induction 1; intros Hl'; simpl; [done|]. constructor; auto. Qed.

Lemma paired_filter {A} (id_of : A -> string) (f : Entry A -> bool) l :
  (forall a, f (Token (id_of a)) = f (Obj a)) ->
  paired id_of l -> paired id_of (List.filter f l).
Proof.
  intros Hf. induction 1 as [|i a l Hi _ IH]; simpl; [constructor|].
  rewrite <- Hi, Hf. destruct (f (Obj a)); [by constructor | done].
Qed.

Lemma paired_push_child cid tid l :
  paired item_id l -> paired item_id (push_child cid tid l).
Proof.
  induction 1 as [|i a l Hi Hl IH]; simpl; [constructor|].
  destruct (str_eq (item_id a) cid); by constructor.
Qed.

Lemma paired_detach_child pid tid l :
  paired item_id l -> paired item_id (detach_child pid tid l).
Proof.
  induction 1 as [|i a l Hi Hl IH]; simpl; [constructor|].
  destruct (str_eq (item_id a) pid); [|by constructor].
  destruct (childrenIds a); by constructor.
Qed.

Lemma paired_fmap_remote {A} (f : list (Entry (Stamped A)) -> list (Entry (Stamped A)))
    (o : option (list (Entry (Stamped A)))) :
  (forall l, paired stamp_id l -> paired stamp_id (f l)) ->
  (forall l, o = Some l -> paired stamp_id l) ->
  forall l, f <$> o = Some l -> paired stamp_id l.
Proof. intros Hf Ho l. destruct o as [l0|]; [|done]. intros [= <-]. by apply Hf, Ho. Qed.

(** ** The calls that change the file *)

Lemma createSpace_cases w d name ic :
  sidebar_file w = Some (Json d) ->
  sidebar_file (snd (createSpace name ic w)) = Some (Json d) \/
  (dir_writable w = true /\ file_writable w = true /\
   exists theme, find_theme (primary_spaces d) = Some theme).
Proof.
  intros Hf.
  destruct (dir_writable w) eqn:Hd; [destruct (file_writable w) eqn:Hw;
    [destruct (find_theme (primary_spaces d)) as [theme|] eqn:Ht;
       [right; do 2 (split; [done|]); by exists theme|]|]|]; left.
  - by rewrite (createSpace_run w d) by done.
  - unfold createSpace, try_catch, bind, loadSidebar, createBackup, bind, readFileSync,
      lift, Date_now, copyFileSync, ret, report, saveSidebar, writeFileSync, newId,
      randomUUID, bind, ret.
    rewrite Hf. cbn. rewrite Hf, Hd.
    destruct (find_theme (primary_spaces d)); [|done].
    destruct (assign_spaces _ d) as [d1|e]; [|done].
    destruct (assign_items _ d1) as [d2|e]; [|done].
    cbn. by rewrite Hw.
  - unfold createSpace, try_catch, bind, loadSidebar, createBackup, bind, readFileSync,
      lift, Date_now, copyFileSync, ret, report.
    rewrite Hf. cbn. by rewrite Hf, Hd.
Qed.

Lemma deleteSpace_cases w d n :
  sidebar_file w = Some (Json d) ->
  sidebar_file (snd (deleteSpace n w)) = Some (Json d) \/
  (dir_writable w = true /\ file_writable w = true /\
   exists k s, findSpace n (primary_spaces d) = Some (k, s) /\ truthy (space_id s) = true).
Proof.
  intros Hf. destruct (dir_writable w) eqn:Hd.
  - rewrite (deleteSpace_run w d) by done. cbv zeta.
    destruct (findSpace n (primary_spaces d)) as [[k s]|]; [|by left].
    destruct (truthy (space_id s)) eqn:Hs; [|by left]. simpl negb. cbv iota.
    destruct (assign_spaces _ d) as [d1|e]; [|by left].
    destruct (assign_items _ d1) as [d2|e]; [|by left].
    destruct (file_writable w); [right | by left].
    do 2 (split; [done|]). by exists k, s.
  - left. unfold deleteSpace, try_catch, bind, loadSidebar, createBackup, bind, readFileSync,
      lift, Date_now, copyFileSync, ret, report.
    rewrite Hf. cbn. by rewrite Hf, Hd.
Qed.

Lemma addTab_cases w d n url title pin :
  sidebar_file w = Some (Json d) ->
  sidebar_file (snd (addTab n url title pin w)) = Some (Json d) \/
  (dir_writable w = true /\ file_writable w = true /\
   exists k s cid, findSpace n (primary_spaces d) = Some (k, s) /\
     truthy (space_id s) = true /\
     select_container pin (structural_ids s) = Some cid /\ truthy cid = true).
Proof.
  intros Hf. destruct (dir_writable w) eqn:Hd.
  - rewrite (addTab_run w d) by done. cbv zeta.
    destruct (findSpace n (primary_spaces d)) as [[k s]|]; [|by left].
    destruct (truthy (space_id s)) eqn:Hs; [|by left]. simpl negb. cbv iota.
    destruct (select_container pin (structural_ids s)) as [cid|] eqn:Hsel; [|by left].
    simpl truthy_opt. destruct (truthy cid) eqn:Hc; [|by left]. simpl negb. cbv iota.
    destruct (assign_items _ d) as [d1|e]; [|by left].
    destruct (file_writable w); [right | by left].
    do 2 (split; [done|]). by exists k, s, cid.
  - left. unfold addTab, try_catch, bind, loadSidebar, createBackup, bind, readFileSync,
      lift, Date_now, copyFileSync, ret, report.
    rewrite Hf. cbn. by rewrite Hf, Hd.
Qed.

Lemma deleteTab_cases w d tabId :
  sidebar_file w = Some (Json d) ->
  sidebar_file (snd (deleteTab tabId w)) = Some (Json d) \/
  (dir_writable w = true /\ file_writable w = true /\
   exists found, find_item tabId (primary_items d) = Some found).
Proof.
  intros Hf. destruct (dir_writable w) eqn:Hd.
  - rewrite (deleteTab_run w d) by done.
    destruct (find_item tabId (primary_items d)) as [found|]; [|by left].
    destruct (assign_items _ d) as [d1|e]; [|by left].
    destruct (file_writable w); [right | by left].
    do 2 (split; [done|]). by exists found.
  - left. unfold deleteTab, try_catch, bind, loadSidebar, createBackup, bind, readFileSync,
      lift, Date_now, copyFileSync, ret, report.
    rewrite Hf. cbn. by rewrite Hf, Hd.
Qed.

(** X19. The mutating operations keep the layout of the file. When the
    primary space list, the primary item list and the remote item mirror of
    the document are sequences of pairs, a token followed by the record it
    names, they still are after [createSpace], [deleteSpace], [addTab] or
    [deleteTab], whether the call succeeds or reports a failure. *)
Theorem mutations_keep_pairing :
  (forall name ic, keeps_pairing (createSpace name ic)) /\
  (forall nameOrId, keeps_pairing (deleteSpace nameOrId)) /\
  (forall nameOrId url title pin, keeps_pairing (addTab nameOrId url title pin)) /\
  (forall tabId, keeps_pairing (deleteTab tabId)).
Proof.
  split; [|split; [|split]].
  - intros name ic w d Hf (Hs & Hi & Hr).
    destruct (createSpace_cases w d name ic Hf) as [Hsame|(Hd & Hw & theme & Ht)];
      [by exists d|].
    destruct (createSpace_success w d name ic theme Hf Hd Hw Ht)
      as (d' & -> & Hsp & Hit & _ & _ & _ & _ & Hri).
    cbv zeta in Hsp, Hit, Hri. exists d'. split; [done|]. split; [|split].
    + rewrite Hsp. apply paired_app; [done|]. by repeat constructor.
    + rewrite Hit. apply paired_app; [done|]. by repeat constructor.
    + rewrite Hri. apply paired_fmap_remote; [|done].
      intros l Hl. apply paired_app; [done|]. by repeat constructor.
  - intros n w d Hf (Hs & Hi & Hr).
    destruct (deleteSpace_cases w d n Hf) as [Hsame|(Hd & Hw & k & s & Hfind & Hid)];
      [by exists d|].
    destruct (deleteSpace_success w d n k s Hf Hd Hw Hfind Hid)
      as (d' & -> & Hsp & Hit & _ & _ & _ & _ & Hri).
    cbv zeta in Hsp, Hit, Hri. exists d'. split; [done|]. split; [|split].
    + rewrite Hsp. by apply paired_filter.
    + rewrite Hit. by apply paired_filter.
    + rewrite Hri. apply paired_fmap_remote; [|done].
      intros l Hl. by apply paired_filter.
  - intros n url title pin w d Hf (Hs & Hi & Hr).
    destruct (addTab_cases w d n url title pin Hf)
      as [Hsame|(Hd & Hw & k & s & cid & Hfind & Hid & Hsel & Hcid)]; [by exists d|].
    destruct (addTab_success w d n k s url title pin cid Hf Hd Hw Hfind Hid Hsel Hcid)
      as (d' & -> & Hit & Hsp & Hri & _).
    cbv zeta in Hit, Hri. exists d'. split; [done|]. split; [|split].
    + by rewrite Hsp.
    + rewrite Hit. apply paired_push_child, paired_app; [done|]. by repeat constructor.
    + rewrite Hri. apply paired_fmap_remote; [|done].
      intros l Hl. apply paired_app; [done|]. by repeat constructor.
  - intros tabId w d Hf (Hs & Hi & Hr).
    destruct (deleteTab_cases w d tabId Hf) as [Hsame|(Hd & Hw & found & Hfound)];
      [by exists d|].
    destruct (deleteTab_present w d tabId found Hf Hd Hw Hfound)
      as (d' & -> & Hit & Hsp & Hri).
    exists d'. split; [done|]. split; [|split].
    + by rewrite Hsp.
    + rewrite Hit. unfold items_after_deleteTab.
      assert (Hflt : paired item_id (List.filter (keep_not_id tabId) (primary_items d)))
        by (by apply paired_filter).
      destruct (parentID found) as [p|]; [|done].
      destruct (truthy p); [by apply paired_detach_child | done].
    + rewrite Hri. apply paired_fmap_remote; [|done].
      intros l Hl. by apply paired_filter.
Qed.

Example demo_doc_well_paired : well_paired demo_doc.
Proof.
  split; [|split].
  - by repeat constructor.
  - by repeat constructor.
  - intros l [= <-]. by repeat constructor.
Qed.
